(** * WordPress to Contentful migration script: a shallow embedding

    The development follows the migration script (the current variant with
    pagination and rich text, and the legacy [migration.js] where the two
    agree).  JavaScript strings are modelled as [string]; every character is
    one code unit below 256 (the Latin-1 range), which covers the markers,
    separators and URLs the script inspects.  Numbers read from the WordPress
    JSON are integers and are modelled as [Z]; array lengths and page numbers
    as [nat].  An exception raised by the script is an explicit [Throw]. *)

From Stdlib Require Import ZArith Ascii String List Lia ZifyNat DecimalString Sorted.
From stdpp Require Import base option list strings gmap.

(** ** JavaScript values and built-ins used by the script *)

Module Js.

(** JSON leaves as the script sees them. *)
Inductive jsval : Type :=
| JUndefined
| JNull
| JBool (b : bool)
| JNum (z : Z)
| JStr (s : string).

(** [ToBoolean]. *)
Definition truthy (v : jsval) : bool :=
  match v with
  | JUndefined | JNull => false
  | JBool b => b
  | JNum z => negb (z =? 0)%Z
  | JStr s => negb (String.eqb s EmptyString)
  end.

(** [a || b]. *)
Definition or_else (a b : jsval) : jsval := if truthy a then a else b.

(** [typeof v === 'string']. *)
Definition is_string (v : jsval) : bool :=
  match v with JStr _ => true | _ => false end.

(** What a thrown exception carries. *)
Inductive error : Type :=
| TypeError (msg : string).

Inductive result (A : Type) : Type :=
| Ok (a : A)
| Throw (e : error).
Arguments Ok {A} a.
Arguments Throw {A} e.

Definition bind {A B} (r : result A) (k : A -> result B) : result B :=
  match r with
  | Ok a => k a
  | Throw e => Throw e
  end.

(** Template-literal rendering of an integer.  The numbers rendered are ids
    and positions, integers below 10^21 in magnitude, for which JavaScript
    prints every digit. *)
Definition num_to_string (z : Z) : string :=
  NilZero.string_of_int (Z.to_int z).

Definition nat_to_string (n : nat) : string := num_to_string (Z.of_nat n).

(** [s.split(sep)] for a one-character separator: never empty. *)
Fixpoint split (sep : ascii) (s : string) : list string :=
  match s with
  | EmptyString => [EmptyString]
  | String c s' =>
      if Ascii.eqb c sep then EmptyString :: split sep s'
      else match split sep s' with
           | [] => [String c EmptyString]
           | w :: ws => String c w :: ws
           end
  end.

(** [arr.pop()] on a freshly split string (the array is never empty). *)
Definition pop (l : list string) : string := List.last l EmptyString.

(** [s.startsWith(p)]. *)
Fixpoint startsWith (p s : string) : bool :=
  match p with
  | EmptyString => true
  | String a p' =>
      match s with
      | EmptyString => false
      | String b s' => Ascii.eqb a b && startsWith p' s'
      end
  end.

(** [s.substring(n)] with a single argument. *)
Fixpoint substring_from (n : nat) (s : string) : string :=
  match n, s with
  | O, _ => s
  | S _, EmptyString => EmptyString
  | S k, String _ s' => substring_from k s'
  end.

(** Cut [s] at the first occurrence of [pat]: the text before and after. *)
Fixpoint cut (pat s : string) : option (string * string) :=
  if startsWith pat s then Some (EmptyString, substring_from (String.length pat) s)
  else match s with
       | EmptyString => None
       | String c s' =>
           match cut pat s' with
           | Some (b, a) => Some (String c b, a)
           | None => None
           end
       end.

(** The double-quote character, and a text put between double quotes. *)
Definition dquote : ascii := ascii_of_nat 34.
Definition quoted (s : string) : string :=
  String dquote (s +:+ String dquote EmptyString).

(** [s.includes(pat)]. *)
Definition includes (pat s : string) : bool :=
  match cut pat s with Some _ => true | None => false end.

(** [s.split(pat)[0]] for a non-empty separator. *)
Definition split_0 (pat s : string) : string :=
  match cut pat s with Some (b, _) => b | None => s end.

(** [s.split(pat)[1]] for a non-empty separator; [None] is [undefined]. *)
Definition split_1 (pat s : string) : option string :=
  match cut pat s with
  | Some (_, a) => Some (split_0 pat a)
  | None => None
  end.

(** [arr.join(', ')]. *)
Fixpoint join (sep : string) (l : list string) : string :=
  match l with
  | [] => EmptyString
  | [x] => x
  | x :: xs => x +:+ sep +:+ join sep xs
  end.

(** White space and line terminators (the code units below 256 among them):
    tab, line feed, vertical tab, form feed, carriage return, space, no-break
    space.  Used by [trim] and by [\s] in regular expressions. *)
Definition is_space (c : ascii) : bool :=
  let n := nat_of_ascii c in
  (((9 <=? n) && (n <=? 13)) || (n =? 32) || (n =? 160))%nat.

Fixpoint trimStart (s : string) : string :=
  match s with
  | EmptyString => EmptyString
  | String c s' => if is_space c then trimStart s' else s
  end.

Fixpoint trimEnd (s : string) : string :=
  match s with
  | EmptyString => EmptyString
  | String c s' =>
      match trimEnd s' with
      | EmptyString => if is_space c then EmptyString else String c EmptyString
      | t => String c t
      end
  end.

(** [s.trim()]. *)
Definition trim (s : string) : string := trimEnd (trimStart s).

(** Characters [encodeURI] leaves alone: letters, digits and
    [; , / ? : @ & = + $ - _ . ! ~ * ' ( ) #]. *)
Definition uri_unescaped (c : ascii) : bool :=
  let n := nat_of_ascii c in
  ((65 <=? n) && (n <=? 90))%nat || ((97 <=? n) && (n <=? 122))%nat ||
  ((48 <=? n) && (n <=? 57))%nat ||
  existsb (Ascii.eqb c) (list_ascii_of_string ";,/?:@&=+$-_.!~*'()#").

Definition hex_digit (n : nat) : ascii :=
  if (n <? 10)%nat then ascii_of_nat (48 + n) else ascii_of_nat (55 + n).

Definition percent (n : nat) : string :=
  String "%" (String (hex_digit (n / 16)) (String (hex_digit (n mod 16)) EmptyString)).

(** One code unit through [encodeURI]: kept, or its UTF-8 octets escaped. *)
Definition encode_unit (c : ascii) : string :=
  let n := nat_of_ascii c in
  if uri_unescaped c then String c EmptyString
  else if (n <? 128)%nat then percent n
  else percent (192 + n / 64) +:+ percent (128 + n mod 64).

(** [encodeURI(s)]. *)
Fixpoint encodeURI (s : string) : string :=
  match s with
  | EmptyString => EmptyString
  | String c s' => encode_unit c +:+ encodeURI s'
  end.

End Js.

#[global] Instance result_ret : MRet Js.result := fun _ a => Js.Ok a.
#[global] Instance result_bind : MBind Js.result := fun _ _ k r => Js.bind r k.

(** ** Data read from WordPress *)

(** A record of an auxiliary collection (tag, category or media item): the
    fields the script reads.  A tag or category has a [name]; a media item has
    [source_url], [alt_text] and the [post] it is attached to.  A missing
    name is the empty string (both are falsy). *)
Module Api.
Record obj : Type := {
  id : Z;
  name : string;
  source_url : string;
  alt_text : Js.jsval;
  post : Js.jsval
}.

(** What [fetchDataWithPagination] resolved to for one endpoint, with the
    endpoint name attached by [migrateContent]. *)
Record result : Type := {
  success : bool;
  endpoint : string;
  data : list obj
}.
End Api.

(** A post as WordPress returns it ([postData]). *)
Module Raw.
Record post : Type := {
  id : Z;
  type : string;
  title_rendered : string;
  slug : string;
  content_rendered : string;
  date_gmt : string;
  featured_media : Z;
  tags : list Z;
  categories : list Z
}.
End Raw.

(** An element of [contentImages]. *)
Module Img.
Record t : Type := {
  link : string;
  description : Js.jsval;
  title : Js.jsval;
  mediaId : Js.jsval;
  postId : Js.jsval;
  featured : bool
}.
End Img.

(** [fieldData]: a post after [mapData] reduced it. *)
Module Post.
Record t : Type := {
  id : Z;
  type : string;
  postTitle : string;
  slug : string;
  content : string;
  publishDate : string;
  featuredImage : Z;
  tags : list string;
  categories : list string;
  contentImages : list Img.t
}.
End Post.

(** Lines written to the console that the properties below speak about. *)
Inductive diag : Type :=
| NoDataForResource (resourceName : string)
| NoLabelData (labelType : string)
| LabelNotFound (labelType : string) (labelId : Z)
| FeaturedMediaNotFound (mediaId : Z) (slug : string).

(** ** Resource lookup *)

(** [getApiDataType]: the successful results of the named endpoint, with the
    console line written when there is none. *)
Definition getApiDataType (apiData : list Api.result) (resourceName : string)
  : list diag * list Api.result :=
  let apiType :=
    List.filter (fun o => String.eqb (Api.endpoint o) resourceName && Api.success o) apiData in
  match apiType with
  | [] => ([NoDataForResource resourceName], [])
  | _ => ([], apiType)
  end.

(** The filter callback of [getPostLabels]: [if (obj.id === labelId) return obj.name]. *)
Definition label_matches (labelId : Z) (o : Api.obj) : bool :=
  (Api.id o =? labelId)%Z && Js.truthy (Js.JStr (Api.name o)).

(** One turn of the [for (const labelId of postItems)] loop. *)
Definition label_step (labelType : string) (apiTag : Api.result)
    (st : list diag * list string) (labelId : Z) : list diag * list string :=
  let '(log, labels) := st in
  match List.filter (label_matches labelId) (Api.data apiTag) with
  | o :: _ =>
      if Js.truthy (Js.JStr (Api.name o)) then (log, labels ++ [Api.name o])
      else (log ++ [LabelNotFound labelType labelId], labels)
  | [] => (log ++ [LabelNotFound labelType labelId], labels)
  end.

(** [getPostLabels]: console lines and the label names. *)
Definition getPostLabels (apiData : list Api.result) (postItems : list Z)
    (labelType : string) : list diag * list string :=
  let '(log0, found) := getApiDataType apiData labelType in
  match found with
  | [] => (log0 ++ [NoLabelData labelType], [])
  | apiTag :: _ => fold_left (label_step labelType apiTag) postItems (log0, [])
  end.

(** ** The image pattern

    [imageRegex] of [getPostBodyImages]: the text [<img], one white-space
    character, a lazy run of characters other than [>], [src], [=] with
    optional white space around it, a quote (single or double), group 1 (a
    lazy run of characters that are not quotes), a quote, a lazy run of
    characters other than [>], and [>]; flag [g].  It is matched the way a
    backtracking engine does: the lazy run before [src] grows one character
    at a time until the rest of the pattern matches. *)
Module ImageRegex.

Fixpoint span (p : ascii -> bool) (s : string) : string * string :=
  match s with
  | EmptyString => (EmptyString, EmptyString)
  | String c s' =>
      if p c then let '(a, b) := span p s' in (String c a, b)
      else (EmptyString, s)
  end.

Definition is_quote (c : ascii) : bool :=
  Ascii.eqb c "'" || Ascii.eqb c Js.dquote.

Definition not_gt (c : ascii) : bool := negb (Ascii.eqb c ">").

(** The pattern from [src] on, at the start of [t]: the text matched, group 1,
    and what follows the match. *)
Definition match_src (t : string) : option (string * string * string) :=
  if Js.startsWith "src" t then
    let '(ws1, t2) := span Js.is_space (Js.substring_from 3 t) in
    match t2 with
    | String eq t3 =>
        if Ascii.eqb eq "=" then
          let '(ws2, t4) := span Js.is_space t3 in
          match t4 with
          | String q1 t5 =>
              if is_quote q1 then
                let '(g, t6) := span (fun c => negb (is_quote c)) t5 in
                match t6 with
                | String q2 t7 =>
                    let '(m, t8) := span not_gt t7 in
                    match t8 with
                    | String gt t9 =>
                        Some ("src" +:+ ws1 +:+ String eq ws2 +:+
                              String q1 (g +:+ String q2 (m +:+ String gt EmptyString)),
                              g, t9)
                    | EmptyString => None
                    end
                | EmptyString => None
                end
              else None
          | EmptyString => None
          end
        else None
    | EmptyString => None
    end
  else None.

(** The lazy run of characters other than [>], then the pattern from [src] on. *)
Fixpoint match_attrs (t : string) : option (string * string * string) :=
  match match_src t with
  | Some r => Some r
  | None =>
      match t with
      | EmptyString => None
      | String c t' =>
          if not_gt c then
            match match_attrs t' with
            | Some (m, g, rest) => Some (String c m, g, rest)
            | None => None
            end
          else None
      end
  end.

(** The whole pattern at the start of [s]. *)
Definition match_at (s : string) : option (string * string * string) :=
  if Js.startsWith "<img" s then
    match Js.substring_from 4 s with
    | String c t =>
        if Js.is_space c then
          match match_attrs t with
          | Some (m, g, rest) => Some ("<img" +:+ String c m, g, rest)
          | None => None
          end
        else None
    | EmptyString => None
    end
  else None.

(** What [exec] returns: [foundImage.index], [foundImage[0]], [foundImage[1]]. *)
Record found : Type := {
  index : nat;
  whole : string;
  group1 : string
}.

(** The successive results of [imageRegex.exec(s)] until it returns [null]:
    [skip] characters still belong to the previous match, [at_] is the offset
    of [s] in the text. *)
Fixpoint exec_from (skip at_ : nat) (s : string) : list found :=
  match s with
  | EmptyString => []
  | String _ s' =>
      match skip with
      | S k => exec_from k (S at_) s'
      | O =>
          match match_at s with
          | Some (m, g, _) =>
              {| index := at_; whole := m; group1 := g |}
                :: exec_from (String.length m - 1) (S at_) s'
          | None => exec_from 0 (S at_) s'
          end
      end
  end.

Definition exec_all (s : string) : list found := exec_from 0 0 s.

End ImageRegex.

(** ** Post normalisation *)

Definition featuredImageRef (postData : Raw.post) (mediaObj : Api.obj) : Img.t :=
  let fallback :=
    Js.JStr ("Featured image for post " +:+ Js.num_to_string (Raw.id postData)) in
  {| Img.link := Api.source_url mediaObj;
     Img.description := Js.or_else (Api.alt_text mediaObj) fallback;
     Img.title := Js.or_else (Api.alt_text mediaObj) fallback;
     Img.mediaId := Js.JNum (Api.id mediaObj);
     Img.postId := Api.post mediaObj;
     Img.featured := true |}.

(** The separator [alt=] followed by a double quote. *)
Definition alt_marker : string := "alt=" +:+ String Js.dquote EmptyString.

(** The [alt] text of one match: the test [includes] and the element [1] of
    the split are one cut of the tag at the first marker. *)
Definition altOf (postData : Raw.post) (foundImage : ImageRegex.found) : string :=
  let fallback := "Image from post " +:+ Js.num_to_string (Raw.id postData) in
  match Js.cut alt_marker (ImageRegex.whole foundImage) with
  | Some (_, after) =>
      let alt := Js.split_0 (String Js.dquote EmptyString) (Js.split_0 alt_marker after) in
      if String.eqb alt EmptyString then fallback else alt
  | None => fallback
  end.

Definition bodyImageRef (postData : Raw.post) (foundImage : ImageRegex.found) : Img.t :=
  {| Img.link := ImageRegex.group1 foundImage;
     Img.description := Js.JStr (altOf postData foundImage);
     Img.title := Js.JStr (altOf postData foundImage);
     Img.mediaId := Js.JUndefined;
     Img.postId := Js.JNum (Raw.id postData);
     Img.featured := false |}.

(** The [if (postData.featured_media > 0)] block: console lines and either the
    images pushed so far or the exception. *)
Definition featuredPart (apiData : list Api.result) (postData : Raw.post)
  : list diag * Js.result (list Img.t) :=
  if (0 <? Raw.featured_media postData)%Z then
    let '(log0, found) := getApiDataType apiData "media" in
    match found with
    | [] => (log0, Js.Throw (Js.TypeError "Cannot read properties of undefined (reading 'data')"))
    | mediaData :: _ =>
        match List.filter (fun o => (Api.id o =? Raw.featured_media postData)%Z)
                          (Api.data mediaData) with
        | mediaObj :: _ => (log0, Js.Ok [featuredImageRef postData mediaObj])
        | [] =>
            (log0 ++ [FeaturedMediaNotFound (Raw.featured_media postData) (Raw.slug postData)],
             Js.Ok [])
        end
    end
  else ([], Js.Ok []).

(** [getPostBodyImages]. *)
Definition getPostBodyImages (apiData : list Api.result) (postData : Raw.post)
  : list diag * Js.result (list Img.t) :=
  let '(log, pushed) := featuredPart apiData postData in
  (log,
   bodyImages ← pushed;
   mret (fold_left (fun acc foundImage => acc ++ [bodyImageRef postData foundImage])
                   (ImageRegex.exec_all (Raw.content_rendered postData)) bodyImages)).

(** The body of the loop of [mapData]: the reduced post. *)
Definition fieldData (apiData : list Api.result) (postData : Raw.post)
  : list diag * Js.result Post.t :=
  let '(log1, tags) := getPostLabels apiData (Raw.tags postData) "tags" in
  let '(log2, categories) := getPostLabels apiData (Raw.categories postData) "categories" in
  let '(log3, images) := getPostBodyImages apiData postData in
  (log1 ++ log2 ++ log3,
   contentImages ← images;
   mret {| Post.id := Raw.id postData;
           Post.type := Raw.type postData;
           Post.postTitle := Raw.title_rendered postData;
           Post.slug := Raw.slug postData;
           Post.content := Raw.content_rendered postData;
           Post.publishDate := Raw.date_gmt postData +:+ "+00:00";
           Post.featuredImage := Raw.featured_media postData;
           Post.tags := tags;
           Post.categories := categories;
           Post.contentImages := contentImages |}).

(** ** Asset requests *)

(** The data tree of one asset; the [en-US] locale wrappers are left out. *)
Module AssetObj.
Record t : Type := {
  title : string;
  description : string;
  contentType : string;
  fileName : string;
  upload : string
}.
End AssetObj.

(** [arr.entries()]. *)
Definition entries {A} (l : list A) : list (nat * A) := combine (seq 0 (length l)) l.

Definition string_or (v : Js.jsval) (fallback : string) : string :=
  match v with Js.JStr s => s | _ => fallback end.

Definition assetObj (wpPost : Post.t) (imgIndex : nat) (contentImage : Img.t) : AssetObj.t :=
  let fallback :=
    "Image " +:+ Js.nat_to_string (imgIndex + 1) +:+ " from " +:+ Post.slug wpPost in
  {| AssetObj.title := string_or (Img.title contentImage) fallback;
     AssetObj.description := string_or (Img.description contentImage) fallback;
     AssetObj.contentType := "image/jpeg";
     AssetObj.fileName := Js.pop (Js.split "/" (Img.link contentImage));
     AssetObj.upload := Js.encodeURI (Img.link contentImage) |}.

(** The two nested loops of [buildContentfulAssets]: [assetPromises]. *)
Definition buildContentfulAssets (posts : list Post.t) : list AssetObj.t :=
  fold_left
    (fun assetPromises wpPost =>
       fold_left
         (fun acc '(imgIndex, contentImage) => acc ++ [assetObj wpPost imgIndex contentImage])
         (entries (Post.contentImages wpPost)) assetPromises)
    posts [].

(** ** Content conversion *)

(** The replacement function of the rule [replaceWordPressImages]: [assets] is
    [contentfulData.assets]; [src] and [alt] are what [getAttribute] returns
    ([None] is [null]). *)
Definition replaceWordPressImages (assets : list string) (src alt : option string)
  : Js.result string :=
  match src with
  | None =>
      match assets with
      | [] => Js.Ok ("![" +:+ default "null" alt +:+ "](undefined)")
      | _ :: _ => Js.Throw (Js.TypeError "Cannot read properties of null (reading 'split')")
      end
  | Some s =>
      let assetUrl :=
        head (List.filter
                (fun asset =>
                   String.eqb (Js.pop (Js.split "/" asset)) (Js.pop (Js.split "/" s))
                   && Js.truthy (Js.JStr asset))
                assets) in
      Js.Ok ("![" +:+ default "null" alt +:+ "](" +:+ default "undefined" assetUrl +:+ ")")
  end.

(** The pattern [!\[.*?\]\(undefined\)] with flag [g], replaced by nothing. *)
Module Placeholder.

Definition is_line_terminator (c : ascii) : bool :=
  let n := nat_of_ascii c in ((n =? 10) || (n =? 13))%nat.

(** A lazy run of characters other than line terminators, then [pat]: the
    number of characters matched. *)
Fixpoint lazy_to (pat t : string) : option nat :=
  if Js.startsWith pat t then Some (String.length pat)
  else match t with
       | EmptyString => None
       | String c t' =>
           if is_line_terminator c then None
           else match lazy_to pat t' with
                | Some n => Some (S n)
                | None => None
                end
       end.

(** Length of the match at the start of [s], if there is one. *)
Definition match_at (s : string) : option nat :=
  if Js.startsWith "![" s then
    match lazy_to "](undefined)" (Js.substring_from 2 s) with
    | Some n => Some (2 + n)
    | None => None
    end
  else None.

(** [s.replace(pattern, '')]: [skip] characters still belong to the match
    being removed. *)
Fixpoint strip_from (skip : nat) (s : string) : string :=
  match s with
  | EmptyString => EmptyString
  | String c s' =>
      match skip with
      | S k => strip_from k s'
      | O =>
          match match_at s with
          | Some n => strip_from (n - 1) s'
          | None => String c (strip_from 0 s')
          end
      end
  end.

Definition strip (s : string) : string := strip_from 0 s.

End Placeholder.

(** A node of a rich-text document.  The constant members [data: {}] and
    [marks: []] are left out. *)
#[warnings="-register-all"]
Inductive node : Type :=
| Text (value : string)
| Block (nodeType : string) (content : list node).

(** The [if]/[else if] chain of [convertToRichText] on one trimmed line: the
    nodes pushed. *)
Definition classify (trimmedLine : string) : list node :=
  if Js.startsWith "# " trimmedLine then
    [Block "heading-1" [Text (Js.substring_from 2 trimmedLine)]]
  else if Js.startsWith "## " trimmedLine then
    [Block "heading-2" [Text (Js.substring_from 3 trimmedLine)]]
  else if Js.startsWith "### " trimmedLine then
    [Block "heading-3" [Text (Js.substring_from 4 trimmedLine)]]
  else if Js.startsWith "> " trimmedLine then
    [Block "blockquote" [Block "paragraph" [Text (Js.substring_from 2 trimmedLine)]]]
  else if (0 <? String.length trimmedLine)%nat then
    [Block "paragraph" [Text trimmedLine]]
  else [].

Definition newline : ascii := ascii_of_nat 10.

(** The second half of [convertToRichText]: from the markdown to the document. *)
Definition linesToDocument (markdown : string) : node :=
  let lines :=
    List.filter (fun line => (0 <? String.length (Js.trim line))%nat)
                (Js.split newline markdown) in
  Block "document"
    (fold_left (fun content line => content ++ classify (Js.trim line)) lines []).

(** What [contentFormat] of the configuration selects. *)
Inductive contentFormat : Type := RichText | Markdown.

(** The value of a field of a post, before and after conversion. *)
Inductive value : Type :=
| VNum (z : Z)
| VStr (s : string)
| VNames (l : list string)
| VImages (l : list Img.t)
| VDocument (d : node)
| VLink (linkType id : string).

(** A published asset as [createContentfulAssets] records it. *)
Module Asset.
Record t : Type := {
  assetId : string;
  fileName : string
}.
End Asset.

(** What the destination does with one asset request. *)
Inductive upload : Type :=
| CreateFails
| ProcessFails
| PublishFails
| Published (asset : Asset.t).

Section Publishing.

(** [turndownService.turndown], a library outside the repository: the
    markdown for an HTML text, given [contentfulData.assets] (read by the image
    rule), or the exception that a rule of the repository throws while the
    library runs it. *)
Variable turndown : list string -> string -> Js.result string.

(** [config.contentful.contentFormat]. *)
Variable format : contentFormat.

(** [contentfulData.assets]: the URLs of the published assets listed by the
    destination. *)
Variable assetUrls : list string.

(** [convertToRichText]. *)
Definition convertToRichText (htmlContent : string) : Js.result node :=
  let cleanContent := Placeholder.strip htmlContent in
  markdown ← turndown assetUrls cleanContent;
  mret (linesToDocument markdown).

(** ** Asset upload *)

(** The destination: the fate of the request at each position. *)
Variable environment : nat -> AssetObj.t -> upload.

(** What the promise of one asset resolves to: the published asset, or [null]
    after the [catch]. *)
Definition assetPromise (index : nat) (asset : AssetObj.t) : option Asset.t :=
  match environment index asset with
  | Published a => Some a
  | CreateFails | ProcessFails | PublishFails => None
  end.

(** [createContentfulAssets]: what [Promise.all] resolves to (one element per
    request, in request order) and the array [assets] afterwards.  [settled]
    lists the positions in the order in which their chains finished, which is
    the order of the pushes onto [assets]. *)
Definition createContentfulAssets (settled : list nat) (promises : list AssetObj.t)
  : list (option Asset.t) * list Asset.t :=
  (map (fun '(index, asset) => assetPromise index asset) (entries promises),
   fold_left
     (fun assets index =>
        match promises !! index with
        | Some asset =>
            match assetPromise index asset with
            | Some a => assets ++ [a]
            | None => assets
            end
        | None => assets
        end)
     settled []).

(** ** Entry payloads *)

(** [Object.entries(post)]. *)
Definition postEntries (post : Post.t) : list (string * value) :=
  [ ("id", VNum (Post.id post));
    ("type", VStr (Post.type post));
    ("postTitle", VStr (Post.postTitle post));
    ("slug", VStr (Post.slug post));
    ("content", VStr (Post.content post));
    ("publishDate", VStr (Post.publishDate post));
    ("featuredImage", VNum (Post.featuredImage post));
    ("tags", VNames (Post.tags post));
    ("categories", VNames (Post.categories post));
    ("contentImages", VImages (Post.contentImages post)) ].

Definition keysToSkip : list string := ["id"; "type"; "contentImages"].

(** [postValue > 0] and [postValue === 0]. *)
Definition gt_zero (v : value) : bool :=
  match v with VNum z => (0 <? z)%Z | _ => false end.
Definition is_zero (v : value) : bool :=
  match v with VNum z => (z =? 0)%Z | _ => false end.

(** The conversion of the [content] field; an exception of the conversion
    leaves the loop over the fields. *)
Definition convertContent (postValue : value) : Js.result value :=
  match postValue with
  | VStr html =>
      match format with
      | RichText => document ← convertToRichText html; mret (VDocument document)
      | Markdown => markdown ← turndown assetUrls html; mret (VStr markdown)
      end
  | v => mret v
  end.

(** [postValue.join(', ')] when the value is an array. *)
Definition joinNames (postValue : value) : value :=
  match postValue with
  | VNames l => VStr (Js.join ", " l)
  | v => v
  end.

(** The link to the asset of the featured image: the [filter] over [assets],
    its element [0], and the read of [assetId]. *)
Definition featuredLink (assets : list Asset.t) (post : Post.t) : Js.result value :=
  match assets, Post.contentImages post with
  | [], _ => Js.Throw (Js.TypeError "Cannot read properties of undefined (reading 'assetId')")
  | _ :: _, [] => Js.Throw (Js.TypeError "Cannot read properties of undefined (reading 'link')")
  | _ :: _, first :: _ =>
      match List.filter
              (fun asset => String.eqb (Asset.fileName asset)
                                       (Js.pop (Js.split "/" (Img.link first))))
              assets with
      | assetObj :: _ => Js.Ok (VLink "Asset" (Asset.assetId assetObj))
      | [] => Js.Throw (Js.TypeError "Cannot read properties of undefined (reading 'assetId')")
      end
  end.

(** One turn of the loop over [Object.entries(post)]; the [en-US] wrapper of
    every field is left out. *)
Definition fieldStep (assets : list Asset.t) (post : Post.t)
    (postFields : gmap string value) (entry : string * value)
  : Js.result (gmap string value) :=
  let '(postKey, postValue) := entry in
  postValue ←
    (if String.eqb postKey "content" then convertContent postValue else mret postValue);
  let postValue :=
    if String.eqb postKey "tags" || String.eqb postKey "categories"
    then joinNames postValue else postValue in
  let postFields :=
    if existsb (String.eqb postKey) keysToSkip then postFields
    else <[postKey := postValue]> postFields in
  postFields ←
    (if String.eqb postKey "featuredImage" && gt_zero postValue then
       link ← featuredLink assets post;
       mret (<["featuredImage" := link]> postFields)
     else mret postFields);
  mret (if String.eqb postKey "featuredImage" && is_zero postValue
        then delete "featuredImage" postFields else postFields).

Fixpoint foldM {A B} (f : B -> A -> Js.result B) (l : list A) (b : B) : Js.result B :=
  match l with
  | [] => Js.Ok b
  | a :: l' => b' ← f b a; foldM f l' b'
  end.

(** The fields built for one post. *)
Definition postFields (assets : list Asset.t) (post : Post.t)
  : Js.result (gmap string value) :=
  foldM (fieldStep assets post) (postEntries post) ∅.

(** The loop of [createContentfulPosts]: the payloads handed to
    [createContentfulEntries], unless building one of them throws. *)
Definition createContentfulPosts (assets : list Asset.t) (posts : list Post.t)
  : Js.result (list (gmap string value)) :=
  foldM (fun promises post => fields ← postFields assets post; mret (promises ++ [fields]))
        posts [].

(** The destination: whether the entry at each position gets created and
    published. *)
Variable entryAccepted : nat -> gmap string value -> bool.

(** [createContentfulEntries]: what [Promise.all] resolves to, the entry or
    [null] after the [catch]. *)
Definition createContentfulEntries (promises : list (gmap string value))
  : list (option (gmap string value)) :=
  map (fun '(index, post) => if entryAccepted index post then Some post else None)
      (entries promises).

End Publishing.

(** [getAndStoreAssets]: [listing] is the answer to the request for the
    published assets, the URLs of its items ([None] when the request
    fails or the answer cannot be read); the URLs become
    [contentfulData.assets], and only then is [createContentfulPosts] called,
    which hands its payloads to [createContentfulEntries] unless it throws.
    An exception of [createContentfulPosts] ends in the [catch] of this
    function. *)
Definition getAndStoreAssets (turndown : list string -> string -> Js.result string)
    (format : contentFormat) (listing : option (list string))
    (entryAccepted : nat -> gmap string value -> bool)
    (assets : list Asset.t) (posts : list Post.t)
  : option (Js.result (list (option (gmap string value)))) :=
  assetUrls ← listing;
  Some (promises ← createContentfulPosts turndown format assetUrls assets posts;
        mret (createContentfulEntries entryAccepted promises)).

(** From the asset requests to the entries: [buildContentfulAssets],
    [createContentfulAssets], then [getAndStoreAssets].  The last component is
    [None] when [createContentfulPosts] was never called. *)
Definition publish (turndown : list string -> string -> Js.result string)
    (format : contentFormat) (listing : option (list string))
    (environment : nat -> AssetObj.t -> upload)
    (entryAccepted : nat -> gmap string value -> bool)
    (settled : list nat) (posts : list Post.t)
  : list (option Asset.t) * list Asset.t
    * option (Js.result (list (option (gmap string value)))) :=
  let '(resolved, assets) :=
    createContentfulAssets environment settled (buildContentfulAssets posts) in
  (resolved, assets, getAndStoreAssets turndown format listing entryAccepted assets posts).

(** ** Paginated fetch *)

Module Fetch.

(** What [axios.get] gives for one page: the array [response.data] with the
    parsed [x-wp-total] header ([None] when absent or not a number), or a
    rejection. *)
Inductive response (item : Type) : Type :=
| Response (data : list item) (x_wp_total : option nat)
| Rejected.
Arguments Response {item} data x_wp_total.
Arguments Rejected {item}.

(** The variables of the loop, with the list of the requests issued so far
    as pairs [(per_page, page)]. *)
Record state (item : Type) : Type := {
  allData : list item;
  page : nat;
  hasMorePages : bool;
  requests : list (nat * nat)
}.
Arguments allData {item} s.
Arguments page {item} s.
Arguments hasMorePages {item} s.
Arguments requests {item} s.

(** The object returned, with the requests issued. *)
Record fetched (item : Type) : Type := {
  success : bool;
  data : list item;
  error : option string;
  issued : list (nat * nat)
}.
Arguments success {item} f.
Arguments data {item} f.
Arguments error {item} f.
Arguments issued {item} f.

Definition maxPerPage : nat := 100.

Section Loop.
Context {item : Type}.

(** The source: the answer to [baseUrl?per_page=..&page=..]. *)
Variable get : nat -> nat -> response item.
Variable totalItemsNeeded : nat.

Definition init : state item :=
  {| allData := []; page := 1; hasMorePages := true; requests := [] |}.

(** The condition of the [while]. *)
Definition continue (st : state item) : bool :=
  hasMorePages st && (length (allData st) <? totalItemsNeeded)%nat.

(** [totalAvailable && allData.length >= totalAvailable]. *)
Definition reachedTotal (totalAvailable : option nat) (len : nat) : bool :=
  match totalAvailable with
  | Some t => (0 <? t)%nat && (t <=? len)%nat
  | None => false
  end.

(** The body of the [while]. *)
Definition body (st : state item) : state item :=
  let itemsToFetch := Nat.min maxPerPage (totalItemsNeeded - length (allData st)) in
  let issued := requests st ++ [(itemsToFetch, page st)] in
  match get itemsToFetch (page st) with
  | Response [] _ | Rejected =>
      {| allData := allData st; page := page st; hasMorePages := false; requests := issued |}
  | Response responseData totalAvailable =>
      let allData' := allData st ++ responseData in
      {| allData := allData';
         page := S (page st);
         hasMorePages :=
           if reachedTotal totalAvailable (length allData') then false
           else hasMorePages st;
         requests := issued |}
  end.

(** The [while] loop; [None] when [fuel] turns of the loop were not enough. *)
Fixpoint loop (fuel : nat) (st : state item) : option (state item) :=
  if continue st then
    match fuel with
    | O => None
    | S fuel' => loop fuel' (body st)
    end
  else Some st.

Definition finish (st : state item) : fetched item :=
  {| success := (0 <? length (allData st))%nat;
     data := allData st;
     error := if (length (allData st) =? 0)%nat then Some "No data retrieved" else None;
     issued := requests st |}.

(** [fetchDataWithPagination]: every turn of the loop that does not end it
    adds an item, so [totalItemsNeeded] turns are enough. *)
Definition fetchDataWithPagination : option (fetched item) :=
  finish <$> loop totalItemsNeeded init.

End Loop.

(** A WordPress collection of [items] behind the URL.  The collection is not
    part of the repository: this is the paging of the WordPress REST API the
    URLs are built for.  [per_page] must lie between 1 and 100, page [page]
    starts at offset [(page - 1) * per_page], and every answer carries the
    size of the collection in [x-wp-total].  A page past the end is empty (an
    error answer there ends the loop in the same way). *)
Definition wordpress {item : Type} (items : list item) (per_page page : nat)
  : response item :=
  if (per_page =? 0)%nat || (maxPerPage <? per_page)%nat || (page =? 0)%nat then Rejected
  else Response (take per_page (drop ((page - 1) * per_page) items))
                (Some (length items)).

(** [ceil(n / p)]. *)
Definition ceil_div (n p : nat) : nat := (n + p - 1) / p.

End Fetch.

(** ** Vocabulary of the properties *)

(** [c] occurs in [s]. *)
Definition occurs (c : ascii) (s : string) : Prop := In c (list_ascii_of_string s).

(** [f] is what follows the last [sep] of [s] (all of [s] when there is none). *)
Definition after_last (sep : ascii) (s f : string) : Prop :=
  ~ occurs sep f /\ (s = f \/ exists before, s = before +:+ String sep f).

(** The pieces of a split put back behind their separators. *)
Fixpoint glue (sep : ascii) (ws : list string) : string :=
  match ws with
  | [] => EmptyString
  | w :: ws' => String sep (w +:+ glue sep ws')
  end.

(** The file name of an image reference. *)
Definition fileNameOf (contentImage : Img.t) : string :=
  Js.pop (Js.split "/" (Img.link contentImage)).

(** Every image reference of every post, in post order and then image order. *)
Definition imageReferences (posts : list Post.t) : list Img.t :=
  flat_map Post.contentImages posts.

(** What a label id resolves to: the name of the first record with that id
    and a name in the fetched collection of that kind, if there is one. *)
Definition resolveLabel (apiData : list Api.result) (labelType : string) (labelId : Z)
  : option string :=
  match (getApiDataType apiData labelType).2 with
  | [] => None
  | apiTag :: _ =>
      Api.name <$>
        List.find (fun o => (Api.id o =? labelId)%Z && negb (String.eqb (Api.name o) EmptyString))
                  (Api.data apiTag)
  end.

(** The fetched media collection, when there is one. *)
Definition mediaCollection (apiData : list Api.result) : option (list Api.obj) :=
  Api.data <$> head (getApiDataType apiData "media").2.

(** The media record a featured-media id resolves to. *)
Definition resolveMedia (collection : list Api.obj) (mediaId : Z) : option Api.obj :=
  List.find (fun o => (Api.id o =? mediaId)%Z) collection.

(** The featured reference of a post: present when the id is positive and
    resolves. *)
Definition featuredRefs (collection : list Api.obj) (postData : Raw.post) : list Img.t :=
  if (0 <? Raw.featured_media postData)%Z then
    match resolveMedia collection (Raw.featured_media postData) with
    | Some mediaObj => [featuredImageRef postData mediaObj]
    | None => []
    end
  else [].

(** The body references of a post: one per match of the image pattern. *)
Definition bodyRefs (postData : Raw.post) : list Img.t :=
  map (bodyImageRef postData) (ImageRegex.exec_all (Raw.content_rendered postData)).



(** The first asset, in the order of the array [assets], with a file name. *)
Definition firstAssetNamed (assets : list Asset.t) (name : string) : option Asset.t :=
  List.find (fun asset => String.eqb (Asset.fileName asset) name) assets.


(** ** Sample data *)

Module Sample.

Definition label (i : Z) (n : string) : Api.obj :=
  {| Api.id := i; Api.name := n; Api.source_url := EmptyString;
     Api.alt_text := Js.JUndefined; Api.post := Js.JUndefined |}.

Definition cover : Api.obj :=
  {| Api.id := 7; Api.name := EmptyString;
     Api.source_url := "http://wp/uploads/cover.jpg";
     Api.alt_text := Js.JStr "Cover"; Api.post := Js.JNum 11 |}.

Definition fetched (endpoint : string) (data : list Api.obj) : Api.result :=
  {| Api.success := (0 <? length data)%nat; Api.endpoint := endpoint; Api.data := data |}.

(** A site with one post, three tags, one category and one media item. *)
Definition apiData : list Api.result :=
  [ fetched "posts" [label 11 EmptyString];
    fetched "tags" [label 9 "Rust"; label 5 "Go"; label 7 "Zig"];
    fetched "categories" [label 3 "News"];
    fetched "media" [cover] ].

(** The same site when the media endpoint gave no item. *)
Definition apiData_no_media : list Api.result :=
  [ fetched "posts" [label 11 EmptyString];
    fetched "tags" [label 9 "Rust"; label 5 "Go"; label 7 "Zig"];
    fetched "categories" [label 3 "News"];
    fetched "media" [] ].

Definition body_html : string :=
  "<p>Intro <img class='wide' src='http://wp/uploads/a.png' alt=" +:+ Js.quoted "A" +:+
  "> and <img src=" +:+ Js.quoted "http://wp/uploads/b.jpg" +:+ "/></p>".

Definition postData : Raw.post :=
  {| Raw.id := 11; Raw.type := "post"; Raw.title_rendered := "Hello"; Raw.slug := "hello";
     Raw.content_rendered := body_html; Raw.date_gmt := "2020-01-01T00:00:00";
     Raw.featured_media := 7; Raw.tags := [5; 2; 9]%Z; Raw.categories := [3]%Z |}.

(** A post whose featured media id, 8, is not in the media collection. *)
Definition postData_dangling : Raw.post :=
  {| Raw.id := 12; Raw.type := "post"; Raw.title_rendered := "Bye"; Raw.slug := "bye";
     Raw.content_rendered := body_html; Raw.date_gmt := "2020-01-02T00:00:00";
     Raw.featured_media := 8; Raw.tags := [5]%Z; Raw.categories := [3]%Z |}.

Definition coverRef : Img.t :=
  {| Img.link := "http://wp/uploads/cover.jpg"; Img.description := Js.JStr "Cover";
     Img.title := Js.JStr "Cover"; Img.mediaId := Js.JNum 7; Img.postId := Js.JNum 11;
     Img.featured := true |}.

(** A reduced post with a featured image and no body image. *)
Definition post : Post.t :=
  {| Post.id := 11; Post.type := "post"; Post.postTitle := "Hello"; Post.slug := "hello";
     Post.content := "<p>Hi</p>"; Post.publishDate := "2020-01-01T00:00:00+00:00";
     Post.featuredImage := 7; Post.tags := ["Go"; "Rust"]; Post.categories := ["News"];
     Post.contentImages := [coverRef] |}.


(** A reduced post without featured image. *)
Definition post_plain : Post.t :=
  {| Post.id := 13; Post.type := "post"; Post.postTitle := "Plain"; Post.slug := "plain";
     Post.content := "<p>Hi</p>"; Post.publishDate := "2020-01-03T00:00:00+00:00";
     Post.featuredImage := 0; Post.tags := ["Go"; "Rust"]; Post.categories := ["News"];
     Post.contentImages := [] |}.

(** A conversion that leaves the text alone, where the markdown is not the
    point. *)
Definition plain_turndown (assetUrls : list string) (html : string) : Js.result string :=
  Js.Ok html.

(** A destination that publishes every asset under the id [asset-i]. *)
Definition accepting (index : nat) (asset : AssetObj.t) : upload :=
  Published {| Asset.assetId := "asset-" +:+ Js.nat_to_string index;
               Asset.fileName := AssetObj.fileName asset |}.

(** A destination where the upload at position [failing] fails at [stage]. *)
Definition failing_at (failing : nat) (stage : upload) (index : nat) (asset : AssetObj.t)
  : upload :=
  if (index =? failing)%nat then stage else accepting index asset.

(** Five posts, each with its own featured image [f1.jpg] to [f5.jpg]. *)
Definition featured_post (i : Z) : Post.t :=
  let n := Js.num_to_string i in
  {| Post.id := i; Post.type := "post"; Post.postTitle := "Post " +:+ n;
     Post.slug := "post-" +:+ n; Post.content := "<p>Hi</p>";
     Post.publishDate := "2020-01-01T00:00:00+00:00";
     Post.featuredImage := 100 + i; Post.tags := []; Post.categories := [];
     Post.contentImages :=
       [ {| Img.link := "http://wp/uploads/f" +:+ n +:+ ".jpg";
            Img.description := Js.JStr "Cover"; Img.title := Js.JStr "Cover";
            Img.mediaId := Js.JNum (100 + i); Img.postId := Js.JNum i;
            Img.featured := true |} ] |}.

Definition five_posts : list Post.t := map featured_post [1; 2; 3; 4; 5]%Z.

Definition published (i : nat) (n : string) : Asset.t :=
  {| Asset.assetId := "asset-" +:+ Js.nat_to_string i;
     Asset.fileName := "f" +:+ n +:+ ".jpg" |}.

(** An inline image without a matching asset, and what the image rule
    renders it to. *)
Definition lone_image : string :=
  "<img src=" +:+ Js.quoted "http://wp/uploads/x.png" +:+ " alt=" +:+ Js.quoted "a" +:+ ">".

Definition placeholder : string := "![a](undefined)".

Definition rule_turndown (assetUrls : list string) (html : string) : Js.result string :=
  Js.Ok placeholder.

End Sample.

(** ** Vocabulary of the paginated fetch *)

(** The requests for the first [k] pages, each of [maxPerPage] items. *)
Definition fullPages (k : nat) : list (nat * nat) :=
  map (fun page => (Fetch.maxPerPage, page)) (seq 1 k).

(** The variables of the loop once [k] full pages of [items] are in. *)
Definition afterFullPages {item : Type} (items : list item) (k : nat) : Fetch.state item :=
  {| Fetch.allData := take (Fetch.maxPerPage * k) items;
     Fetch.page := S k;
     Fetch.hasMorePages := true;
     Fetch.requests := fullPages k |}.

(** The number of items asked for over all the requests. *)
Definition itemsRequested (issued : list (nat * nat)) : nat := list_sum (map fst issued).

(** ** Vocabulary of the further properties *)

(** What a request brought in: the page answered, nothing for a rejection. *)
Definition answered {item : Type} (get : nat -> nat -> Fetch.response item)
    (request : nat * nat) : list item :=
  match get request.1 request.2 with
  | Fetch.Response responseData _ => responseData
  | Fetch.Rejected => []
  end.

(** A source that never answers with more items than the request asks for. *)
Definition respectsPerPage {item : Type} (get : nat -> nat -> Fetch.response item) : Prop :=
  forall per_page page responseData totalAvailable,
    get per_page page = Fetch.Response responseData totalAvailable ->
    (length responseData <= per_page)%nat.

(** What holds of the variables of the fetch loop at every turn. *)
Definition fetchInvariant {item : Type} (get : nat -> nat -> Fetch.response item)
    (totalItemsNeeded : nat) (st : Fetch.state item) : Prop :=
  map snd (Fetch.requests st) = seq 1 (length (Fetch.requests st))
  /\ Forall (fun request =>
               (1 <= request.1 <= Fetch.maxPerPage)%nat
               /\ (request.1 <= totalItemsNeeded)%nat)
            (Fetch.requests st)
  /\ (length (Fetch.requests st) <= totalItemsNeeded)%nat
  /\ Fetch.allData st = flat_map (answered get) (Fetch.requests st)
  /\ Forall (fun request => answered get request <> []) (removelast (Fetch.requests st))
  /\ (Fetch.hasMorePages st = true ->
      Fetch.page st = S (length (Fetch.requests st))
      /\ (length (Fetch.requests st) <= length (Fetch.allData st))%nat
      /\ Forall (fun request => answered get request <> []) (Fetch.requests st)).

(** Every request asks for what is still missing when it is issued, and at
    most for a page: [totalItemsNeeded] less the items that the requests
    before it brought in. *)
Definition asksForMissing {item : Type} (get : nat -> nat -> Fetch.response item)
    (totalItemsNeeded : nat) (requests : list (nat * nat)) : Prop :=
  forall i request,
    requests !! i = Some request ->
    request.1
    = Nat.min Fetch.maxPerPage
        (totalItemsNeeded - length (flat_map (answered get) (take i requests))).

(** Whether a label id resolves to no name. *)
Definition unresolved (apiData : list Api.result) (labelType : string) (labelId : Z) : bool :=
  match resolveLabel apiData labelType labelId with
  | Some _ => false
  | None => true
  end.

(** A text without quote character. *)
Definition quoteFree (s : string) : Prop :=
  Forall (fun c => ImageRegex.is_quote c = false) (list_ascii_of_string s).

(** A tag that holds [link] between two quotes and ends with [>]. *)
Definition holdsQuoted (tag link : string) : Prop :=
  exists before after q1 q2,
    ImageRegex.is_quote q1 = true /\ ImageRegex.is_quote q2 = true
    /\ tag = before +:+ String q1 (link +:+ String q2 (after +:+ ">")).

(** A post without image tag whose featured media id, 8, is not in the media
    collection of the sample site. *)
Definition postData_bare : Raw.post :=
  {| Raw.id := 14; Raw.type := "post"; Raw.title_rendered := "Bare"; Raw.slug := "bare";
     Raw.content_rendered := "<p>Only text.</p>"; Raw.date_gmt := "2020-01-04T00:00:00";
     Raw.featured_media := 8; Raw.tags := [5]%Z; Raw.categories := [3]%Z |}.

(** The same post without featured image. *)
Definition postData_text : Raw.post :=
  {| Raw.id := 15; Raw.type := "post"; Raw.title_rendered := "Text"; Raw.slug := "text";
     Raw.content_rendered := "<p>Only text.</p>"; Raw.date_gmt := "2020-01-05T00:00:00";
     Raw.featured_media := 0; Raw.tags := [5]%Z; Raw.categories := [3]%Z |}.

(** The last character of a text. *)
Fixpoint lastChar (s : string) : option ascii :=
  match s with
  | EmptyString => None
  | String c EmptyString => Some c
  | String _ s' => lastChar s'
  end.

(** A node that [convertToRichText] makes of one line: a heading of level 1
    to 3, a paragraph, or a blockquote around a paragraph, with a text that is
    not empty. *)
Definition lineNode (n : node) : Prop :=
  exists v,
    v <> EmptyString
    /\ (n = Block "heading-1" [Text v] \/ n = Block "heading-2" [Text v]
        \/ n = Block "heading-3" [Text v]
        \/ n = Block "blockquote" [Block "paragraph" [Text v]]
        \/ n = Block "paragraph" [Text v]).

(** What [convertToRichText] makes of one line: the trimmed line is a marker
    followed by a text that is not empty, and the node is the block of the
    marker around that text. *)
Definition nodeOfLine (line : string) (n : node) : Prop :=
  classify (Js.trim line) = [n]
  /\ exists marker v,
       Js.trim line = marker +:+ v /\ v <> EmptyString
       /\ ((marker = "# " /\ n = Block "heading-1" [Text v])
           \/ (marker = "## " /\ n = Block "heading-2" [Text v])
           \/ (marker = "### " /\ n = Block "heading-3" [Text v])
           \/ (marker = "> " /\ n = Block "blockquote" [Block "paragraph" [Text v]])
           \/ (marker = EmptyString /\ n = Block "paragraph" [Text v])).

(** The lines of a markdown text that are not blank. *)
Definition nonBlankLines (markdown : string) : list string :=
  List.filter (fun line => (0 <? String.length (Js.trim line))%nat)
              (Js.split newline markdown).

(** A text in which the character [c] does not occur, and one without line
    terminator. *)
Definition without (c : ascii) (s : string) : Prop :=
  Forall (fun d => Ascii.eqb d c = false) (list_ascii_of_string s).
Definition singleLine (s : string) : Prop :=
  Forall (fun d => Placeholder.is_line_terminator d = false) (list_ascii_of_string s).

(** A text of white space. *)
Definition spaces (s : string) : Prop :=
  Forall (fun c => Js.is_space c = true) (list_ascii_of_string s).

(** An image tag as it is written in the HTML: [<img], a white space,
    attributes in which [src] does not occur, [src], an equals sign inside
    optional white space, the link between two quotes, further attributes
    and [>]. *)
Module Tag.

Record t : Type := {
  space : ascii;
  before : string;
  ws1 : string;
  ws2 : string;
  q1 : ascii;
  link : string;
  q2 : ascii;
  after : string
}.

Definition srcPart (tag : t) : string :=
  "src" +:+ ws1 tag +:+ String "=" (ws2 tag) +:+
  String (q1 tag) (link tag +:+ String (q2 tag) (after tag +:+ String ">" EmptyString)).

Definition text (tag : t) : string :=
  "<img" +:+ String (space tag) (before tag +:+ srcPart tag).

Definition wellFormed (tag : t) : Prop :=
  Js.is_space (space tag) = true
  /\ without ">" (before tag)
  /\ Js.includes "src" (before tag) = false
  /\ spaces (ws1 tag) /\ spaces (ws2 tag)
  /\ ImageRegex.is_quote (q1 tag) = true /\ ImageRegex.is_quote (q2 tag) = true
  /\ quoteFree (link tag)
  /\ without ">" (after tag).

End Tag.

(** An HTML text as a sequence of texts, each followed by an image tag, and
    a last text. *)
Fixpoint htmlOf (parts : list (string * Tag.t)) (tail : string) : string :=
  match parts with
  | [] => tail
  | (text, tag) :: parts' => text +:+ Tag.text tag +:+ htmlOf parts' tail
  end.

(** Texts without the opening of an image tag around image tags as written. *)
Definition taggedHtml (parts : list (string * Tag.t)) (tail : string) : Prop :=
  Forall (fun part => Js.includes "<img" part.1 = false /\ Tag.wellFormed part.2) parts
  /\ Js.includes "<img" tail = false.

(** The HTML of the sample post as texts and tags. *)
Definition body_parts : list (string * Tag.t) :=
  [ ("<p>Intro ",
     {| Tag.space := " "; Tag.before := "class='wide' "; Tag.ws1 := EmptyString;
        Tag.ws2 := EmptyString; Tag.q1 := "'"; Tag.link := "http://wp/uploads/a.png";
        Tag.q2 := "'"; Tag.after := " alt=" +:+ Js.quoted "A" |});
    (" and ",
     {| Tag.space := " "; Tag.before := EmptyString; Tag.ws1 := EmptyString;
        Tag.ws2 := EmptyString; Tag.q1 := Js.dquote; Tag.link := "http://wp/uploads/b.jpg";
        Tag.q2 := Js.dquote; Tag.after := "/" |}) ].

(** ** Fenced code blocks: the rule [fencedCodeBlock] *)

Module CodeBlock.

(** The first child of a node as the rule reads it: its name, its [class]
    attribute ([None] is [null]) and its text. *)
Record child : Type := {
  childName : string;
  class : option string;
  textContent : string
}.

Record element : Type := {
  nodeName : string;
  firstChild : option child
}.

(** The filter of the rule. *)
Definition filter (codeBlockStyle : string) (n : element) : bool :=
  String.eqb codeBlockStyle "fenced" && String.eqb (nodeName n) "PRE"
  && match firstChild n with
     | Some c => String.eqb (childName c) "CODE"
     | None => false
     end.

Definition not_space (c : ascii) : bool := negb (Js.is_space c).

(** Group 1 of the first match of [language-] followed by one or more
    characters that are not white space, the empty text when there is no
    match. *)
Fixpoint language (className : string) : string :=
  match className with
  | EmptyString => EmptyString
  | String _ rest =>
      if Js.startsWith "language-" className then
        let '(g, _) := ImageRegex.span not_space (Js.substring_from 9 className) in
        if String.eqb g EmptyString then language rest else g
      else language rest
  end.

(** The replacement of the rule, for the fence of the options. *)
Definition replacement (fence : string) (c : child) : string :=
  String newline (String newline EmptyString) +:+ fence +:+ language (default EmptyString (class c))
  +:+ String newline EmptyString +:+ textContent c
  +:+ String newline EmptyString +:+ fence +:+ String newline (String newline EmptyString).

End CodeBlock.


(** The featured-image link of [post] can be built from [assets]: the post
    asks for none, or its first image has an asset of its file name. *)
Definition linkable (assets : list Asset.t) (post : Post.t) : Prop :=
  (Post.featuredImage post <= 0)%Z
  \/ exists first rest asset,
       Post.contentImages post = first :: rest
       /\ firstAssetNamed assets (fileNameOf first) = Some asset.

(** The conversion of the content of [post] returns. *)
Definition convertible (turndown : list string -> string -> Js.result string)
    (format : contentFormat) (assetUrls : list string) (post : Post.t) : Prop :=
  exists content,
    convertContent turndown format assetUrls (VStr (Post.content post)) = Js.Ok content.

(** The keys a payload can hold. *)
Definition payloadKeys : list string :=
  ["postTitle"; "slug"; "content"; "publishDate"; "featuredImage"; "tags"; "categories"].

(** A destination that accepts every entry. *)
Definition accepts_all (index : nat) (post : gmap string value) : bool := true.

(** ** The run: [migrateContent] and [mapData] *)

(** How the first half of the run ends: with [process.exit], or with the
    reduced posts in [wpData.posts], handed to [createForContentful]. *)
Inductive outcome : Type :=
| Exit (code : nat)
| Reduced (posts : list Post.t).

(** The loop of [mapData] over [apiPosts.data]. *)
Definition reducePosts (apiData : list Api.result) (data : list Raw.post)
  : Js.result (list Post.t) :=
  foldM (fun posts postData =>
           reduced ← (fieldData apiData postData).2; mret (posts ++ [reduced]))
        data [].

(** [mapData].  [apiPosts] is the result of the [posts] endpoint, the only
    one the filter on the endpoint name can keep; [apiData] holds the results
    of the other endpoints. *)
Definition mapData (apiPosts : Fetch.fetched Raw.post) (apiData : list Api.result)
  : Js.result outcome :=
  if negb (Fetch.success apiPosts) then Js.Ok (Exit 1)
  else if (length (Fetch.data apiPosts) =? 0)%nat then Js.Ok (Exit 0)
  else posts ← reducePosts apiData (Fetch.data apiPosts); mret (Reduced posts).

Section Run.

(** Whether [testContentfulConnection] gets through. *)
Variable connected : bool.

(** The source behind the [posts] endpoint and behind the other endpoints. *)
Variable getPosts : nat -> nat -> Fetch.response Raw.post.
Variable getRecords : string -> nat -> nat -> Fetch.response Api.obj.

(** [config.wordpress.importPostCount]. *)
Variable import_post_count : nat.

Definition maxItems (endpoint : string) : nat :=
  if String.eqb endpoint "media" then 100 else 50.

(** The fetch of an endpoint other than [posts], with its name put on. *)
Definition fetchRecords (endpoint : string) : option Api.result :=
  result ← Fetch.fetchDataWithPagination (getRecords endpoint) (maxItems endpoint);
  Some {| Api.success := Fetch.success result;
          Api.endpoint := endpoint;
          Api.data := Fetch.data result |}.

(** The results of the endpoints after [posts], in the order of the keys of
    [wpData]. *)
Definition fetchedRecords : option (list Api.result) :=
  tags ← fetchRecords "tags";
  categories ← fetchRecords "categories";
  media ← fetchRecords "media";
  Some [tags; categories; media].

(** [migrateContent]: an exception of [mapData] lands in the [catch] behind
    [Promise.all], which exits with 1. *)
Definition migrateContent : option outcome :=
  if negb connected then Some (Exit 1)
  else
    apiPosts ← Fetch.fetchDataWithPagination getPosts import_post_count;
    apiData ← fetchedRecords;
    Some (match mapData apiPosts apiData with
          | Js.Ok ended => ended
          | Js.Throw _ => Exit 1
          end).

End Run.

(** The reduced post of a raw post. *)
Definition reducedPost (apiData : list Api.result) (postData : Raw.post) : Post.t :=
  {| Post.id := Raw.id postData;
     Post.type := Raw.type postData;
     Post.postTitle := Raw.title_rendered postData;
     Post.slug := Raw.slug postData;
     Post.content := Raw.content_rendered postData;
     Post.publishDate := Raw.date_gmt postData +:+ "+00:00";
     Post.featuredImage := Raw.featured_media postData;
     Post.tags := omap (resolveLabel apiData "tags") (Raw.tags postData);
     Post.categories := omap (resolveLabel apiData "categories") (Raw.categories postData);
     Post.contentImages :=
       featuredRefs (default [] (mediaCollection apiData)) postData ++ bodyRefs postData |}.

(** Whether every post of [data] can be reduced: there is a media
    collection, or no post has a positive featured media id. *)
Definition reducible (apiData : list Api.result) (data : list Raw.post) : bool :=
  match mediaCollection apiData with
  | Some _ => true
  | None => forallb (fun postData => (Raw.featured_media postData <=? 0)%Z) data
  end.

(** The name a label id resolves to among [records]. *)
Definition nameAmong (records : list Api.obj) (labelId : Z) : option string :=
  Api.name <$>
    List.find (fun o => (Api.id o =? labelId)%Z && negb (String.eqb (Api.name o) EmptyString))
              records.

(** A site whose endpoints other than [posts] all hold [records]. *)
Definition sameRecords (records : list Api.obj) (endpoint : string)
  : nat -> nat -> Fetch.response Api.obj :=
  Fetch.wordpress records.

(** * Properties *)

(** ** Lists built by pushing *)

Lemma fold_left_push {A B} (f : A -> B) (l : list A) (init : list B) :
  fold_left (fun acc x => acc ++ [f x]) l init = init ++ map f l.
Proof.
  revert init. induction l as [|x l IH]; intros init; simpl.
  - by rewrite app_nil_r.
  - rewrite IH. by rewrite <- app_assoc.
Qed.

Lemma fold_left_push_pair {A B C} (f : A -> B -> C) (l : list (A * B)) (init : list C) :
  fold_left (fun acc '(a, b) => acc ++ [f a b]) l init
  = init ++ map (fun ab => f ab.1 ab.2) l.
Proof.
  revert init. induction l as [|[a b] l IH]; intros init; simpl.
  - by rewrite app_nil_r.
  - rewrite IH. by rewrite <- app_assoc.
Qed.

Lemma entries_snd {A} (l : list A) : map snd (entries l) = l.
Proof.
  unfold entries. generalize 0%nat. induction l as [|x l IH]; intros n; simpl; [done|].
  by rewrite IH.
Qed.

Lemma entries_length {A} (l : list A) : length (entries l) = length l.
Proof. by rewrite <- (entries_snd l) at 2; rewrite length_map. Qed.

(** ** Strings *)

Lemma append_cons c (s t : string) : String c s +:+ t = String c (s +:+ t).
Proof. reflexivity. Qed.

Lemma append_nil_l (t : string) : EmptyString +:+ t = t.
Proof. reflexivity. Qed.

Lemma append_nil_r (s : string) : s +:+ EmptyString = s.
Proof. induction s as [|c s IH]; [done | by rewrite append_cons, IH]. Qed.

Lemma append_assoc (a b c : string) : (a +:+ b) +:+ c = a +:+ (b +:+ c).
Proof. induction a as [|x a IH]; [done | by rewrite !append_cons, IH]. Qed.

Lemma length_append (a b : string) :
  String.length (a +:+ b) = (String.length a + String.length b)%nat.
Proof. induction a as [|x a IH]; [done | by rewrite append_cons; simpl; rewrite IH]. Qed.

Lemma startsWith_append (p rest : string) : Js.startsWith p (p +:+ rest) = true.
Proof.
  induction p as [|c p IH]; [done|].
  rewrite append_cons. simpl. by rewrite Ascii.eqb_refl.
Qed.

Lemma startsWith_inv (p s : string) :
  Js.startsWith p s = true -> s = p +:+ Js.substring_from (String.length p) s.
Proof.
  revert s. induction p as [|c p IH]; intros s; [done|].
  destruct s as [|d s]; [done|]. simpl.
  destruct (Ascii.eqb_spec c d) as [->|]; [|done].
  intros H. by rewrite append_cons, <- IH.
Qed.

Lemma substring_from_append (p rest : string) :
  Js.substring_from (String.length p) (p +:+ rest) = rest.
Proof. induction p as [|c p IH]; [by destruct rest | by rewrite append_cons]. Qed.

(** ** File names *)

Lemma split_glue sep s :
  exists w ws, Js.split sep s = w :: ws /\ s = w +:+ glue sep ws
               /\ Forall (fun x => ~ occurs sep x) (w :: ws).
Proof.
  induction s as [|c s (w & ws & Hsplit & Hs & Hall)]; simpl.
  - exists EmptyString, []. repeat split. constructor; [|constructor]. intros [].
  - destruct (Ascii.eqb_spec c sep) as [->|Hne].
    + exists EmptyString, (w :: ws). rewrite Hsplit. simpl. rewrite append_nil_l, <- Hs.
      repeat split. constructor; [intros [] | done].
    + rewrite Hsplit. exists (String c w), ws. rewrite append_cons, <- Hs.
      repeat split. inversion_clear Hall as [|? ? Hw Hws].
      constructor; [|done]. intros [Hc | Hin]; [by subst | by apply Hw].
Qed.

Lemma last_glue sep ws : forall w,
  Forall (fun x => ~ occurs sep x) (w :: ws) ->
  after_last sep (w +:+ glue sep ws) (List.last (w :: ws) EmptyString).
Proof.
  induction ws as [|x ws IH]; intros w Hall.
  - simpl. rewrite append_nil_r. split; [by inversion Hall | by left].
  - inversion_clear Hall as [|? ? Hw Hws].
    change (List.last (w :: x :: ws) EmptyString) with (List.last (x :: ws) EmptyString).
    destruct (IH x Hws) as [Hno Hshape]. revert Hno Hshape.
    generalize (List.last (x :: ws) EmptyString). intros f Hno Hshape.
    split; [done|]. right. change (glue sep (x :: ws)) with (String sep (x +:+ glue sep ws)).
    destruct Hshape as [-> | [before ->]].
    + by exists w.
    + exists (w +:+ String sep before). by rewrite append_assoc, append_cons.
Qed.

Lemma pop_split_after_last sep s : after_last sep s (Js.pop (Js.split sep s)).
Proof.
  destruct (split_glue sep s) as (w & ws & Hsplit & Hs & Hall).
  unfold Js.pop. rewrite Hsplit. rewrite Hs at 1. by apply last_glue.
Qed.

(** ** Asset requests *)

Lemma assetPromises_from init posts :
  fold_left
    (fun assetPromises wpPost =>
       fold_left
         (fun acc '(imgIndex, contentImage) => acc ++ [assetObj wpPost imgIndex contentImage])
         (entries (Post.contentImages wpPost)) assetPromises)
    posts init
  = init ++ flat_map (fun wpPost =>
                        map (fun ic => assetObj wpPost ic.1 ic.2)
                            (entries (Post.contentImages wpPost)))
                     posts.
Proof.
  revert init. induction posts as [|p posts IH]; intros init; simpl.
  - by rewrite app_nil_r.
  - rewrite IH, fold_left_push_pair. by rewrite <- app_assoc.
Qed.

Lemma buildContentfulAssets_flat_map posts :
  buildContentfulAssets posts
  = flat_map (fun wpPost =>
                map (fun ic => assetObj wpPost ic.1 ic.2) (entries (Post.contentImages wpPost)))
             posts.
Proof. unfold buildContentfulAssets. by rewrite assetPromises_from. Qed.

Lemma map_assetObj_entries {B} (g : AssetObj.t -> B) (h : Img.t -> B) wpPost :
  (forall i img, g (assetObj wpPost i img) = h img) ->
  map g (map (fun ic => assetObj wpPost ic.1 ic.2) (entries (Post.contentImages wpPost)))
  = map h (Post.contentImages wpPost).
Proof.
  intros Hgh. rewrite <- (entries_snd (Post.contentImages wpPost)) at 2.
  rewrite !map_map. apply map_ext. intros [i img]. apply Hgh.
Qed.

Lemma map_buildContentfulAssets {B} (g : AssetObj.t -> B) (h : Img.t -> B) posts :
  (forall wpPost i img, g (assetObj wpPost i img) = h img) ->
  map g (buildContentfulAssets posts) = map h (imageReferences posts).
Proof.
  intros Hgh. rewrite buildContentfulAssets_flat_map. unfold imageReferences.
  induction posts as [|p posts IH]; simpl; [done|].
  rewrite !map_app, IH. f_equal. by apply map_assetObj_entries.
Qed.

(** C7: the asset publisher derives exactly one request per image reference
    of the normalized posts, in post order and then image order within a
    post, and two references with the same file name give two requests: the
    file names and upload locations of the requests are, position by
    position, those of the image references. *)
Theorem C7_one_request_per_image_reference (posts : list Post.t) :
  length (buildContentfulAssets posts) = length (imageReferences posts)
  /\ map AssetObj.fileName (buildContentfulAssets posts)
     = map fileNameOf (imageReferences posts)
  /\ map AssetObj.upload (buildContentfulAssets posts)
     = map (fun contentImage => Js.encodeURI (Img.link contentImage)) (imageReferences posts).
Proof.
  assert (Hnames : map AssetObj.fileName (buildContentfulAssets posts)
                   = map fileNameOf (imageReferences posts))
    by (by apply map_buildContentfulAssets).
  split; [|split; [done|]].
  - rewrite <- (length_map AssetObj.fileName), Hnames. apply length_map.
  - by apply map_buildContentfulAssets.
Qed.

(** C10: every request built by the asset publisher declares the content
    type image/jpeg whatever the source URL is, names the file by what
    follows the last slash of the source URL, and uploads from the
    URI-encoded source URL. *)
Theorem C10_request_file_fields (posts : list Post.t) :
  Forall (fun request =>
            AssetObj.contentType request = "image/jpeg"
            /\ exists wpPost contentImage,
                 In wpPost posts /\ In contentImage (Post.contentImages wpPost)
                 /\ after_last "/" (Img.link contentImage) (AssetObj.fileName request)
                 /\ AssetObj.upload request = Js.encodeURI (Img.link contentImage))
         (buildContentfulAssets posts).
Proof.
  rewrite buildContentfulAssets_flat_map. apply List.Forall_forall.
  intros request Hin. apply in_flat_map in Hin as (wpPost & Hpost & Hin).
  apply in_map_iff in Hin as ([i img] & <- & Hin). simpl.
  split; [done|]. exists wpPost, img. repeat split; try done.
  - rewrite <- (entries_snd (Post.contentImages wpPost)).
    apply in_map_iff. by exists (i, img).
  - apply pop_split_after_last.
  - apply pop_split_after_last.
Qed.

(** ** Label resolution *)

Lemma filter_head_find {A} (p : A -> bool) (l : list A) :
  match List.filter p l with
  | x :: _ => List.find p l = Some x /\ p x = true
  | [] => List.find p l = None
  end.
Proof.
  induction l as [|a l IH]; simpl; [done|].
  destruct (p a) eqn:Hp; [done | exact IH].
Qed.

Lemma label_step_labels labelType apiTag log labels labelId :
  (label_step labelType apiTag (log, labels) labelId).2
  = labels ++
    match List.find (label_matches labelId) (Api.data apiTag) with
    | Some o => [Api.name o]
    | None => []
    end.
Proof.
  unfold label_step.
  pose proof (filter_head_find (label_matches labelId) (Api.data apiTag)) as H.
  destruct (List.filter (label_matches labelId) (Api.data apiTag)) as [|o rest].
  - rewrite H. simpl. by rewrite app_nil_r.
  - destruct H as [-> Ho]. unfold label_matches in Ho.
    apply andb_true_iff in Ho as [_ ->]. done.
Qed.

Lemma omap_cons {A B} (f : A -> option B) (x : A) (l : list A) :
  omap f (x :: l) = match f x with Some y => y :: omap f l | None => omap f l end.
Proof. reflexivity. Qed.

Lemma label_loop_labels labelType apiTag postItems : forall log labels,
  (fold_left (label_step labelType apiTag) postItems (log, labels)).2
  = labels ++ omap (fun labelId =>
                      Api.name <$> List.find (label_matches labelId) (Api.data apiTag))
                   postItems.
Proof.
  induction postItems as [|labelId postItems IH]; intros log labels.
  - simpl. by rewrite app_nil_r.
  - cbn [fold_left].
    pose proof (label_step_labels labelType apiTag log labels labelId) as Hstep.
    destruct (label_step labelType apiTag (log, labels) labelId) as [log' labels'].
    cbn [snd] in Hstep. rewrite IH, Hstep, omap_cons.
    destruct (List.find (label_matches labelId) (Api.data apiTag)); simpl.
    + by rewrite <- app_assoc.
    + by rewrite app_nil_r.
Qed.

Lemma omap_none {A B} (l : list A) : omap (fun _ : A => @None B) l = [].
Proof. by induction l. Qed.

Lemma getPostLabels_resolved apiData postItems labelType :
  (getPostLabels apiData postItems labelType).2
  = omap (resolveLabel apiData labelType) postItems.
Proof.
  unfold getPostLabels, resolveLabel.
  destruct (getApiDataType apiData labelType) as [log0 [|apiTag rest]]; cbn [snd].
  - by rewrite omap_none.
  - rewrite label_loop_labels. reflexivity.
Qed.

(** C8: label resolution maps the list of tag (or category) ids of a post to
    the names they resolve to, in the order of the id list; an id that does
    not resolve contributes nothing.  With ids 5, 2, 9 of which 5 and 9
    resolve to Go and Rust the result is Go, Rust. *)
Theorem C8_labels_in_source_order :
  (forall (apiData : list Api.result) (postItems : list Z) (labelType : string),
      (getPostLabels apiData postItems labelType).2
      = omap (resolveLabel apiData labelType) postItems)
  /\ (getPostLabels Sample.apiData [5; 2; 9]%Z "tags").2 = ["Go"; "Rust"]
  /\ omap (resolveLabel Sample.apiData "tags") [5; 2; 9]%Z = ["Go"; "Rust"].
Proof. split; [exact getPostLabels_resolved | split; reflexivity]. Qed.

(** ** Rich-text classification *)

Lemma fold_left_app_flat_map {A B} (f : A -> list B) (l : list A) (init : list B) :
  fold_left (fun acc x => acc ++ f x) l init = init ++ flat_map f l.
Proof.
  revert init. induction l as [|x l IH]; intros init; simpl.
  - by rewrite app_nil_r.
  - rewrite IH. by rewrite <- app_assoc.
Qed.

Lemma linesToDocument_lines markdown :
  linesToDocument markdown
  = Block "document"
      (flat_map (fun line => classify (Js.trim line))
         (List.filter (fun line => (0 <? String.length (Js.trim line))%nat)
                      (Js.split newline markdown))).
Proof. unfold linesToDocument. by rewrite fold_left_app_flat_map. Qed.

Lemma classify_paragraph (trimmedLine : string) :
  trimmedLine <> EmptyString ->
  Js.startsWith "# " trimmedLine = false ->
  Js.startsWith "## " trimmedLine = false ->
  Js.startsWith "### " trimmedLine = false ->
  Js.startsWith "> " trimmedLine = false ->
  classify trimmedLine = [Block "paragraph" [Text trimmedLine]].
Proof.
  intros Hne H1 H2 H3 H4. unfold classify. rewrite H1, H2, H3, H4.
  by destruct trimmedLine.
Qed.

(** C9: in rich-text mode the document holds, in order, the nodes of the
    trimmed non-empty lines of the markdown, and a line is classified by its
    leading marker: [# ], [## ] and [### ] give a heading of level 1, 2 and 3
    with the marker removed, [> ] gives a blockquote around a paragraph, any
    other non-empty line gives a paragraph with the line as its text.  The
    line # Hello gives one heading-1 node with the text Hello, the line
    > Quoted one blockquote around a paragraph with the text Quoted, and
    the line Plain text. one paragraph. *)
Theorem C9_lines_classified_by_marker :
  (forall (turndown : list string -> string -> Js.result string) (assetUrls : list string)
          (htmlContent : string),
      convertToRichText turndown assetUrls htmlContent
      = markdown ← turndown assetUrls (Placeholder.strip htmlContent);
        Js.Ok (Block "document"
                 (flat_map (fun line => classify (Js.trim line))
                    (List.filter (fun line => (0 <? String.length (Js.trim line))%nat)
                       (Js.split newline markdown)))))
  /\ (forall rest, classify ("# " +:+ rest) = [Block "heading-1" [Text rest]])
  /\ (forall rest, classify ("## " +:+ rest) = [Block "heading-2" [Text rest]])
  /\ (forall rest, classify ("### " +:+ rest) = [Block "heading-3" [Text rest]])
  /\ (forall rest,
        classify ("> " +:+ rest) = [Block "blockquote" [Block "paragraph" [Text rest]]])
  /\ (forall trimmedLine,
        trimmedLine <> EmptyString ->
        Js.startsWith "# " trimmedLine = false ->
        Js.startsWith "## " trimmedLine = false ->
        Js.startsWith "### " trimmedLine = false ->
        Js.startsWith "> " trimmedLine = false ->
        classify trimmedLine = [Block "paragraph" [Text trimmedLine]])
  /\ linesToDocument "# Hello" = Block "document" [Block "heading-1" [Text "Hello"]]
  /\ linesToDocument "> Quoted"
     = Block "document" [Block "blockquote" [Block "paragraph" [Text "Quoted"]]]
  /\ linesToDocument "Plain text." = Block "document" [Block "paragraph" [Text "Plain text."]].
Proof.
  split.
  { intros turndown assetUrls htmlContent. unfold convertToRichText.
    destruct (turndown assetUrls (Placeholder.strip htmlContent)) as [markdown|e]; [|done].
    simpl. by rewrite linesToDocument_lines. }
  split; [intros rest; reflexivity|].
  split; [intros rest; reflexivity|].
  split; [intros rest; reflexivity|].
  split; [intros rest; reflexivity|].
  split; [exact classify_paragraph|].
  repeat split; reflexivity.
Qed.

Example richtext_three_lines :
  linesToDocument
    ("  # Hello  " +:+ String newline (String newline ("> Quoted" +:+ String newline "Plain text.")))
  = Block "document"
      [ Block "heading-1" [Text "Hello"];
        Block "blockquote" [Block "paragraph" [Text "Quoted"]];
        Block "paragraph" [Text "Plain text."] ].
Proof. reflexivity. Qed.

(** ** Entry payloads *)

(** The fields of a post whose featured image id is 0, spelled out. *)
Lemma postFields_no_featured turndown format assetUrls assets post :
  Post.featuredImage post = 0%Z ->
  postFields turndown format assetUrls assets post
  = content ← convertContent turndown format assetUrls (VStr (Post.content post));
    Js.Ok (<["categories" := VStr (Js.join ", " (Post.categories post))]>
          (<["tags" := VStr (Js.join ", " (Post.tags post))]>
          (delete "featuredImage"
          (<["featuredImage" := VNum 0]>
          (<["publishDate" := VStr (Post.publishDate post)]>
          (<["content" := content]>
          (<["slug" := VStr (Post.slug post)]>
          (<["postTitle" := VStr (Post.postTitle post)]> ∅)))))))).
Proof.
  intros Hzero. unfold postFields, postEntries. rewrite Hzero.
  cbv beta iota zeta delta
    [foldM fieldStep mbind result_bind Js.bind mret result_ret String.eqb Ascii.eqb
     Bool.eqb existsb keysToSkip andb orb gt_zero is_zero joinNames Z.ltb Z.eqb Z.compare].
  by destruct (convertContent turndown format assetUrls (VStr (Post.content post))).
Qed.

(** C4: for a post whose featured-media id is 0, every payload built holds
    no featuredImage field at all: the field is set to 0 and then deleted.  A
    payload is built whenever the conversion of the content does not throw,
    and an exception of the conversion is the only one possible. *)
Theorem C4_no_featuredImage_field_for_zero
    (turndown : list string -> string -> Js.result string) (format : contentFormat)
    (assetUrls : list string) (assets : list Asset.t) (post : Post.t) :
  Post.featuredImage post = 0%Z ->
  (forall fields,
      postFields turndown format assetUrls assets post = Js.Ok fields ->
      fields !! "featuredImage" = None)
  /\ (forall content,
        convertContent turndown format assetUrls (VStr (Post.content post)) = Js.Ok content ->
        exists fields,
          postFields turndown format assetUrls assets post = Js.Ok fields
          /\ fields !! "featuredImage" = None)
  /\ (forall e,
        convertContent turndown format assetUrls (VStr (Post.content post)) = Js.Throw e ->
        postFields turndown format assetUrls assets post = Js.Throw e).
Proof.
  intros Hzero. rewrite postFields_no_featured by done.
  destruct (convertContent turndown format assetUrls (VStr (Post.content post)))
    as [content|e]; simpl.
  - split; [|split; [|done]].
    + intros fields [= <-]. rewrite !lookup_insert_ne by done. apply lookup_delete_eq.
    + intros ? _. eexists. split; [reflexivity|].
      rewrite !lookup_insert_ne by done. apply lookup_delete_eq.
  - split; [done|]. split; [done|]. by intros ? [= <-].
Qed.

Lemma C4_no_featuredImage_field_for_zero_witness :
  (forall fields,
      postFields Sample.plain_turndown Markdown [] [] Sample.post_plain = Js.Ok fields ->
      fields !! "featuredImage" = None)
  /\ (forall content,
        convertContent Sample.plain_turndown Markdown [] (VStr (Post.content Sample.post_plain))
        = Js.Ok content ->
        exists fields,
          postFields Sample.plain_turndown Markdown [] [] Sample.post_plain = Js.Ok fields
          /\ fields !! "featuredImage" = None)
  /\ (forall e,
        convertContent Sample.plain_turndown Markdown [] (VStr (Post.content Sample.post_plain))
        = Js.Throw e ->
        postFields Sample.plain_turndown Markdown [] [] Sample.post_plain = Js.Throw e).
Proof.
  apply (C4_no_featuredImage_field_for_zero Sample.plain_turndown Markdown [] []
           Sample.post_plain).
  reflexivity.
Defined.

(** ** The image pattern finds tags in document order *)

Lemma span_append p s a b : ImageRegex.span p s = (a, b) -> s = a +:+ b.
Proof.
  revert a b. induction s as [|c s IH]; intros a b; simpl.
  - by intros [= <- <-].
  - destruct (p c).
    + destruct (ImageRegex.span p s) as [a' b'] eqn:Hspan.
      intros [= <- <-]. rewrite append_cons. f_equal. by apply IH.
    + by intros [= <- <-].
Qed.

Lemma match_src_append t m g rest :
  ImageRegex.match_src t = Some (m, g, rest) -> t = m +:+ rest.
Proof.
  unfold ImageRegex.match_src.
  destruct (Js.startsWith "src" t) eqn:Hsrc; [|done].
  apply startsWith_inv in Hsrc. simpl String.length in Hsrc.
  destruct (ImageRegex.span Js.is_space (Js.substring_from 3 t)) as [ws1 t2] eqn:H1.
  apply span_append in H1.
  destruct t2 as [|eq t3]; [done|].
  destruct (Ascii.eqb eq "="); [|done].
  destruct (ImageRegex.span Js.is_space t3) as [ws2 t4] eqn:H2.
  apply span_append in H2.
  destruct t4 as [|q1 t5]; [done|].
  destruct (ImageRegex.is_quote q1); [|done].
  destruct (ImageRegex.span (fun c => negb (ImageRegex.is_quote c)) t5) as [g' t6] eqn:H3.
  apply span_append in H3.
  destruct t6 as [|q2 t7]; [done|].
  destruct (ImageRegex.span ImageRegex.not_gt t7) as [m' t8] eqn:H4.
  apply span_append in H4.
  destruct t8 as [|gt t9]; [done|].
  intros [= <- <- <-].
  rewrite Hsrc, H1, H2, H3, H4.
  repeat (rewrite ?append_assoc, ?append_cons, ?append_nil_l; f_equal).
Qed.

Lemma match_attrs_append t : forall m g rest,
  ImageRegex.match_attrs t = Some (m, g, rest) -> t = m +:+ rest.
Proof.
  induction t as [|c t IH]; intros m g rest; simpl.
  - done.
  - destruct (ImageRegex.match_src (String c t)) as [[[m' g'] rest']|] eqn:Hsrc.
    + intros [= <- <- <-]. by apply match_src_append in Hsrc.
    + destruct (ImageRegex.not_gt c); [|done].
      destruct (ImageRegex.match_attrs t) as [[[m' g'] rest']|]; [|done].
      intros [= <- <- <-]. rewrite append_cons. f_equal. by apply IH with g'.
Qed.

Lemma match_at_append s m g rest :
  ImageRegex.match_at s = Some (m, g, rest) ->
  s = m +:+ rest /\ Js.startsWith "<img" m = true.
Proof.
  unfold ImageRegex.match_at.
  destruct (Js.startsWith "<img" s) eqn:Himg; [|done].
  apply startsWith_inv in Himg. simpl String.length in Himg.
  destruct (Js.substring_from 4 s) as [|c t]; [done|].
  destruct (Js.is_space c); [|done].
  destruct (ImageRegex.match_attrs t) as [[[m' g'] rest']|] eqn:Hattrs; [|done].
  intros [= <- <- <-]. apply match_attrs_append in Hattrs.
  split; [|apply (startsWith_append "<img")].
  rewrite Himg, Hattrs. by rewrite append_assoc, append_cons.
Qed.




(** ** Every image tag as written is found *)

Lemma cut_none pat c s :
  Js.cut pat (String c s) = None ->
  Js.startsWith pat (String c s) = false /\ Js.cut pat s = None.
Proof.
  cbn [Js.cut]. destruct (Js.startsWith pat (String c s)); [done|].
  by destruct (Js.cut pat s) as [[b a]|].
Qed.

Lemma exec_from_without_tag s : forall at_,
  Js.includes "<img" s = false -> ImageRegex.exec_from 0 at_ s = [].
Proof.
  unfold Js.includes. induction s as [|c s IH]; intros at_ Hnone; [done|].
  destruct (Js.cut "<img" (String c s)) as [|] eqn:Hcut; [done|].
  apply cut_none in Hcut as [Hstart Hcut].
  cbn [ImageRegex.exec_from]. unfold ImageRegex.match_at. rewrite Hstart.
  apply IH. by rewrite Hcut.
Qed.

Lemma span_all p s :
  Forall (fun c => p c = true) (list_ascii_of_string s) ->
  forall rest, (rest = EmptyString \/ exists c rest', rest = String c rest' /\ p c = false) ->
  ImageRegex.span p (s +:+ rest) = (s, rest).
Proof.
  intros Hall rest Hrest. induction s as [|c s IH].
  - rewrite append_nil_l. destruct Hrest as [-> | (c & rest' & -> & Hc)]; [done|].
    simpl. by rewrite Hc.
  - inversion_clear Hall as [|? ? Hc Hall']. rewrite append_cons. simpl.
    by rewrite Hc, IH.
Qed.

Lemma is_quote_not_space q : ImageRegex.is_quote q = true -> Js.is_space q = false.
Proof.
  unfold ImageRegex.is_quote. intros [H | H]%orb_true_iff; apply Ascii.eqb_eq in H; by subst q.
Qed.

Lemma srcPart_append tag rest :
  Tag.srcPart tag +:+ rest
  = "src" +:+ (Tag.ws1 tag +:+ String "="
      (Tag.ws2 tag +:+ String (Tag.q1 tag)
         (Tag.link tag +:+ String (Tag.q2 tag) (Tag.after tag +:+ String ">" rest)))).
Proof.
  unfold Tag.srcPart.
  by rewrite !append_assoc, !append_cons, !append_assoc, !append_cons, !append_assoc,
     !append_cons, append_nil_l.
Qed.

Lemma match_src_complete tag rest :
  Tag.wellFormed tag ->
  ImageRegex.match_src (Tag.srcPart tag +:+ rest)
  = Some (Tag.srcPart tag, Tag.link tag, rest).
Proof.
  intros (_ & _ & _ & Hws1 & Hws2 & Hq1 & Hq2 & Hlink & Hafter).
  rewrite srcPart_append. unfold ImageRegex.match_src.
  rewrite startsWith_append. change 3%nat with (String.length "src").
  rewrite substring_from_append.
  rewrite (span_all Js.is_space (Tag.ws1 tag) Hws1)
    by (right; eexists _, _; split; [reflexivity | reflexivity]).
  rewrite Ascii.eqb_refl.
  rewrite (span_all Js.is_space (Tag.ws2 tag) Hws2)
    by (right; eexists _, _; split; [reflexivity | by apply is_quote_not_space]).
  rewrite Hq1.
  rewrite (span_all (fun c => negb (ImageRegex.is_quote c)) (Tag.link tag))
    by (first [ revert Hlink; apply List.Forall_impl; intros c Hc; by rewrite Hc
              | right; eexists _, _; split; [reflexivity | by rewrite Hq2] ]).
  rewrite (span_all ImageRegex.not_gt (Tag.after tag))
    by (first [ revert Hafter; apply List.Forall_impl; intros c Hc;
                unfold ImageRegex.not_gt; by rewrite Hc
              | right; eexists _, _; split; [reflexivity | reflexivity] ]).
  reflexivity.
Qed.

Lemma src_not_across c b rest :
  Js.includes "src" (String c b) = false ->
  Js.startsWith "src" (String c b +:+ "src" +:+ rest) = false.
Proof.
  unfold Js.includes. destruct (Js.cut "src" (String c b)) eqn:Hcut; [done|]. intros _.
  apply cut_none in Hcut as [Hstart _].
  destruct b as [|d [|e b]]; rewrite !append_cons; simpl in *.
  - by destruct (Ascii.eqb "s" c).
  - by destruct (Ascii.eqb "s" c), (Ascii.eqb "r" d).
  - destruct (Ascii.eqb "s" c), (Ascii.eqb "r" d), (Ascii.eqb "c" e); done.
Qed.

Lemma match_src_none t : Js.startsWith "src" t = false -> ImageRegex.match_src t = None.
Proof. unfold ImageRegex.match_src. by intros ->. Qed.

Lemma match_attrs_src t r : ImageRegex.match_src t = Some r -> ImageRegex.match_attrs t = Some r.
Proof.
  intros Hsrc. destruct t; [by vm_compute in Hsrc|].
  cbn [ImageRegex.match_attrs]. by rewrite Hsrc.
Qed.

Lemma match_attrs_complete tag rest :
  Tag.wellFormed tag ->
  ImageRegex.match_attrs (Tag.before tag +:+ Tag.srcPart tag +:+ rest)
  = Some (Tag.before tag +:+ Tag.srcPart tag, Tag.link tag, rest).
Proof.
  intros Htag. pose proof (match_src_complete tag rest Htag) as Hsrc.
  destruct Htag as (_ & Hbefore & Hnone & _).
  induction (Tag.before tag) as [|c b IH].
  - rewrite !append_nil_l. by apply match_attrs_src.
  - inversion_clear Hbefore as [|? ? Hc Hb].
    assert (Hstart : Js.startsWith "src" (String c b +:+ Tag.srcPart tag +:+ rest) = false).
    { rewrite srcPart_append. by apply src_not_across. }
    rewrite !append_cons in Hstart |- *. cbn [ImageRegex.match_attrs].
    rewrite (match_src_none _ Hstart). unfold ImageRegex.not_gt at 1. rewrite Hc.
    cbn [negb]. rewrite IH; [done | done |].
    unfold Js.includes in *. destruct (Js.cut "src" (String c b)) eqn:Hcut; [done|].
    apply cut_none in Hcut as [_ Hcut]. by rewrite Hcut.
Qed.

Lemma match_at_complete tag rest :
  Tag.wellFormed tag ->
  ImageRegex.match_at (Tag.text tag +:+ rest) = Some (Tag.text tag, Tag.link tag, rest).
Proof.
  intros Htag. pose proof (match_attrs_complete tag rest Htag) as Hattrs.
  destruct Htag as (Hspace & _).
  unfold Tag.text, ImageRegex.match_at.
  rewrite append_assoc, startsWith_append. change 4%nat with (String.length "<img").
  rewrite substring_from_append, append_cons, Hspace, append_assoc, Hattrs. done.
Qed.

Lemma exec_from_skip u : forall at_ rest,
  ImageRegex.exec_from (String.length u) at_ (u +:+ rest)
  = ImageRegex.exec_from 0 (at_ + String.length u) rest.
Proof.
  induction u as [|c u IH]; intros at_ rest.
  - by rewrite append_nil_l, Nat.add_0_r.
  - rewrite append_cons. cbn [String.length ImageRegex.exec_from]. rewrite IH.
    by rewrite Nat.add_succ_r.
Qed.

Lemma exec_from_match s m g rest at_ :
  ImageRegex.match_at s = Some (m, g, rest) ->
  ImageRegex.exec_from 0 at_ s
  = {| ImageRegex.index := at_; ImageRegex.whole := m; ImageRegex.group1 := g |}
      :: ImageRegex.exec_from 0 (at_ + String.length m) rest.
Proof.
  intros Hmatch. pose proof (match_at_append _ _ _ _ Hmatch) as [Hs Himg].
  destruct m as [|c m]; [done|]. subst s. rewrite append_cons in Hmatch |- *.
  cbn [ImageRegex.exec_from]. rewrite Hmatch. f_equal.
  cbn [String.length]. rewrite Nat.sub_succ, Nat.sub_0_r, exec_from_skip.
  by rewrite Nat.add_succ_r.
Qed.

Lemma img_not_across c t rest :
  Js.includes "<img" (String c t) = false ->
  Js.startsWith "<img" (String c t +:+ String "<" rest) = false.
Proof.
  unfold Js.includes. destruct (Js.cut "<img" (String c t)) eqn:Hcut; [done|]. intros _.
  apply cut_none in Hcut as [Hstart _].
  destruct t as [|d [|e [|f t]]]; rewrite !append_cons; simpl in *.
  - by destruct (Ascii.eqb "<" c).
  - by destruct (Ascii.eqb "<" c), (Ascii.eqb "i" d).
  - by destruct (Ascii.eqb "<" c), (Ascii.eqb "i" d), (Ascii.eqb "m" e).
  - destruct (Ascii.eqb "<" c), (Ascii.eqb "i" d), (Ascii.eqb "m" e), (Ascii.eqb "g" f); done.
Qed.

Lemma exec_from_text text : forall at_ rest,
  Js.includes "<img" text = false ->
  ImageRegex.exec_from 0 at_ (text +:+ String "<" rest)
  = ImageRegex.exec_from 0 (at_ + String.length text) (String "<" rest).
Proof.
  induction text as [|c text IH]; intros at_ rest Hnone.
  - by rewrite append_nil_l, Nat.add_0_r.
  - pose proof (img_not_across c text rest Hnone) as Hstart.
    rewrite append_cons in Hstart |- *. cbn [ImageRegex.exec_from].
    unfold ImageRegex.match_at at 1. rewrite Hstart. rewrite IH.
    + cbn [String.length]. by rewrite Nat.add_succ_r.
    + unfold Js.includes in *. destruct (Js.cut "<img" (String c text)) eqn:Hcut; [done|].
      apply cut_none in Hcut as [_ Hcut]. by rewrite Hcut.
Qed.

(** The matches in a text made of image tags as written, between texts
    without the opening of an image tag: one match per tag, in the order of
    the tags, each match the whole tag and its group the link of the tag. *)
Lemma exec_from_htmlOf parts tail : forall at_,
  taggedHtml parts tail ->
  map (fun f => (ImageRegex.whole f, ImageRegex.group1 f))
      (ImageRegex.exec_from 0 at_ (htmlOf parts tail))
  = map (fun part => (Tag.text part.2, Tag.link part.2)) parts.
Proof.
  intros at_ [Hparts Htail]. revert at_.
  induction Hparts as [|[text tag] parts [Htext Htag] _ IH]; intros at_.
  - cbn [htmlOf]. by rewrite exec_from_without_tag.
  - cbn [htmlOf map fst snd] in *.
    assert (Hopen : exists t, Tag.text tag +:+ htmlOf parts tail = String "<" t)
      by (unfold Tag.text; by eexists).
    destruct Hopen as [t Ht]. rewrite Ht, exec_from_text, <- Ht by done.
    rewrite (exec_from_match _ _ _ _ _ (match_at_complete tag (htmlOf parts tail) Htag)).
    cbn [map ImageRegex.whole ImageRegex.group1]. by rewrite IH.
Qed.

Lemma bodyRefs_htmlOf postData parts tail :
  Raw.content_rendered postData = htmlOf parts tail ->
  taggedHtml parts tail ->
  map Img.link (bodyRefs postData) = map (fun part => Tag.link part.2) parts.
Proof.
  intros Hhtml Htagged. unfold bodyRefs, ImageRegex.exec_all. rewrite Hhtml.
  pose proof (exec_from_htmlOf parts tail 0 Htagged) as Hfound.
  apply (f_equal (map snd)) in Hfound. rewrite !map_map in Hfound.
  rewrite map_map. exact Hfound.
Qed.

(** ** Images of a normalized post *)

Lemma getPostBodyImages_ok apiData postData collection :
  mediaCollection apiData = Some collection ->
  (getPostBodyImages apiData postData).2
  = Js.Ok (featuredRefs collection postData ++ bodyRefs postData).
Proof.
  unfold mediaCollection, getPostBodyImages, featuredPart, featuredRefs, resolveMedia, bodyRefs.
  destruct (0 <? Raw.featured_media postData)%Z.
  - destruct (getApiDataType apiData "media") as [log0 [|mediaData others]]; [done|].
    intros [= <-].
    pose proof (filter_head_find (fun o => (Api.id o =? Raw.featured_media postData)%Z)
                                 (Api.data mediaData)) as Hfind.
    destruct (List.filter _ (Api.data mediaData)) as [|mediaObj more].
    + rewrite Hfind. cbn. by rewrite fold_left_push.
    + destruct Hfind as [-> _]. cbn. by rewrite fold_left_push.
  - intros _. cbn. by rewrite fold_left_push.
Qed.

Lemma getPostBodyImages_no_featured apiData postData :
  (Raw.featured_media postData <= 0)%Z ->
  getPostBodyImages apiData postData = ([], Js.Ok (bodyRefs postData)).
Proof.
  intros Hle. unfold getPostBodyImages, featuredPart, bodyRefs.
  destruct (Z.ltb_spec 0 (Raw.featured_media postData)); [lia|].
  cbn. by rewrite fold_left_push.
Qed.

(** ** The featured-image link *)

Lemma featuredLink_first_named assets post first rest asset :
  Post.contentImages post = first :: rest ->
  firstAssetNamed assets (fileNameOf first) = Some asset ->
  featuredLink assets post = Js.Ok (VLink "Asset" (Asset.assetId asset)).
Proof.
  unfold firstAssetNamed, featuredLink, fileNameOf. intros -> Hfind.
  destruct assets as [|a0 assets']; [done|].
  pose proof (filter_head_find
                (fun a => String.eqb (Asset.fileName a) (Js.pop (Js.split "/" (Img.link first))))
                (a0 :: assets')) as Hhead.
  destruct (List.filter _ (a0 :: assets')) as [|assetObj more].
  - by rewrite Hhead in Hfind.
  - destruct Hhead as [Hhead _]. rewrite Hhead in Hfind. by injection Hfind as ->.
Qed.

Lemma featuredLink_none_named assets post :
  (forall first rest,
      Post.contentImages post = first :: rest ->
      firstAssetNamed assets (fileNameOf first) = None) ->
  exists e, featuredLink assets post = Js.Throw e.
Proof.
  unfold firstAssetNamed, featuredLink, fileNameOf. intros Hnone.
  destruct assets as [|a0 assets']; [by eexists|].
  destruct (Post.contentImages post) as [|first rest]; [by eexists|].
  specialize (Hnone first rest eq_refl).
  pose proof (filter_head_find
                (fun a => String.eqb (Asset.fileName a) (Js.pop (Js.split "/" (Img.link first))))
                (a0 :: assets')) as Hhead.
  destruct (List.filter _ (a0 :: assets')) as [|assetObj more]; [by eexists|].
  destruct Hhead as [Hhead _]. by rewrite Hhead in Hnone.
Qed.

(** The fields of a post with a positive featured image id, spelled out. *)
Lemma postFields_featured turndown format assetUrls assets post :
  (0 < Post.featuredImage post)%Z ->
  postFields turndown format assetUrls assets post
  = content ← convertContent turndown format assetUrls (VStr (Post.content post));
    link ← featuredLink assets post;
    Js.Ok (<["categories" := VStr (Js.join ", " (Post.categories post))]>
          (<["tags" := VStr (Js.join ", " (Post.tags post))]>
          (<["featuredImage" := link]>
          (<["featuredImage" := VNum (Post.featuredImage post)]>
          (<["publishDate" := VStr (Post.publishDate post)]>
          (<["content" := content]>
          (<["slug" := VStr (Post.slug post)]>
          (<["postTitle" := VStr (Post.postTitle post)]> ∅)))))))).
Proof.
  intros Hpos.
  assert (Hgt : (0 <? Post.featuredImage post)%Z = true) by (apply Z.ltb_lt; lia).
  assert (Hz : (Post.featuredImage post =? 0)%Z = false) by (apply Z.eqb_neq; lia).
  unfold postFields, postEntries.
  cbv beta iota zeta delta
    [foldM fieldStep mbind result_bind Js.bind mret result_ret String.eqb Ascii.eqb
     Bool.eqb existsb keysToSkip andb orb gt_zero is_zero joinNames].
  destruct (convertContent turndown format assetUrls (VStr (Post.content post))); [|done].
  rewrite Hgt, Hz. by destruct (featuredLink assets post).
Qed.


Lemma assets_pushed (environment : nat -> AssetObj.t -> upload)
    (promises : list AssetObj.t) (settled : list nat) : forall init,
  fold_left
    (fun assets index =>
       match promises !! index with
       | Some asset =>
           match assetPromise environment index asset with
           | Some a => assets ++ [a]
           | None => assets
           end
       | None => assets
       end)
    settled init
  = init ++ omap (fun index => promises !! index ≫= assetPromise environment index) settled.
Proof.
  induction settled as [|index settled IH]; intros init.
  - simpl. by rewrite app_nil_r.
  - cbn [fold_left]. rewrite IH, omap_cons.
    destruct (promises !! index) as [asset|]; simpl; [|done].
    destruct (assetPromise environment index asset); [|done].
    by rewrite <- app_assoc.
Qed.

(** The array [assets] after the uploads: the published assets, in the order
    in which the uploads settled. *)
Lemma createContentfulAssets_assets (environment : nat -> AssetObj.t -> upload)
    (settled : list nat) (promises : list AssetObj.t) :
  (createContentfulAssets environment settled promises).2
  = omap (fun index => promises !! index ≫= assetPromise environment index) settled.
Proof. unfold createContentfulAssets. cbn [snd]. by rewrite assets_pushed. Qed.





Example sample_html_is_tagged :
  Sample.body_html = htmlOf body_parts "</p>"
  /\ taggedHtml body_parts "</p>"
  /\ map Img.link (bodyRefs Sample.postData)
     = ["http://wp/uploads/a.png"; "http://wp/uploads/b.jpg"].
Proof.
  assert (Htagged : taggedHtml body_parts "</p>").
  { split; [|reflexivity].
    repeat constructor; try reflexivity; unfold spaces, without, quoteFree; simpl;
      repeat constructor. }
  split; [reflexivity|]. split; [exact Htagged|].
  exact (bodyRefs_htmlOf Sample.postData body_parts "</p>" eq_refl Htagged).
Qed.

Example images_of_sample_post :
  (getPostBodyImages Sample.apiData Sample.postData).2
  = Js.Ok
      [ Sample.coverRef;
        {| Img.link := "http://wp/uploads/a.png"; Img.description := Js.JStr "A";
           Img.title := Js.JStr "A"; Img.mediaId := Js.JUndefined; Img.postId := Js.JNum 11;
           Img.featured := false |};
        {| Img.link := "http://wp/uploads/b.jpg";
           Img.description := Js.JStr "Image from post 11";
           Img.title := Js.JStr "Image from post 11"; Img.mediaId := Js.JUndefined;
           Img.postId := Js.JNum 11; Img.featured := false |} ].
Proof. vm_compute. reflexivity. Qed.

(** ** A featured media id that does not resolve *)

(** With a fetched media collection, a post whose featured media id resolves
    to no record of it is still reduced: no featured reference, a console
    line, and every other field as usual. *)
Lemma unresolved_featured_media_is_skipped apiData postData collection :
  mediaCollection apiData = Some collection ->
  (0 < Raw.featured_media postData)%Z ->
  resolveMedia collection (Raw.featured_media postData) = None ->
  (fieldData apiData postData).2
  = Js.Ok {| Post.id := Raw.id postData;
             Post.type := Raw.type postData;
             Post.postTitle := Raw.title_rendered postData;
             Post.slug := Raw.slug postData;
             Post.content := Raw.content_rendered postData;
             Post.publishDate := Raw.date_gmt postData +:+ "+00:00";
             Post.featuredImage := Raw.featured_media postData;
             Post.tags := omap (resolveLabel apiData "tags") (Raw.tags postData);
             Post.categories :=
               omap (resolveLabel apiData "categories") (Raw.categories postData);
             Post.contentImages := bodyRefs postData |}
  /\ In (FeaturedMediaNotFound (Raw.featured_media postData) (Raw.slug postData))
        (fieldData apiData postData).1.
Proof.
  intros Hcollection Hpos Hnone. unfold fieldData.
  pose proof (getPostLabels_resolved apiData (Raw.tags postData) "tags") as Htags.
  pose proof (getPostLabels_resolved apiData (Raw.categories postData) "categories") as Hcats.
  destruct (getPostLabels apiData (Raw.tags postData) "tags") as [log1 tags].
  destruct (getPostLabels apiData (Raw.categories postData) "categories") as [log2 cats].
  cbn [snd] in Htags, Hcats. subst tags cats.
  pose proof (getPostBodyImages_ok apiData postData collection Hcollection) as Himages.
  assert (Hlog : In (FeaturedMediaNotFound (Raw.featured_media postData) (Raw.slug postData))
                    (getPostBodyImages apiData postData).1).
  { unfold getPostBodyImages, featuredPart. unfold mediaCollection in Hcollection.
    destruct (Z.ltb_spec 0 (Raw.featured_media postData)); [|lia].
    destruct (getApiDataType apiData "media") as [log0 [|mediaData others]]; [done|].
    injection Hcollection as <-. unfold resolveMedia in Hnone.
    pose proof (filter_head_find (fun o => (Api.id o =? Raw.featured_media postData)%Z)
                                 (Api.data mediaData)) as Hfind.
    destruct (List.filter _ (Api.data mediaData)) as [|mediaObj more].
    - cbn [fst]. apply in_or_app. right. by left.
    - destruct Hfind as [Hfind _]. by rewrite Hfind in Hnone. }
  destruct (getPostBodyImages apiData postData) as [log3 images].
  cbn [fst snd] in *. subst images. split.
  - unfold featuredRefs. rewrite Hnone. by destruct (0 <? Raw.featured_media postData)%Z.
  - apply in_or_app. right. apply in_or_app. by right.
Qed.

(** C5: a post with a positive featured media id when the media endpoint
    gave no item: reading [data] of the missing media result throws, in
    [getPostBodyImages] and so in the reduction of the post, where the label
    lookup on the same missing result returns an empty list.  With a media
    collection in which the id is absent the post is reduced, without
    featured reference and with the console line. *)
Theorem C5_no_media_collection_throws :
  (getPostBodyImages Sample.apiData_no_media Sample.postData).2
  = Js.Throw (Js.TypeError "Cannot read properties of undefined (reading 'data')")
  /\ (fieldData Sample.apiData_no_media Sample.postData).2
     = Js.Throw (Js.TypeError "Cannot read properties of undefined (reading 'data')")
  /\ getPostLabels Sample.apiData_no_media [7]%Z "media"
     = ([NoDataForResource "media"; NoLabelData "media"], [])
  /\ (exists post,
        (fieldData Sample.apiData Sample.postData_dangling).2 = Js.Ok post
        /\ Post.contentImages post = bodyRefs Sample.postData_dangling
        /\ Forall (fun contentImage => Img.featured contentImage = false)
                  (Post.contentImages post)
        /\ In (FeaturedMediaNotFound 8 "bye")
              (fieldData Sample.apiData Sample.postData_dangling).1).
Proof.
  split; [vm_compute; reflexivity|].
  split; [vm_compute; reflexivity|].
  split; [vm_compute; reflexivity|].
  destruct (unresolved_featured_media_is_skipped
              Sample.apiData Sample.postData_dangling [Sample.cover])
    as [Hpost Hlog]; [reflexivity | reflexivity | reflexivity |].
  eexists. split; [exact Hpost|]. split; [reflexivity|]. split; [|exact Hlog].
  cbn [Post.contentImages]. unfold bodyRefs. apply List.Forall_forall.
  intros contentImage Hin. apply in_map_iff in Hin as (f & <- & _). reflexivity.
Qed.

(** ** Uploads that fail *)

(** Every request resolves, to its asset or to [null], and every asset that
    got published and settled is in [assets]. *)
Lemma uploads_are_isolated (environment : nat -> AssetObj.t -> upload)
    (settled : list nat) (promises : list AssetObj.t) :
  length (createContentfulAssets environment settled promises).1 = length promises
  /\ forall index request asset,
       promises !! index = Some request ->
       environment index request = Published asset ->
       In index settled ->
       In asset (createContentfulAssets environment settled promises).2.
Proof.
  split.
  - unfold createContentfulAssets. cbn [fst]. by rewrite length_map, entries_length.
  - intros index request asset Hreq Henv Hin.
    rewrite createContentfulAssets_assets. apply list_elem_of_In.
    apply list_elem_of_omap. exists index. split; [by apply list_elem_of_In|].
    rewrite Hreq. simpl. unfold assetPromise. by rewrite Henv.
Qed.

Lemma foldM_throws {A B} (f : B -> A -> Js.result B) (x : A) (l : list A) :
  (forall b, exists e, f b x = Js.Throw e) ->
  In x l -> forall b, exists e, foldM f l b = Js.Throw e.
Proof.
  intros Hx. induction l as [|a l IH]; intros Hin b; [done|].
  simpl. destruct Hin as [-> | Hin].
  - destruct (Hx b) as [e ->]. by exists e.
  - destruct (f b a) as [b'|e]; [by apply IH | by exists e].
Qed.

(** A post with a positive featured image id and no asset for the file name
    of its first image makes the whole of [createContentfulPosts] throw. *)
Lemma createContentfulPosts_throws turndown format assetUrls assets posts post :
  In post posts ->
  (0 < Post.featuredImage post)%Z ->
  (forall first rest,
      Post.contentImages post = first :: rest ->
      firstAssetNamed assets (fileNameOf first) = None) ->
  exists e, createContentfulPosts turndown format assetUrls assets posts = Js.Throw e.
Proof.
  intros Hin Hpos Hnone. unfold createContentfulPosts.
  apply foldM_throws with (x := post); [|done].
  intros promises. rewrite postFields_featured by done.
  destruct (convertContent turndown format assetUrls (VStr (Post.content post)))
    as [content|e]; [|by exists e].
  destruct (featuredLink_none_named assets post Hnone) as [e ->]. by exists e.
Qed.

(** C1: five posts with one featured image each, the third upload fails
    while processing.  Every upload resolves and the four published assets
    are recorded, but building the entry payloads throws at the third post
    (its asset is [undefined] and [assetId] is read from it), so no entry is
    created at all, whatever asset URLs the destination lists. *)
Theorem C1_failed_asset_stops_entry_stage (assetUrls : list string) :
  publish Sample.plain_turndown Markdown (Some assetUrls) (Sample.failing_at 2 ProcessFails)
          (fun _ _ => true) [0; 1; 2; 3; 4]%nat Sample.five_posts
  = ( [ Some (Sample.published 0 "1"); Some (Sample.published 1 "2"); None;
        Some (Sample.published 3 "4"); Some (Sample.published 4 "5") ],
      [ Sample.published 0 "1"; Sample.published 1 "2";
        Sample.published 3 "4"; Sample.published 4 "5" ],
      Some (Js.Throw
              (Js.TypeError "Cannot read properties of undefined (reading 'assetId')")) ).
Proof. vm_compute. reflexivity. Qed.

(** ** Images without an asset *)

Lemma replaceWordPressImages_unmatched assets src alt :
  Forall (fun asset => Js.pop (Js.split "/" asset) <> Js.pop (Js.split "/" src)) assets ->
  replaceWordPressImages assets (Some src) alt
  = Js.Ok ("![" +:+ default "null" alt +:+ "](undefined)").
Proof.
  intros Hall. unfold replaceWordPressImages.
  replace (List.filter _ assets) with (@nil string); [done|].
  induction Hall as [|asset assets Hne _ IH]; simpl; [done|].
  destruct (String.eqb_spec (Js.pop (Js.split "/" asset)) (Js.pop (Js.split "/" src)));
    [done | exact IH].
Qed.

(** C3: an inline image whose file name has no asset.  The image rule
    renders it as an image with the target [undefined]; the removal of such
    text in [convertToRichText] is applied to the HTML before the conversion,
    where there is nothing to remove, so the text stays in the document; the
    markdown mode has no removal.  Applied to the markdown, the same removal
    would have left nothing. *)
Theorem C3_unmatched_image_placeholder_stays
    (turndown : list string -> string -> Js.result string) :
  turndown [] Sample.lone_image
  = replaceWordPressImages [] (Some "http://wp/uploads/x.png") (Some "a") ->
  convertToRichText turndown [] Sample.lone_image
  = Js.Ok (Block "document" [Block "paragraph" [Text "![a](undefined)"]])
  /\ convertContent turndown Markdown [] (VStr Sample.lone_image)
     = Js.Ok (VStr "![a](undefined)")
  /\ Placeholder.strip Sample.lone_image = Sample.lone_image
  /\ Placeholder.strip "![a](undefined)" = EmptyString.
Proof.
  intros Hrule.
  change (replaceWordPressImages [] (Some "http://wp/uploads/x.png") (Some "a"))
    with (Js.Ok "![a](undefined)") in Hrule.
  assert (Hstrip : Placeholder.strip Sample.lone_image = Sample.lone_image)
    by (vm_compute; reflexivity).
  unfold convertToRichText, convertContent. rewrite Hstrip, Hrule.
  repeat split; vm_compute; reflexivity.
Qed.

Lemma C3_unmatched_image_placeholder_stays_witness :
  convertToRichText Sample.rule_turndown [] Sample.lone_image
  = Js.Ok (Block "document" [Block "paragraph" [Text "![a](undefined)"]])
  /\ convertContent Sample.rule_turndown Markdown [] (VStr Sample.lone_image)
     = Js.Ok (VStr "![a](undefined)")
  /\ Placeholder.strip Sample.lone_image = Sample.lone_image
  /\ Placeholder.strip "![a](undefined)" = EmptyString.
Proof.
  apply (C3_unmatched_image_placeholder_stays Sample.rule_turndown).
  reflexivity.
Defined.

(** ** The paginated fetch *)

Section FetchLoop.
Context {item : Type}.
Variable get : nat -> nat -> Fetch.response item.
Variable totalItemsNeeded : nat.

Lemma loop_done fuel st :
  Fetch.continue totalItemsNeeded st = false ->
  Fetch.loop get totalItemsNeeded fuel st = Some st.
Proof. intros H. destruct fuel; simpl; by rewrite H. Qed.

Lemma loop_turn fuel st :
  Fetch.continue totalItemsNeeded st = true ->
  Fetch.loop get totalItemsNeeded (S fuel) st
  = Fetch.loop get totalItemsNeeded fuel (Fetch.body get totalItemsNeeded st).
Proof. intros H. simpl. by rewrite H. Qed.

Lemma loop_more_fuel fuel : forall extra st final,
  Fetch.loop get totalItemsNeeded fuel st = Some final ->
  Fetch.loop get totalItemsNeeded (fuel + extra) st = Some final.
Proof.
  induction fuel as [|fuel IH]; intros extra st final; simpl.
  - destruct (Fetch.continue totalItemsNeeded st) eqn:Hc; [done|].
    intros [= <-]. by apply loop_done.
  - destruct (Fetch.continue totalItemsNeeded st) eqn:Hc; [apply IH | done].
Qed.

(** A turn of the loop either ends it or adds an item. *)
Lemma body_progress st :
  Fetch.hasMorePages (Fetch.body get totalItemsNeeded st) = false
  \/ (length (Fetch.allData st) < length (Fetch.allData (Fetch.body get totalItemsNeeded st)))%nat.
Proof.
  unfold Fetch.body.
  destruct (get _ (Fetch.page st)) as [[|x responseData] totalAvailable|]; simpl; auto.
  right. rewrite length_app. simpl. lia.
Qed.

(** The loop ends within [totalItemsNeeded] turns, whatever the source answers. *)
Lemma loop_terminates fuel : forall st,
  (Fetch.continue totalItemsNeeded st = true ->
   totalItemsNeeded - length (Fetch.allData st) <= fuel)%nat ->
  exists final, Fetch.loop get totalItemsNeeded fuel st = Some final.
Proof.
  induction fuel as [|fuel IH]; intros st Hfuel; simpl.
  - destruct (Fetch.continue totalItemsNeeded st) eqn:Hc; [|by eexists].
    specialize (Hfuel eq_refl). unfold Fetch.continue in Hc.
    apply andb_true_iff in Hc as [_ Hlt]. apply Nat.ltb_lt in Hlt. lia.
  - destruct (Fetch.continue totalItemsNeeded st) eqn:Hc; [|by eexists].
    apply IH. intros Hc'. specialize (Hfuel eq_refl).
    unfold Fetch.continue in Hc, Hc'.
    apply andb_true_iff in Hc as [_ Hlt]. apply Nat.ltb_lt in Hlt.
    apply andb_true_iff in Hc' as [Hmore Hlt']. apply Nat.ltb_lt in Hlt'.
    destruct (body_progress st) as [Hend | Hadd]; [congruence | lia].
Qed.

Lemma fetchDataWithPagination_returns :
  exists result, Fetch.fetchDataWithPagination get totalItemsNeeded = Some result.
Proof.
  unfold Fetch.fetchDataWithPagination.
  destruct (loop_terminates totalItemsNeeded Fetch.init) as [final ->].
  - intros _. simpl. lia.
  - by eexists.
Qed.

End FetchLoop.

Ltac page_arith :=
  unfold Fetch.maxPerPage in *; zify; Z.to_euclidean_division_equations; lia.
Ltac page_nia :=
  unfold Fetch.maxPerPage in *; zify; Z.to_euclidean_division_equations; nia.

Section WordPressSource.
Context {item : Type}.
Variable items : list item.
Variable totalItemsNeeded : nat.

Lemma wordpress_page per_page page :
  (1 <= per_page <= Fetch.maxPerPage)%nat -> (1 <= page)%nat ->
  Fetch.wordpress items per_page page
  = Fetch.Response (take per_page (drop ((page - 1) * per_page) items)) (Some (length items)).
Proof.
  intros Hper Hpage. unfold Fetch.wordpress.
  destruct (Nat.eqb_spec per_page 0); [page_arith|].
  destruct (Nat.ltb_spec Fetch.maxPerPage per_page); [page_arith|].
  destruct (Nat.eqb_spec page 0); [page_arith | done].
Qed.

(** A turn of the loop against the collection, when the page asked for is
    not empty. *)
Lemma body_wordpress st :
  let asked := Nat.min Fetch.maxPerPage (totalItemsNeeded - length (Fetch.allData st)) in
  let responseData := take asked (drop ((Fetch.page st - 1) * asked) items) in
  (1 <= asked)%nat -> (1 <= Fetch.page st)%nat -> responseData <> [] ->
  Fetch.body (Fetch.wordpress items) totalItemsNeeded st
  = {| Fetch.allData := Fetch.allData st ++ responseData;
       Fetch.page := S (Fetch.page st);
       Fetch.hasMorePages :=
         if Fetch.reachedTotal (Some (length items))
                               (length (Fetch.allData st ++ responseData))
         then false else Fetch.hasMorePages st;
       Fetch.requests := Fetch.requests st ++ [(asked, Fetch.page st)] |}.
Proof.
  intros asked responseData Hasked Hpage Hdata. unfold Fetch.body. fold asked.
  rewrite wordpress_page by (unfold asked; page_arith). fold responseData.
  by destruct responseData.
Qed.

Lemma fullPages_S k : fullPages (S k) = fullPages k ++ [(Fetch.maxPerPage, S k)].
Proof. unfold fullPages. by rewrite seq_S, map_app. Qed.

Lemma fullPages_length k : length (fullPages k) = k.
Proof. unfold fullPages. by rewrite length_map, length_seq. Qed.

Lemma fullPages_requested k : itemsRequested (fullPages k) = (Fetch.maxPerPage * k)%nat.
Proof.
  unfold itemsRequested. induction k as [|k IH]; [done|].
  rewrite fullPages_S, map_app, list_sum_app, IH.
  change (list_sum (map fst [(Fetch.maxPerPage, S k)])) with (Fetch.maxPerPage + 0)%nat.
  page_arith.
Qed.

Lemma body_full_page k :
  (Fetch.maxPerPage * S k <= totalItemsNeeded)%nat ->
  (Fetch.maxPerPage * S k < length items)%nat ->
  Fetch.body (Fetch.wordpress items) totalItemsNeeded (afterFullPages items k)
  = afterFullPages items (S k).
Proof.
  intros HM HN.
  assert (Hlen : length (take (Fetch.maxPerPage * k) items) = (Fetch.maxPerPage * k)%nat)
    by (rewrite length_take; page_arith).
  pose proof (body_wordpress (afterFullPages items k)) as Hbody.
  cbn [afterFullPages Fetch.allData Fetch.page Fetch.hasMorePages Fetch.requests] in Hbody.
  rewrite Hlen in Hbody.
  replace (Nat.min Fetch.maxPerPage (totalItemsNeeded - Fetch.maxPerPage * k))
    with Fetch.maxPerPage in Hbody by page_arith.
  replace ((S k - 1) * Fetch.maxPerPage)%nat with (Fetch.maxPerPage * k)%nat in Hbody by page_arith.
  rewrite take_take_drop in Hbody.
  rewrite Hbody; [| page_arith | page_arith |].
  - unfold afterFullPages. rewrite fullPages_S. f_equal.
    + f_equal. page_arith.
    + unfold Fetch.reachedTotal. rewrite length_take.
      destruct (Nat.leb_spec (length items)
                  (Nat.min (Fetch.maxPerPage * k + Fetch.maxPerPage) (length items)));
        [page_arith|]. by rewrite andb_false_r.
  - intros Hnil. apply (f_equal length) in Hnil.
    rewrite length_take, length_drop in Hnil. cbn [length] in Hnil. page_arith.
Qed.

Lemma continue_full_page k :
  (Fetch.maxPerPage * k < totalItemsNeeded)%nat ->
  (Fetch.maxPerPage * k <= length items)%nat ->
  Fetch.continue totalItemsNeeded (afterFullPages items k) = true.
Proof.
  intros HM HN. unfold Fetch.continue, afterFullPages. cbn [Fetch.allData Fetch.hasMorePages].
  rewrite length_take. apply Nat.ltb_lt. page_arith.
Qed.

(** [j] more full pages. *)
Lemma loop_full_pages j : forall k fuel,
  (Fetch.maxPerPage * (k + j) <= totalItemsNeeded)%nat ->
  (Fetch.maxPerPage * (k + j) < length items)%nat ->
  Fetch.loop (Fetch.wordpress items) totalItemsNeeded (j + fuel) (afterFullPages items k)
  = Fetch.loop (Fetch.wordpress items) totalItemsNeeded fuel (afterFullPages items (k + j)).
Proof.
  induction j as [|j IH]; intros k fuel HM HN.
  - by rewrite Nat.add_0_r.
  - change (S j + fuel)%nat with (S (j + fuel)).
    rewrite loop_turn by (apply continue_full_page; unfold Fetch.maxPerPage in *; lia).
    rewrite body_full_page by page_arith.
    rewrite IH by page_arith.
    by replace (S k + j)%nat with (k + S j)%nat by page_arith.
Qed.


(** The last page when fewer than [maxPerPage] items are still needed: it is
    asked for with the number of items still needed, and ends the loop. *)
Lemma loop_last_short_page q r fuel :
  totalItemsNeeded = (Fetch.maxPerPage * q + r)%nat ->
  (1 <= r < Fetch.maxPerPage)%nat ->
  (Fetch.maxPerPage * q <= length items)%nat ->
  (q * r < length items)%nat ->
  Fetch.loop (Fetch.wordpress items) totalItemsNeeded (S fuel) (afterFullPages items q)
  = Some {| Fetch.allData := take (Fetch.maxPerPage * q) items ++ take r (drop (q * r) items);
            Fetch.page := S (S q);
            Fetch.hasMorePages :=
              if Fetch.reachedTotal (Some (length items))
                   (length (take (Fetch.maxPerPage * q) items ++ take r (drop (q * r) items)))
              then false else true;
            Fetch.requests := fullPages q ++ [(r, S q)] |}.
Proof.
  intros HM Hr HN Hoffset.
  assert (Hlen : length (take (Fetch.maxPerPage * q) items) = (Fetch.maxPerPage * q)%nat)
    by (rewrite length_take; page_arith).
  rewrite loop_turn by (apply continue_full_page; page_arith).
  pose proof (body_wordpress (afterFullPages items q)) as Hbody.
  cbn [afterFullPages Fetch.allData Fetch.page Fetch.hasMorePages Fetch.requests] in Hbody.
  rewrite Hlen in Hbody.
  replace (Nat.min Fetch.maxPerPage (totalItemsNeeded - Fetch.maxPerPage * q))
    with r in Hbody by page_arith.
  replace ((S q - 1) * r)%nat with (q * r)%nat in Hbody by page_arith.
  rewrite Hbody; [| page_arith | page_arith |].
  - apply loop_done. unfold Fetch.continue. cbn [Fetch.allData Fetch.hasMorePages].
    rewrite length_app, Hlen, length_take, length_drop.
    unfold Fetch.reachedTotal.
    destruct (Nat.ltb_spec 0 (length items)); [|page_arith].
    destruct (Nat.leb_spec (length items)
                (Fetch.maxPerPage * q + Nat.min r (length items - q * r))); [done|].
    cbn [andb]. apply Nat.ltb_ge. page_nia.
  - intros Hnil. apply (f_equal length) in Hnil.
    rewrite length_take, length_drop in Hnil. cbn [length] in Hnil. page_arith.
Qed.

(** The page that brings in the last item of the collection, when it is asked
    for in full: the size reported by the source ends the loop. *)
Lemma loop_last_full_page p fuel :
  (Fetch.maxPerPage * S p <= totalItemsNeeded)%nat ->
  (Fetch.maxPerPage * p < length items <= Fetch.maxPerPage * S p)%nat ->
  Fetch.loop (Fetch.wordpress items) totalItemsNeeded (S fuel) (afterFullPages items p)
  = Some {| Fetch.allData := items;
            Fetch.page := S (S p);
            Fetch.hasMorePages := false;
            Fetch.requests := fullPages (S p) |}.
Proof.
  intros HM HN.
  assert (Hlen : length (take (Fetch.maxPerPage * p) items) = (Fetch.maxPerPage * p)%nat)
    by (rewrite length_take; page_arith).
  rewrite loop_turn by (apply continue_full_page; page_arith).
  pose proof (body_wordpress (afterFullPages items p)) as Hbody.
  cbn [afterFullPages Fetch.allData Fetch.page Fetch.hasMorePages Fetch.requests] in Hbody.
  rewrite Hlen in Hbody.
  replace (Nat.min Fetch.maxPerPage (totalItemsNeeded - Fetch.maxPerPage * p))
    with Fetch.maxPerPage in Hbody by page_arith.
  replace ((S p - 1) * Fetch.maxPerPage)%nat with (Fetch.maxPerPage * p)%nat in Hbody
    by page_arith.
  rewrite take_take_drop in Hbody.
  rewrite (take_ge items (Fetch.maxPerPage * p + Fetch.maxPerPage)) in Hbody by page_arith.
  rewrite Hbody; [| page_arith | page_arith |].
  - rewrite <- fullPages_S.
    replace (Fetch.reachedTotal (Some (length items)) (length items)) with true.
    + by apply loop_done.
    + unfold Fetch.reachedTotal.
      destruct (Nat.ltb_spec 0 (length items)); [|page_arith].
      by destruct (Nat.leb_spec (length items) (length items)); [|page_arith].
  - intros Hnil. apply (f_equal length) in Hnil.
    rewrite length_take, length_drop in Hnil. cbn [length] in Hnil. page_arith.
Qed.

Lemma init_is_no_page : Fetch.init = afterFullPages items 0.
Proof. reflexivity. Qed.

End WordPressSource.

Lemma fetch_from_loop {item : Type} (get : nat -> nat -> Fetch.response item)
    (totalItemsNeeded turns : nat) (final : Fetch.state item) :
  (turns <= totalItemsNeeded)%nat ->
  Fetch.loop get totalItemsNeeded turns Fetch.init = Some final ->
  Fetch.fetchDataWithPagination get totalItemsNeeded = Some (Fetch.finish final).
Proof.
  intros Hle Hloop. unfold Fetch.fetchDataWithPagination.
  replace totalItemsNeeded with (turns + (totalItemsNeeded - turns))%nat at 2 by lia.
  by rewrite (loop_more_fuel get totalItemsNeeded turns _ _ _ Hloop).
Qed.

Section FetchResults.
Context {item : Type}.
Variable items : list item.
Variable totalItemsNeeded : nat.

(** More is asked for than there is, and the collection ends within the
    full pages of the request: every page is asked for in full. *)
Lemma fetch_everything_in_full_pages :
  (1 <= length items < totalItemsNeeded)%nat ->
  (length items <= Fetch.maxPerPage * (totalItemsNeeded / Fetch.maxPerPage))%nat ->
  Fetch.fetchDataWithPagination (Fetch.wordpress items) totalItemsNeeded
  = Some {| Fetch.success := true;
            Fetch.data := items;
            Fetch.error := None;
            Fetch.issued := fullPages (Fetch.ceil_div (length items) Fetch.maxPerPage) |}.
Proof.
  intros HN Hfull.
  set (p := ((length items - 1) / Fetch.maxPerPage)%nat).
  assert (Hp : (Fetch.maxPerPage * p < length items <= Fetch.maxPerPage * S p)%nat)
    by (unfold p; page_arith).
  assert (Hceil : Fetch.ceil_div (length items) Fetch.maxPerPage = S p)
    by (unfold Fetch.ceil_div, p; page_arith).
  rewrite (fetch_from_loop _ _ (p + 1)
             {| Fetch.allData := items; Fetch.page := S (S p);
                Fetch.hasMorePages := false; Fetch.requests := fullPages (S p) |}).
  - unfold Fetch.finish. cbn [Fetch.allData Fetch.requests]. rewrite Hceil.
    destruct (length items) eqn:Hlen; [lia | done].
  - page_arith.
  - rewrite (init_is_no_page items), loop_full_pages by page_arith.
    apply loop_last_full_page; page_arith.
Qed.

(** The last page is a short one. *)
Lemma fetch_with_short_last_page :
  (1 <= totalItemsNeeded mod Fetch.maxPerPage)%nat ->
  (Fetch.maxPerPage * (totalItemsNeeded / Fetch.maxPerPage) < length items)%nat ->
  exists result,
    Fetch.fetchDataWithPagination (Fetch.wordpress items) totalItemsNeeded = Some result
    /\ Fetch.issued result
       = fullPages (totalItemsNeeded / Fetch.maxPerPage)
         ++ [(totalItemsNeeded mod Fetch.maxPerPage, S (totalItemsNeeded / Fetch.maxPerPage))]
    /\ Fetch.data result
       = take (Fetch.maxPerPage * (totalItemsNeeded / Fetch.maxPerPage)) items
         ++ take (totalItemsNeeded mod Fetch.maxPerPage)
              (drop (totalItemsNeeded / Fetch.maxPerPage * (totalItemsNeeded mod Fetch.maxPerPage))
                    items).
Proof.
  intros Hr HN.
  set (q := (totalItemsNeeded / Fetch.maxPerPage)%nat) in *.
  set (r := (totalItemsNeeded mod Fetch.maxPerPage)%nat) in *.
  assert (HM : totalItemsNeeded = (Fetch.maxPerPage * q + r)%nat) by (unfold q, r; page_arith).
  assert (Hrlt : (r < Fetch.maxPerPage)%nat) by (unfold r; page_arith).
  eexists. split; [|split].
  - apply (fetch_from_loop _ _ (q + 1)); [page_arith|].
    rewrite (init_is_no_page items), loop_full_pages by page_arith.
    apply (loop_last_short_page items totalItemsNeeded q r); try page_arith.
    page_nia.
  - reflexivity.
  - reflexivity.
Qed.

(** Fewer items are asked for than there are, a whole number of pages. *)
Lemma fetch_whole_pages :
  (totalItemsNeeded < length items)%nat ->
  (totalItemsNeeded mod Fetch.maxPerPage = 0)%nat ->
  exists result,
    Fetch.fetchDataWithPagination (Fetch.wordpress items) totalItemsNeeded = Some result
    /\ Fetch.issued result = fullPages (totalItemsNeeded / Fetch.maxPerPage)
    /\ Fetch.data result
       = take (Fetch.maxPerPage * (totalItemsNeeded / Fetch.maxPerPage)) items.
Proof.
  intros HN Hr. eexists. split; [|split].
  - apply (fetch_from_loop _ _ (totalItemsNeeded / Fetch.maxPerPage + 0)); [page_arith|].
    rewrite (init_is_no_page items), loop_full_pages by page_arith.
    apply loop_done. unfold Fetch.continue, afterFullPages.
    cbn [Fetch.allData Fetch.hasMorePages]. rewrite length_take.
    apply Nat.ltb_ge. page_arith.
  - reflexivity.
  - reflexivity.
Qed.

(** An empty collection: one request, nothing returned. *)
Lemma fetch_nothing :
  length items = 0%nat -> (0 < totalItemsNeeded)%nat ->
  Fetch.fetchDataWithPagination (Fetch.wordpress items) totalItemsNeeded
  = Some {| Fetch.success := false;
            Fetch.data := [];
            Fetch.error := Some "No data retrieved";
            Fetch.issued := [(Nat.min Fetch.maxPerPage totalItemsNeeded, 1%nat)] |}.
Proof.
  intros HN HM. apply length_zero_iff_nil in HN. subst items.
  apply (fetch_from_loop _ _ 1
           {| Fetch.allData := []; Fetch.page := 1; Fetch.hasMorePages := false;
              Fetch.requests := [(Nat.min Fetch.maxPerPage totalItemsNeeded, 1%nat)] |});
    [lia|].
  rewrite loop_turn by (by apply Nat.ltb_lt).
  unfold Fetch.body, Fetch.init. cbn [Fetch.allData Fetch.page Fetch.requests length].
  rewrite Nat.sub_0_r, wordpress_page by page_arith.
  rewrite drop_nil, take_nil. by apply loop_done.
Qed.

End FetchResults.

(** C2, as amended: against a WordPress collection of N items with the page
    cap 100, the fetch returns; when more is asked for than there is (M > N)
    it issues ceil(N/100) page requests if N >= 1 and one request if N = 0,
    and it returns exactly the N items when M is at most 100 or N is at most
    100 * floor(M/100) (every page but a single first one is asked for in
    full); when less is asked for than there is (M < N) it returns exactly M
    items, asks for full pages and then, on the final page, for exactly the
    M mod 100 items still needed, M items in all. *)
Theorem C2_pages_requested_and_items_returned
    {item : Type} (items : list item) (totalItemsNeeded : nat) :
  exists result,
    Fetch.fetchDataWithPagination (Fetch.wordpress items) totalItemsNeeded = Some result
    /\ ((length items < totalItemsNeeded)%nat -> (1 <= length items)%nat ->
        length (Fetch.issued result) = Fetch.ceil_div (length items) Fetch.maxPerPage)
    /\ ((length items < totalItemsNeeded)%nat -> length items = 0%nat ->
        length (Fetch.issued result) = 1%nat /\ Fetch.data result = [])
    /\ ((length items < totalItemsNeeded)%nat ->
        (totalItemsNeeded <= Fetch.maxPerPage)%nat
        \/ (length items <= Fetch.maxPerPage * (totalItemsNeeded / Fetch.maxPerPage))%nat ->
        Fetch.data result = items)
    /\ ((totalItemsNeeded < length items)%nat ->
        length (Fetch.data result) = totalItemsNeeded
        /\ Fetch.issued result
           = fullPages (totalItemsNeeded / Fetch.maxPerPage)
             ++ (if (totalItemsNeeded mod Fetch.maxPerPage =? 0)%nat then []
                 else [(totalItemsNeeded mod Fetch.maxPerPage,
                        S (totalItemsNeeded / Fetch.maxPerPage))])
        /\ itemsRequested (Fetch.issued result) = totalItemsNeeded).
Proof.
  destruct (fetchDataWithPagination_returns (Fetch.wordpress items) totalItemsNeeded)
    as [result Hresult].
  exists result. split; [done|].
  destruct (Nat.lt_trichotomy (length items) totalItemsNeeded) as [Hmore | [Heq | Hless]].
  - (* more is asked for than there is *)
    split; [|split; [|split; [|intros; page_arith]]].
    + intros _ Hsome.
      destruct (Nat.le_gt_cases (length items)
                  (Fetch.maxPerPage * (totalItemsNeeded / Fetch.maxPerPage))) as [Hfull | Hshort].
      * rewrite fetch_everything_in_full_pages in Hresult by (done || page_arith).
        injection Hresult as <-. cbn [Fetch.issued]. apply fullPages_length.
      * destruct (fetch_with_short_last_page items totalItemsNeeded)
          as (result' & Hresult' & Hissued & _); [page_arith | page_arith |].
        rewrite Hresult' in Hresult. injection Hresult as <-.
        rewrite Hissued, length_app, fullPages_length. cbn [length].
        unfold Fetch.ceil_div. page_arith.
    + intros _ Hnone.
      rewrite fetch_nothing in Hresult by (done || page_arith).
      by injection Hresult as <-.
    + intros _ Hcase.
      destruct (Nat.eq_dec (length items) 0) as [Hnone | Hsome].
      { rewrite fetch_nothing in Hresult by (done || page_arith).
        injection Hresult as <-. cbn [Fetch.data].
        symmetry. by apply length_zero_iff_nil. }
      destruct (Nat.le_gt_cases (length items)
                  (Fetch.maxPerPage * (totalItemsNeeded / Fetch.maxPerPage))) as [Hfull | Hshort].
      * rewrite fetch_everything_in_full_pages in Hresult by (done || page_arith).
        by injection Hresult as <-.
      * destruct (fetch_with_short_last_page items totalItemsNeeded)
          as (result' & Hresult' & _ & Hdata); [page_arith | page_arith |].
        rewrite Hresult' in Hresult. injection Hresult as <-.
        rewrite Hdata.
        replace (totalItemsNeeded / Fetch.maxPerPage)%nat with 0%nat by page_arith.
        rewrite Nat.mul_0_r. cbn [take drop Nat.mul app].
        apply take_ge. page_arith.
  - (* exactly what there is *)
    repeat split; intros; page_arith.
  - (* less is asked for than there is *)
    split; [intros; page_arith|]. split; [intros; page_arith|].
    split; [intros; page_arith|]. intros _.
    destruct (Nat.eqb_spec (totalItemsNeeded mod Fetch.maxPerPage) 0) as [Hwhole | Hrest].
    + destruct (fetch_whole_pages items totalItemsNeeded)
        as (result' & Hresult' & Hissued & Hdata); [done | done |].
      rewrite Hresult' in Hresult. injection Hresult as <-.
      rewrite Hissued, Hdata, app_nil_r, fullPages_requested, length_take.
      repeat split; page_arith.
    + destruct (fetch_with_short_last_page items totalItemsNeeded)
        as (result' & Hresult' & Hissued & Hdata); [page_arith | page_arith |].
      rewrite Hresult' in Hresult. injection Hresult as <-.
      rewrite Hissued, Hdata. split; [|split; [done|]].
      * rewrite length_app, !length_take, length_drop. page_nia.
      * unfold itemsRequested. rewrite map_app, list_sum_app.
        fold (itemsRequested (fullPages (totalItemsNeeded / Fetch.maxPerPage))).
        rewrite fullPages_requested.
        change (list_sum (map fst [(totalItemsNeeded mod Fetch.maxPerPage,
                                    S (totalItemsNeeded / Fetch.maxPerPage))]))
          with (totalItemsNeeded mod Fetch.maxPerPage + 0)%nat.
        page_arith.
Qed.

(** C2, as stated, fails on an empty collection: asked for one item, the
    fetch issues one page request, not ceil(0/100) = 0. *)
Lemma C2_counterexample_empty_collection :
  ~ (exists result,
       Fetch.fetchDataWithPagination (Fetch.wordpress (@nil nat)) 1 = Some result
       /\ length (Fetch.issued result) = Fetch.ceil_div 0 Fetch.maxPerPage
       /\ length (Fetch.data result) = 0%nat).
Proof.
  intros (result & Hresult & Hissued & _).
  rewrite fetch_nothing in Hresult by (done || lia).
  injection Hresult as <-. vm_compute in Hissued. discriminate.
Qed.

Example fetch_250_of_1000 :
  exists result,
    Fetch.fetchDataWithPagination (Fetch.wordpress (seq 0 1000)) 250 = Some result
    /\ Fetch.issued result = [(100, 1); (100, 2); (50, 3)]%nat
    /\ length (Fetch.data result) = 250%nat.
Proof. eexists. split; [vm_compute; reflexivity|]. split; reflexivity. Qed.

Example fetch_250_of_150 :
  exists result,
    Fetch.fetchDataWithPagination (Fetch.wordpress (seq 0 150)) 250 = Some result
    /\ Fetch.issued result = [(100, 1); (100, 2)]%nat
    /\ Fetch.data result = seq 0 150.
Proof. eexists. split; [vm_compute; reflexivity|]. split; reflexivity. Qed.

(** Outside the cases of C2 as amended: the page size changes on the last
    page, the offset of that page with it, and items 60 to 99 come twice. *)
Example fetch_160_of_150 :
  exists result,
    Fetch.fetchDataWithPagination (Fetch.wordpress (seq 0 150)) 160 = Some result
    /\ Fetch.issued result = [(100, 1); (60, 2)]%nat
    /\ Fetch.data result = seq 0 100 ++ seq 60 60
    /\ length (Fetch.data result) = 160%nat.
Proof. eexists. split; [vm_compute; reflexivity|]. repeat split; reflexivity. Qed.

(** ** Worked examples *)

Example split_path :
  Js.split "/" "http://wp/a/b.png" = ["http:"; EmptyString; "wp"; "a"; "b.png"].
Proof. reflexivity. Qed.
Example split_empty : Js.split "/" EmptyString = [EmptyString].
Proof. reflexivity. Qed.
Example trim_ex : Js.trim "  # Hello   " = "# Hello".
Proof. reflexivity. Qed.
Example encode_ex : Js.encodeURI "http://wp/a b%.png" = "http://wp/a%20b%25.png".
Proof. reflexivity. Qed.
Example num_ex : Js.num_to_string 42 = "42" /\ Js.num_to_string 0 = "0" /\ Js.num_to_string (-7) = "-7".
Proof. repeat split; reflexivity. Qed.
Example split1_ex :
  Js.split_1 ("alt=" +:+ String Js.dquote EmptyString)
    ("<img alt=" +:+ Js.quoted "foo alt=" +:+ "bar" +:+ String Js.dquote ">")
  = Some "foo ".
Proof. reflexivity. Qed.

Example exec_two_images :
  ImageRegex.exec_all
    ("<p><img class='x' src='http://wp/a.png' alt=" +:+ Js.quoted "A" +:+
     "> and <img src=" +:+ Js.quoted "http://wp/b.jpg" +:+ "/></p>")
  = [ {| ImageRegex.index := 3;
         ImageRegex.whole := "<img class='x' src='http://wp/a.png' alt=" +:+ Js.quoted "A" +:+ ">";
         ImageRegex.group1 := "http://wp/a.png" |};
      {| ImageRegex.index := 53;
         ImageRegex.whole := "<img src=" +:+ Js.quoted "http://wp/b.jpg" +:+ "/>";
         ImageRegex.group1 := "http://wp/b.jpg" |} ].
Proof. vm_compute. reflexivity. Qed.

Lemma altOf_as_written postData foundImage :
  altOf postData foundImage
  = let fallback := "Image from post " +:+ Js.num_to_string (Raw.id postData) in
    if Js.includes alt_marker (ImageRegex.whole foundImage) then
      match Js.split_1 alt_marker (ImageRegex.whole foundImage) with
      | Some piece =>
          let alt := Js.split_0 (String Js.dquote EmptyString) piece in
          if String.eqb alt EmptyString then fallback else alt
      | None => fallback
      end
    else fallback.
Proof.
  unfold altOf, Js.includes, Js.split_1.
  by destruct (Js.cut alt_marker (ImageRegex.whole foundImage)) as [[before after]|].
Qed.

Example duplicate_file_names_are_uploaded_twice :
  map AssetObj.fileName (buildContentfulAssets [Sample.post; Sample.post])
  = ["cover.jpg"; "cover.jpg"].
Proof. reflexivity. Qed.

Example png_declared_as_jpeg :
  map (fun request => (AssetObj.fileName request, AssetObj.contentType request))
      (buildContentfulAssets
         [ {| Post.id := 1; Post.type := "post"; Post.postTitle := "P"; Post.slug := "p";
              Post.content := EmptyString; Post.publishDate := EmptyString;
              Post.featuredImage := 0; Post.tags := []; Post.categories := [];
              Post.contentImages :=
                [ {| Img.link := "http://wp/uploads/2020/01/a b.png";
                     Img.description := Js.JNum 3; Img.title := Js.JStr "A";
                     Img.mediaId := Js.JUndefined; Img.postId := Js.JNum 1;
                     Img.featured := false |} ] |} ])
  = [("a b.png", "image/jpeg")].
Proof. reflexivity. Qed.

Example sample_post_reduced :
  (fieldData Sample.apiData Sample.postData).2
  = Js.Ok {| Post.id := 11; Post.type := "post"; Post.postTitle := "Hello";
             Post.slug := "hello"; Post.content := Sample.body_html;
             Post.publishDate := "2020-01-01T00:00:00+00:00";
             Post.featuredImage := 7; Post.tags := ["Go"; "Rust"];
             Post.categories := ["News"];
             Post.contentImages :=
               Sample.coverRef :: bodyRefs Sample.postData |}.
Proof. vm_compute. reflexivity. Qed.

Example featured_link_of_sample_post :
  exists fields,
    postFields Sample.plain_turndown Markdown []
               [ {| Asset.assetId := "asset-0"; Asset.fileName := "other.jpg" |};
                 {| Asset.assetId := "asset-1"; Asset.fileName := "cover.jpg" |};
                 {| Asset.assetId := "asset-2"; Asset.fileName := "cover.jpg" |} ]
               Sample.post
    = Js.Ok fields
    /\ fields !! "featuredImage" = Some (VLink "Asset" "asset-1")
    /\ fields !! "tags" = Some (VStr "Go, Rust")
    /\ fields !! "contentImages" = None.
Proof.
  rewrite postFields_featured by done.
  erewrite (featuredLink_first_named _ Sample.post Sample.coverRef []) by reflexivity.
  eexists. split; [reflexivity|]. split; [|split].
  - rewrite !lookup_insert_ne by done. apply lookup_insert_eq.
  - rewrite !lookup_insert_ne by done. apply lookup_insert_eq.
  - by rewrite !lookup_insert_ne, lookup_empty by done.
Qed.

(** * Further properties *)

(** ** The fetch loop against any source *)

Section FetchInvariants.
Context {item : Type}.
Variable get : nat -> nat -> Fetch.response item.
Variable totalItemsNeeded : nat.

Lemma loop_invariant (P : Fetch.state item -> Prop) fuel : forall st final,
  P st ->
  (forall st', P st' -> Fetch.continue totalItemsNeeded st' = true ->
               P (Fetch.body get totalItemsNeeded st')) ->
  Fetch.loop get totalItemsNeeded fuel st = Some final ->
  P final /\ Fetch.continue totalItemsNeeded final = false.
Proof.
  induction fuel as [|fuel IH]; intros st final Hst Hstep; simpl.
  - destruct (Fetch.continue totalItemsNeeded st) eqn:Hc; [done|]. by intros [= <-].
  - destruct (Fetch.continue totalItemsNeeded st) eqn:Hc.
    + apply IH; [by apply Hstep | done].
    + by intros [= <-].
Qed.

Lemma fetchInvariant_init : fetchInvariant get totalItemsNeeded Fetch.init.
Proof.
  unfold fetchInvariant, Fetch.init. simpl.
  repeat split; try done; try constructor; lia.
Qed.

Lemma fetchInvariant_body st :
  fetchInvariant get totalItemsNeeded st ->
  Fetch.continue totalItemsNeeded st = true ->
  fetchInvariant get totalItemsNeeded (Fetch.body get totalItemsNeeded st).
Proof.
  intros (Hpages & Hbounds & Hcount & Hdata & Hbefore & Hmore) Hcontinue.
  unfold Fetch.continue in Hcontinue.
  apply andb_true_iff in Hcontinue as [Hhas Hlt]. apply Nat.ltb_lt in Hlt.
  destruct (Hmore Hhas) as (Hpage & Hle & Hall).
  set (asked := Nat.min Fetch.maxPerPage (totalItemsNeeded - length (Fetch.allData st))).
  assert (Hasked : (1 <= asked <= Fetch.maxPerPage)%nat /\ (asked <= totalItemsNeeded)%nat)
    by (unfold asked, Fetch.maxPerPage; lia).
  assert (Hpages' :
            map snd (Fetch.requests st ++ [(asked, Fetch.page st)])
            = seq 1 (length (Fetch.requests st ++ [(asked, Fetch.page st)]))).
  { rewrite map_app, length_app, Hpages, Nat.add_1_r, seq_S, Hpage. done. }
  assert (Hbounds' :
            Forall (fun request =>
                      (1 <= request.1 <= Fetch.maxPerPage)%nat
                      /\ (request.1 <= totalItemsNeeded)%nat)
                   (Fetch.requests st ++ [(asked, Fetch.page st)])).
  { apply Forall_app. split; [done|]. by constructor. }
  assert (Hcount' :
            (length (Fetch.requests st ++ [(asked, Fetch.page st)]) <= totalItemsNeeded)%nat)
    by (rewrite length_app; simpl; lia).
  assert (Hbefore' :
            Forall (fun request => answered get request <> [])
                   (removelast (Fetch.requests st ++ [(asked, Fetch.page st)])))
    by (by rewrite removelast_last).
  unfold Fetch.body. fold asked.
  destruct (get asked (Fetch.page st)) as [responseData totalAvailable|] eqn:Hget.
  - destruct responseData as [|x responseData].
    + unfold fetchInvariant. cbn [Fetch.requests Fetch.allData Fetch.hasMorePages Fetch.page].
      repeat split; try done.
      rewrite flat_map_app. unfold answered at 2. simpl. rewrite Hget.
      by rewrite Hdata, !app_nil_r.
    + unfold fetchInvariant. cbn [Fetch.requests Fetch.allData Fetch.hasMorePages Fetch.page].
      assert (Hanswer : answered get (asked, Fetch.page st) = x :: responseData)
        by (unfold answered; simpl; by rewrite Hget).
      repeat split; try done.
      * rewrite flat_map_app, Hdata. simpl. by rewrite Hanswer, app_nil_r.
      * rewrite length_app, Nat.add_1_r. by rewrite Hpage.
      * rewrite !length_app. simpl. lia.
      * apply Forall_app. split; [done|]. constructor; [|done]. by rewrite Hanswer.
  - unfold fetchInvariant. cbn [Fetch.requests Fetch.allData Fetch.hasMorePages Fetch.page].
    repeat split; try done.
    rewrite flat_map_app. unfold answered at 2. simpl. rewrite Hget.
    by rewrite Hdata, !app_nil_r.
Qed.

Lemma fetch_result_invariant :
  exists final,
    Fetch.fetchDataWithPagination get totalItemsNeeded = Some (Fetch.finish final)
    /\ fetchInvariant get totalItemsNeeded final
    /\ Fetch.continue totalItemsNeeded final = false.
Proof.
  destruct (loop_terminates get totalItemsNeeded totalItemsNeeded Fetch.init) as [final Hloop].
  { intros _. simpl. lia. }
  exists final. split; [unfold Fetch.fetchDataWithPagination; by rewrite Hloop|].
  apply (loop_invariant _ totalItemsNeeded Fetch.init final);
    [apply fetchInvariant_init | apply fetchInvariant_body | done].
Qed.

Lemma body_requests st :
  Fetch.requests (Fetch.body get totalItemsNeeded st)
  = Fetch.requests st
    ++ [(Nat.min Fetch.maxPerPage (totalItemsNeeded - length (Fetch.allData st)),
         Fetch.page st)].
Proof. unfold Fetch.body. by destruct (get _ _) as [[|x responseData] totalAvailable|]. Qed.

Lemma asksForMissing_body st :
  fetchInvariant get totalItemsNeeded st ->
  asksForMissing get totalItemsNeeded (Fetch.requests st) ->
  asksForMissing get totalItemsNeeded (Fetch.requests (Fetch.body get totalItemsNeeded st)).
Proof.
  intros (_ & _ & _ & Hdata & _) Hasks i request. rewrite body_requests.
  destruct (Nat.lt_ge_cases i (length (Fetch.requests st))) as [Hlt | Hge].
  - rewrite lookup_app_l by done. intros Hrequest.
    rewrite take_app_le by lia. by apply Hasks.
  - rewrite lookup_app_r by done.
    destruct (i - length (Fetch.requests st))%nat as [|k] eqn:Hi; [|done].
    intros [= <-]. assert (i = length (Fetch.requests st)) as -> by lia.
    rewrite take_app_length. cbn [fst]. by rewrite Hdata.
Qed.

Lemma fetch_result_requests :
  exists final,
    Fetch.fetchDataWithPagination get totalItemsNeeded = Some (Fetch.finish final)
    /\ fetchInvariant get totalItemsNeeded final
    /\ asksForMissing get totalItemsNeeded (Fetch.requests final).
Proof.
  destruct (loop_terminates get totalItemsNeeded totalItemsNeeded Fetch.init) as [final Hloop].
  { intros _. simpl. lia. }
  exists final. split; [unfold Fetch.fetchDataWithPagination; by rewrite Hloop|].
  apply (loop_invariant
           (fun st => fetchInvariant get totalItemsNeeded st
                      /\ asksForMissing get totalItemsNeeded (Fetch.requests st))
           totalItemsNeeded Fetch.init final); [| |done].
  - split; [apply fetchInvariant_init|]. by intros i request.
  - intros st [Hinv Hasks] Hcontinue.
    split; [by apply fetchInvariant_body | by apply asksForMissing_body].
Qed.

End FetchInvariants.

(** X1: whatever the source answers, the fetch returns, its requests are for
    the pages 1, 2, 3, ... in this order, each asks for between 1 and 100
    items and for exactly what is still missing when it is issued, or a page
    of 100 when more is missing (what is needed less the items that the
    requests before it brought in), and there are at most [totalItemsNeeded]
    of them. *)
Theorem fetch_requests_are_bounded_consecutive_pages
    {item : Type} (get : nat -> nat -> Fetch.response item) (totalItemsNeeded : nat) :
  exists result,
    Fetch.fetchDataWithPagination get totalItemsNeeded = Some result
    /\ map snd (Fetch.issued result) = seq 1 (length (Fetch.issued result))
    /\ Forall (fun request =>
                 (1 <= request.1 <= Fetch.maxPerPage)%nat
                 /\ (request.1 <= totalItemsNeeded)%nat)
              (Fetch.issued result)
    /\ (forall i request,
          Fetch.issued result !! i = Some request ->
          request.1
          = Nat.min Fetch.maxPerPage
              (totalItemsNeeded
               - length (flat_map (answered get) (take i (Fetch.issued result)))))
    /\ (length (Fetch.issued result) <= totalItemsNeeded)%nat.
Proof.
  destruct (fetch_result_requests get totalItemsNeeded)
    as (final & Hresult & (Hpages & Hbounds & Hcount & _) & Hasks).
  by exists (Fetch.finish final).
Qed.

(** X2: whatever the source answers, the items returned are exactly the
    pages answered, in the order of the requests, and every request but the
    last was answered with a page that is not empty: an empty page or a
    rejection ends the fetch and keeps what came before. *)
Theorem fetch_returns_the_pages_answered
    {item : Type} (get : nat -> nat -> Fetch.response item) (totalItemsNeeded : nat) :
  exists result,
    Fetch.fetchDataWithPagination get totalItemsNeeded = Some result
    /\ Fetch.data result = flat_map (answered get) (Fetch.issued result)
    /\ Forall (fun request => answered get request <> [])
              (removelast (Fetch.issued result))
    /\ (Fetch.success result = true <-> Fetch.data result <> [])
    /\ (Fetch.error result = None <-> Fetch.data result <> []).
Proof.
  destruct (fetch_result_invariant get totalItemsNeeded)
    as (final & Hresult & (_ & _ & _ & Hdata & Hbefore & _) & _).
  exists (Fetch.finish final). split; [done|]. split; [done|]. split; [done|].
  unfold Fetch.finish. cbn [Fetch.success Fetch.data Fetch.error].
  destruct (Fetch.allData final); simpl; split; split; done.
Qed.

Lemma wordpress_respectsPerPage {item : Type} (items : list item) :
  respectsPerPage (Fetch.wordpress items).
Proof.
  intros per_page page responseData totalAvailable. unfold Fetch.wordpress.
  destruct (_ || _ || _); [done|]. intros [= <- _]. rewrite length_take. lia.
Qed.

(** X3: against a source that never answers with more items than asked for,
    the fetch never returns more than [totalItemsNeeded] items. *)
Theorem fetch_never_returns_more_than_needed
    {item : Type} (get : nat -> nat -> Fetch.response item) (totalItemsNeeded : nat) :
  respectsPerPage get ->
  exists result,
    Fetch.fetchDataWithPagination get totalItemsNeeded = Some result
    /\ (length (Fetch.data result) <= totalItemsNeeded)%nat.
Proof.
  intros Hrespects.
  destruct (loop_terminates get totalItemsNeeded totalItemsNeeded Fetch.init) as [final Hloop].
  { intros _. simpl. lia. }
  exists (Fetch.finish final).
  split; [unfold Fetch.fetchDataWithPagination; by rewrite Hloop|].
  apply (loop_invariant get totalItemsNeeded
           (fun st => (length (Fetch.allData st) <= totalItemsNeeded)%nat)
           totalItemsNeeded Fetch.init final); [simpl; lia | | done].
  intros st Hle Hcontinue. unfold Fetch.continue in Hcontinue.
  apply andb_true_iff in Hcontinue as [_ Hlt]. apply Nat.ltb_lt in Hlt.
  unfold Fetch.body.
  destruct (get _ (Fetch.page st)) as [[|x responseData] totalAvailable|] eqn:Hget;
    cbn [Fetch.allData]; try done.
  apply Hrespects in Hget. rewrite length_app. lia.
Qed.

Lemma fetch_never_returns_more_than_needed_witness :
  exists result,
    Fetch.fetchDataWithPagination (Fetch.wordpress (seq 0 150)) 120 = Some result
    /\ (length (Fetch.data result) <= 120)%nat.
Proof.
  apply (fetch_never_returns_more_than_needed (Fetch.wordpress (seq 0 150)) 120).
  apply wordpress_respectsPerPage.
Defined.

(** What a fetch of at most a page, or of whole pages, brings in. *)
Lemma fetch_first_items
    {item : Type} (items : list item) (totalItemsNeeded : nat) :
  (totalItemsNeeded <= Fetch.maxPerPage)%nat
  \/ ((totalItemsNeeded mod Fetch.maxPerPage = 0)%nat
      /\ (totalItemsNeeded <= length items)%nat) ->
  exists result,
    Fetch.fetchDataWithPagination (Fetch.wordpress items) totalItemsNeeded = Some result
    /\ Fetch.data result = take totalItemsNeeded items.
Proof.
  intros Hcase.
  destruct (Nat.eq_dec totalItemsNeeded 0) as [-> | Hneeded].
  { eexists. split; [reflexivity | done]. }
  destruct (Nat.eq_dec (length items) 0) as [Hnone | Hsome].
  { eexists. split; [by apply fetch_nothing; [|lia]|].
    apply length_zero_iff_nil in Hnone. subst items. by rewrite take_nil. }
  destruct (Nat.lt_ge_cases (length items) totalItemsNeeded) as [Hmore | Hless].
  - (* the collection is shorter than what is asked for *)
    assert (Hsmall : (totalItemsNeeded <= Fetch.maxPerPage)%nat) by page_arith.
    destruct (Nat.le_gt_cases (length items)
                (Fetch.maxPerPage * (totalItemsNeeded / Fetch.maxPerPage))) as [Hfull | Hshort].
    + eexists. split; [apply fetch_everything_in_full_pages; page_arith|].
      cbn [Fetch.data]. symmetry. apply take_ge. lia.
    + destruct (fetch_with_short_last_page items totalItemsNeeded)
        as (result & Hresult & _ & Hdata); [page_arith | page_arith |].
      exists result. split; [done|]. rewrite Hdata.
      replace (totalItemsNeeded / Fetch.maxPerPage)%nat with 0%nat by page_arith.
      rewrite Nat.mul_0_r, Nat.mul_0_l, take_0, drop_0, app_nil_l.
      f_equal. page_arith.
  - destruct (Nat.eq_dec (totalItemsNeeded mod Fetch.maxPerPage) 0) as [Hwhole | Hrest].
    + destruct (Nat.eq_dec totalItemsNeeded (length items)) as [Hall | Hsomeleft].
      * (* the last full page brings in the last item *)
        set (p := (totalItemsNeeded / Fetch.maxPerPage - 1)%nat).
        eexists. split.
        -- apply (fetch_from_loop _ _ (p + 1)); [unfold p; page_arith|].
           rewrite (init_is_no_page items), loop_full_pages by (unfold p; page_arith).
           apply loop_last_full_page; unfold p; page_arith.
        -- cbn [Fetch.finish Fetch.data Fetch.allData]. symmetry. apply take_ge. lia.
      * destruct (fetch_whole_pages items totalItemsNeeded)
          as (result & Hresult & _ & Hdata); [lia | done |].
        exists result. split; [done|]. rewrite Hdata. f_equal. page_arith.
    + destruct (fetch_with_short_last_page items totalItemsNeeded)
        as (result & Hresult & _ & Hdata); [page_arith | page_arith |].
      exists result. split; [done|]. rewrite Hdata.
      replace (totalItemsNeeded / Fetch.maxPerPage)%nat with 0%nat by page_arith.
      rewrite Nat.mul_0_r, Nat.mul_0_l, take_0, drop_0, app_nil_l.
      f_equal. page_arith.
Qed.

(** X4: against a WordPress collection, when at most 100 items are asked
    for, or a whole number of pages that the collection can fill, the fetch
    returns exactly the first [totalItemsNeeded] items of the collection (all
    of it when it is shorter). *)
Theorem fetch_returns_the_first_items
    {item : Type} (items : list item) (totalItemsNeeded : nat) :
  (totalItemsNeeded <= Fetch.maxPerPage)%nat
  \/ ((totalItemsNeeded mod Fetch.maxPerPage = 0)%nat
      /\ (totalItemsNeeded <= length items)%nat) ->
  exists result,
    Fetch.fetchDataWithPagination (Fetch.wordpress items) totalItemsNeeded = Some result
    /\ Fetch.data result = take totalItemsNeeded items.
Proof. exact (fetch_first_items items totalItemsNeeded). Qed.

Lemma fetch_returns_the_first_items_witness :
  exists result,
    Fetch.fetchDataWithPagination (Fetch.wordpress (seq 0 70)) 50 = Some result
    /\ Fetch.data result = take 50 (seq 0 70).
Proof.
  apply (fetch_returns_the_first_items (seq 0 70) 50).
  left. vm_compute. lia.
Defined.

(** X5: against a WordPress collection that can fill the request, when more
    than 100 items are asked for and not a whole number of pages, the last
    page is asked for with a smaller page size and so starts at an earlier
    offset: the record at that offset of the collection is returned twice,
    once in its place and once where the last page begins. *)
Theorem fetch_short_last_page_repeats_a_record
    {item : Type} (items : list item) (totalItemsNeeded : nat) :
  (Fetch.maxPerPage < totalItemsNeeded)%nat ->
  (totalItemsNeeded mod Fetch.maxPerPage <> 0)%nat ->
  (totalItemsNeeded <= length items)%nat ->
  exists result record,
    Fetch.fetchDataWithPagination (Fetch.wordpress items) totalItemsNeeded = Some result
    /\ length (Fetch.data result) = totalItemsNeeded
    /\ (totalItemsNeeded / Fetch.maxPerPage * (totalItemsNeeded mod Fetch.maxPerPage)
        < Fetch.maxPerPage * (totalItemsNeeded / Fetch.maxPerPage))%nat
    /\ items !! (totalItemsNeeded / Fetch.maxPerPage * (totalItemsNeeded mod Fetch.maxPerPage))%nat
       = Some record
    /\ Fetch.data result
         !! (totalItemsNeeded / Fetch.maxPerPage * (totalItemsNeeded mod Fetch.maxPerPage))%nat
       = Some record
    /\ Fetch.data result !! (Fetch.maxPerPage * (totalItemsNeeded / Fetch.maxPerPage))%nat
       = Some record.
Proof.
  intros Hlarge Hrest Hfill.
  destruct (fetch_with_short_last_page items totalItemsNeeded)
    as (result & Hresult & _ & Hdata); [page_arith | page_arith |].
  set (q := (totalItemsNeeded / Fetch.maxPerPage)%nat) in *.
  set (r := (totalItemsNeeded mod Fetch.maxPerPage)%nat) in *.
  assert (Hq : (1 <= q)%nat) by (unfold q; page_arith).
  assert (Hr : (1 <= r < Fetch.maxPerPage)%nat) by (unfold r; page_arith).
  assert (HM : totalItemsNeeded = (Fetch.maxPerPage * q + r)%nat) by (unfold q, r; page_arith).
  assert (Hoffset : (q * r < Fetch.maxPerPage * q)%nat) by (unfold Fetch.maxPerPage in *; nia).
  assert (Hin : (q * r < length items)%nat) by lia.
  destruct (lookup_lt_is_Some_2 items (q * r) Hin) as [record Hrecord].
  assert (Hlen : length (take (Fetch.maxPerPage * q) items) = (Fetch.maxPerPage * q)%nat)
    by (rewrite length_take; lia).
  exists result, record. split; [done|].
  rewrite Hdata. split; [|split; [done|]; split; [done|]; split].
  - rewrite length_app, Hlen, length_take, length_drop. unfold Fetch.maxPerPage in *. nia.
  - rewrite lookup_app_l by lia. by rewrite lookup_take_lt.
  - rewrite lookup_app_r by lia. rewrite Hlen, Nat.sub_diag.
    rewrite lookup_take_lt by lia. by rewrite lookup_drop, Nat.add_0_r.
Qed.

Lemma fetch_short_last_page_repeats_a_record_witness :
  exists result record,
    Fetch.fetchDataWithPagination (Fetch.wordpress (seq 0 300)) 150 = Some result
    /\ length (Fetch.data result) = 150%nat
    /\ (150 / Fetch.maxPerPage * (150 mod Fetch.maxPerPage)
        < Fetch.maxPerPage * (150 / Fetch.maxPerPage))%nat
    /\ seq 0 300 !! (150 / Fetch.maxPerPage * (150 mod Fetch.maxPerPage))%nat = Some record
    /\ Fetch.data result !! (150 / Fetch.maxPerPage * (150 mod Fetch.maxPerPage))%nat
       = Some record
    /\ Fetch.data result !! (Fetch.maxPerPage * (150 / Fetch.maxPerPage))%nat = Some record.
Proof.
  apply (fetch_short_last_page_repeats_a_record (seq 0 300) 150).
  - vm_compute. lia.
  - vm_compute. lia.
  - vm_compute. lia.
Defined.

(** ** Labels and their console lines *)

Lemma label_step_log labelType apiTag log labels labelId :
  (label_step labelType apiTag (log, labels) labelId).1
  = log ++
    match List.find (label_matches labelId) (Api.data apiTag) with
    | Some _ => []
    | None => [LabelNotFound labelType labelId]
    end.
Proof.
  unfold label_step.
  pose proof (filter_head_find (label_matches labelId) (Api.data apiTag)) as H.
  destruct (List.filter (label_matches labelId) (Api.data apiTag)) as [|o rest].
  - by rewrite H.
  - destruct H as [-> Ho]. unfold label_matches in Ho.
    apply andb_true_iff in Ho as [_ ->]. simpl. by rewrite app_nil_r.
Qed.

Lemma label_loop_log labelType apiTag postItems : forall log labels,
  (fold_left (label_step labelType apiTag) postItems (log, labels)).1
  = log ++ map (LabelNotFound labelType)
             (List.filter
                (fun labelId =>
                   match List.find (label_matches labelId) (Api.data apiTag) with
                   | Some _ => false
                   | None => true
                   end)
                postItems).
Proof.
  induction postItems as [|labelId postItems IH]; intros log labels.
  - simpl. by rewrite app_nil_r.
  - cbn [fold_left List.filter].
    pose proof (label_step_log labelType apiTag log labels labelId) as Hstep.
    destruct (label_step labelType apiTag (log, labels) labelId) as [log' labels'].
    cbn [fst] in Hstep. rewrite IH, Hstep.
    destruct (List.find (label_matches labelId) (Api.data apiTag)); simpl.
    + by rewrite app_nil_r.
    + by rewrite <- app_assoc.
Qed.

(** X6: when the collection of a label kind was fetched, the label lookup
    writes exactly one console line per id that does not resolve, in the
    order of the ids, so every id gives either a name or a line; when it was
    not fetched, every post gets no label of that kind and the two lines say
    so. *)
Theorem label_lookup_accounts_for_every_id
    (apiData : list Api.result) (postItems : list Z) (labelType : string) :
  ((getApiDataType apiData labelType).2 <> [] ->
   (getPostLabels apiData postItems labelType).1
   = map (LabelNotFound labelType) (List.filter (unresolved apiData labelType) postItems)
   /\ (length (getPostLabels apiData postItems labelType).2
       + length (getPostLabels apiData postItems labelType).1 = length postItems)%nat)
  /\ ((getApiDataType apiData labelType).2 = [] ->
      getPostLabels apiData postItems labelType
      = ([NoDataForResource labelType; NoLabelData labelType], [])).
Proof.
  split.
  - intros Hfetched.
    assert (Hlog : (getPostLabels apiData postItems labelType).1
                   = map (LabelNotFound labelType)
                         (List.filter (unresolved apiData labelType) postItems)).
    { unfold getPostLabels, unresolved, resolveLabel, getApiDataType in *.
      destruct (List.filter _ apiData) as [|apiTag rest]; [done|].
      cbn [snd]. rewrite label_loop_log. cbn [app]. f_equal.
      apply filter_ext. intros labelId.
      change (fun o : Api.obj =>
                (Api.id o =? labelId)%Z && negb (String.eqb (Api.name o) EmptyString))
        with (label_matches labelId).
      by destruct (List.find (label_matches labelId) (Api.data apiTag)). }
    split; [done|].
    rewrite Hlog, getPostLabels_resolved, length_map. unfold unresolved.
    clear. induction postItems as [|labelId postItems IH]; [done|].
    rewrite omap_cons. cbn [List.filter].
    destruct (resolveLabel apiData labelType labelId); simpl; lia.
  - intros Hmissing. unfold getPostLabels, getApiDataType in *.
    by destruct (List.filter _ apiData).
Qed.

(** ** The images of a post *)

Lemma span_holds p s a b :
  ImageRegex.span p s = (a, b) -> Forall (fun c => p c = true) (list_ascii_of_string a).
Proof.
  revert a b. induction s as [|c s IH]; intros a b; simpl.
  - intros [= <- <-]. constructor.
  - destruct (p c) eqn:Hp.
    + destruct (ImageRegex.span p s) as [a' b'] eqn:Hspan.
      intros [= <- <-]. simpl. constructor; [done | by eapply IH].
    + intros [= <- <-]. constructor.
Qed.

Lemma span_stops p s a c b :
  ImageRegex.span p s = (a, String c b) -> p c = false.
Proof.
  revert a. induction s as [|d s IH]; intros a; simpl; [done|].
  destruct (p d) eqn:Hp.
  - destruct (ImageRegex.span p s) as [a' b'] eqn:Hspan.
    intros [= <- ->]. by eapply IH.
  - by intros [= <- -> ->].
Qed.

Lemma match_src_holds t m g rest :
  ImageRegex.match_src t = Some (m, g, rest) -> quoteFree g /\ holdsQuoted m g.
Proof.
  unfold ImageRegex.match_src.
  destruct (Js.startsWith "src" t); [|done].
  destruct (ImageRegex.span Js.is_space (Js.substring_from 3 t)) as [ws1 t2].
  destruct t2 as [|eq t3]; [done|].
  destruct (Ascii.eqb eq "="); [|done].
  destruct (ImageRegex.span Js.is_space t3) as [ws2 t4].
  destruct t4 as [|q1 t5]; [done|].
  destruct (ImageRegex.is_quote q1) eqn:Hq1; [|done].
  destruct (ImageRegex.span (fun c => negb (ImageRegex.is_quote c)) t5) as [g' t6] eqn:Hg.
  destruct t6 as [|q2 t7]; [done|].
  destruct (ImageRegex.span ImageRegex.not_gt t7) as [m' t8] eqn:Hm.
  destruct t8 as [|gt t9]; [done|].
  intros [= <- <- <-]. split.
  - apply span_holds in Hg. revert Hg. apply List.Forall_impl.
    intros c Hc. by apply negb_true_iff in Hc.
  - apply span_stops in Hg. apply negb_false_iff in Hg.
    apply span_stops in Hm. unfold ImageRegex.not_gt in Hm.
    apply negb_false_iff, Ascii.eqb_eq in Hm. subst gt.
    exists ("src" +:+ ws1 +:+ String eq ws2), m', q1, q2.
    split; [done|]. split; [done|]. by rewrite !append_assoc.
Qed.

Lemma holdsQuoted_cons c tag link : holdsQuoted tag link -> holdsQuoted (String c tag) link.
Proof.
  intros (before & after & q1 & q2 & Hq1 & Hq2 & ->).
  by exists (String c before), after, q1, q2.
Qed.

Lemma holdsQuoted_append pre tag link :
  holdsQuoted tag link -> holdsQuoted (pre +:+ tag) link.
Proof.
  intros H. induction pre as [|c pre IH]; [done|].
  rewrite append_cons. by apply holdsQuoted_cons.
Qed.

Lemma match_attrs_holds t : forall m g rest,
  ImageRegex.match_attrs t = Some (m, g, rest) -> quoteFree g /\ holdsQuoted m g.
Proof.
  induction t as [|c t IH]; intros m g rest; simpl.
  - done.
  - destruct (ImageRegex.match_src (String c t)) as [[[m' g'] rest']|] eqn:Hsrc.
    + intros [= <- <- <-]. by apply match_src_holds in Hsrc.
    + destruct (ImageRegex.not_gt c); [|done].
      destruct (ImageRegex.match_attrs t) as [[[m' g'] rest']|] eqn:Hattrs; [|done].
      intros [= <- <- <-]. destruct (IH _ _ _ eq_refl) as [Hfree Hholds].
      split; [done | by apply holdsQuoted_cons].
Qed.

Lemma match_at_holds s m g rest :
  ImageRegex.match_at s = Some (m, g, rest) -> quoteFree g /\ holdsQuoted m g.
Proof.
  unfold ImageRegex.match_at.
  destruct (Js.startsWith "<img" s); [|done].
  destruct (Js.substring_from 4 s) as [|c t]; [done|].
  destruct (Js.is_space c); [|done].
  destruct (ImageRegex.match_attrs t) as [[[m' g'] rest']|] eqn:Hattrs; [|done].
  intros [= <- <- <-]. apply match_attrs_holds in Hattrs as [Hfree Hholds].
  split; [done|]. apply (holdsQuoted_append "<img"). by apply holdsQuoted_cons.
Qed.

Lemma exec_from_holds (P : ImageRegex.found -> Prop) s :
  (forall at_ s' m g rest,
      ImageRegex.match_at s' = Some (m, g, rest) ->
      P {| ImageRegex.index := at_; ImageRegex.whole := m; ImageRegex.group1 := g |}) ->
  forall skip at_, Forall P (ImageRegex.exec_from skip at_ s).
Proof.
  intros HP. induction s as [|c s IH]; intros skip at_; simpl; [constructor|].
  destruct skip as [|k]; [|apply IH].
  destruct (ImageRegex.match_at (String c s)) as [[[m g] rest]|] eqn:Hmatch; [|apply IH].
  constructor; [by eapply HP | apply IH].
Qed.

(** X7: every link the image pattern extracts is free of quote characters,
    and the tag it was found in holds it between two quotes and ends with
    the closing angle bracket. *)
Theorem extracted_links_are_the_quoted_text (html : string) :
  Forall (fun foundImage =>
            quoteFree (ImageRegex.group1 foundImage)
            /\ holdsQuoted (ImageRegex.whole foundImage) (ImageRegex.group1 foundImage))
         (ImageRegex.exec_all html).
Proof.
  apply exec_from_holds. intros at_ s' m g rest Hmatch. simpl.
  by apply match_at_holds in Hmatch.
Qed.



(** X8: a post without featured image whose rendered HTML nowhere holds the
    text of an opening image tag has no image at all, whatever was fetched,
    and nothing is written to the console. *)
Theorem no_image_tag_no_image (apiData : list Api.result) (postData : Raw.post) :
  (Raw.featured_media postData <= 0)%Z ->
  Js.includes "<img" (Raw.content_rendered postData) = false ->
  getPostBodyImages apiData postData = ([], Js.Ok []).
Proof.
  intros Hnone Htext. rewrite getPostBodyImages_no_featured by done.
  unfold bodyRefs, ImageRegex.exec_all. by rewrite exec_from_without_tag.
Qed.

Lemma no_image_tag_no_image_witness :
  getPostBodyImages Sample.apiData_no_media postData_text = ([], Js.Ok []).
Proof.
  apply (no_image_tag_no_image Sample.apiData_no_media postData_text).
  - vm_compute. discriminate.
  - vm_compute. reflexivity.
Defined.








(** X10: a post whose positive featured media id resolves to no record of
    the fetched media collection and whose HTML holds no image tag is
    normalized, with an empty list of images, and then no entry payload can
    be built for it: with any assets, building its fields throws. *)
Theorem dangling_featured_image_without_body_image_breaks_the_payload
    (apiData : list Api.result) (postData : Raw.post) (collection : list Api.obj) :
  mediaCollection apiData = Some collection ->
  (0 < Raw.featured_media postData)%Z ->
  resolveMedia collection (Raw.featured_media postData) = None ->
  Js.includes "<img" (Raw.content_rendered postData) = false ->
  exists post,
    (fieldData apiData postData).2 = Js.Ok post
    /\ Post.contentImages post = []
    /\ forall turndown format assetUrls assets,
         exists e, postFields turndown format assetUrls assets post = Js.Throw e.
Proof.
  intros Hcollection Hpos Hnone Htext.
  destruct (unresolved_featured_media_is_skipped apiData postData collection)
    as [Hpost _]; [done | done | done |].
  eexists. split; [exact Hpost|].
  assert (Hbare : bodyRefs postData = [])
    by (unfold bodyRefs, ImageRegex.exec_all; by rewrite exec_from_without_tag).
  cbn [Post.contentImages]. split; [done|].
  intros turndown format assetUrls assets.
  rewrite postFields_featured by done.
  destruct (featuredLink_none_named assets
              {| Post.id := Raw.id postData; Post.type := Raw.type postData;
                 Post.postTitle := Raw.title_rendered postData;
                 Post.slug := Raw.slug postData;
                 Post.content := Raw.content_rendered postData;
                 Post.publishDate := Raw.date_gmt postData +:+ "+00:00";
                 Post.featuredImage := Raw.featured_media postData;
                 Post.tags := omap (resolveLabel apiData "tags") (Raw.tags postData);
                 Post.categories :=
                   omap (resolveLabel apiData "categories") (Raw.categories postData);
                 Post.contentImages := bodyRefs postData |}) as [e He].
  - cbn [Post.contentImages]. rewrite Hbare. done.
  - rewrite He. destruct (convertContent _ _ _ _) as [content|e']; by eexists.
Qed.

Lemma dangling_featured_image_without_body_image_breaks_the_payload_witness :
  exists post,
    (fieldData Sample.apiData postData_bare).2 = Js.Ok post
    /\ Post.contentImages post = []
    /\ forall turndown format assetUrls assets,
         exists e, postFields turndown format assetUrls assets post = Js.Throw e.
Proof.
  apply (dangling_featured_image_without_body_image_breaks_the_payload
           Sample.apiData postData_bare [Sample.cover]).
  - reflexivity.
  - reflexivity.
  - reflexivity.
  - vm_compute. reflexivity.
Defined.

(** ** Content conversion *)

Lemma filter_first_match {A} (p : A -> bool) before x after :
  Forall (fun a => p a = false) before -> p x = true ->
  head (List.filter p (before ++ x :: after)) = Some x.
Proof.
  intros Hbefore Hx. induction Hbefore as [|a before Ha _ IH]; simpl.
  - by rewrite Hx.
  - by rewrite Ha.
Qed.

(** X11: an inline image is rewritten to the first asset URL whose last path
    segment is the last path segment of its source; the directories of the
    source play no part, so two sources with the same file name get the same
    URL. *)
Theorem image_is_rewritten_to_the_first_asset_of_its_name
    (before after : list string) (url src : string) (alt : option string) :
  Forall (fun asset => Js.pop (Js.split "/" asset) <> Js.pop (Js.split "/" src)) before ->
  url <> EmptyString ->
  Js.pop (Js.split "/" url) = Js.pop (Js.split "/" src) ->
  replaceWordPressImages (before ++ url :: after) (Some src) alt
  = Js.Ok ("![" +:+ default "null" alt +:+ "](" +:+ url +:+ ")")
  /\ forall src',
       Js.pop (Js.split "/" src') = Js.pop (Js.split "/" src) ->
       replaceWordPressImages (before ++ url :: after) (Some src') alt
       = replaceWordPressImages (before ++ url :: after) (Some src) alt.
Proof.
  intros Hbefore Hurl Hname. split.
  - unfold replaceWordPressImages. rewrite (filter_first_match _ before url after); [done| |].
    + revert Hbefore. apply List.Forall_impl. intros asset Hne.
      destruct (String.eqb_spec (Js.pop (Js.split "/" asset)) (Js.pop (Js.split "/" src)));
        done.
    + rewrite Hname, String.eqb_refl. simpl.
      by destruct (String.eqb_spec url EmptyString).
  - intros src' Hsame. unfold replaceWordPressImages. by rewrite Hsame.
Qed.

Lemma image_is_rewritten_to_the_first_asset_of_its_name_witness :
  replaceWordPressImages
    (["//images.ctfassets.net/s/1/other.png"]
       ++ "//images.ctfassets.net/s/2/a.png" :: ["//images.ctfassets.net/s/3/a.png"])
    (Some "http://wp/uploads/2020/01/a.png") (Some "A")
  = Js.Ok ("![" +:+ default "null" (Some "A") +:+ "](" +:+
           "//images.ctfassets.net/s/2/a.png" +:+ ")")
  /\ forall src',
       Js.pop (Js.split "/" src') = Js.pop (Js.split "/" "http://wp/uploads/2020/01/a.png") ->
       replaceWordPressImages
         (["//images.ctfassets.net/s/1/other.png"]
            ++ "//images.ctfassets.net/s/2/a.png" :: ["//images.ctfassets.net/s/3/a.png"])
         (Some src') (Some "A")
       = replaceWordPressImages
           (["//images.ctfassets.net/s/1/other.png"]
              ++ "//images.ctfassets.net/s/2/a.png" :: ["//images.ctfassets.net/s/3/a.png"])
           (Some "http://wp/uploads/2020/01/a.png") (Some "A").
Proof.
  apply (image_is_rewritten_to_the_first_asset_of_its_name
           ["//images.ctfassets.net/s/1/other.png"] ["//images.ctfassets.net/s/3/a.png"]
           "//images.ctfassets.net/s/2/a.png" "http://wp/uploads/2020/01/a.png" (Some "A")).
  - constructor; [vm_compute; discriminate | constructor].
  - discriminate.
  - vm_compute. reflexivity.
Defined.

Lemma strip_from_without_marker s :
  Js.includes "![" s = false -> Placeholder.strip_from 0 s = s.
Proof.
  unfold Js.includes. induction s as [|c s IH]; intros Hnone; [done|].
  destruct (Js.cut "![" (String c s)) as [|] eqn:Hcut; [done|].
  apply cut_none in Hcut as [Hstart Hcut].
  cbn [Placeholder.strip_from]. unfold Placeholder.match_at. rewrite Hstart.
  f_equal. apply IH. by rewrite Hcut.
Qed.

(** X12: the removal of image text with the target [undefined] leaves
    unchanged every text in which an exclamation mark is never followed by an
    opening square bracket, HTML with image tags included. *)
Theorem removal_leaves_text_without_image_syntax (htmlContent : string) :
  Js.includes "![" htmlContent = false ->
  Placeholder.strip htmlContent = htmlContent.
Proof. apply strip_from_without_marker. Qed.

Lemma removal_leaves_text_without_image_syntax_witness :
  Placeholder.strip Sample.body_html = Sample.body_html.
Proof.
  apply (removal_leaves_text_without_image_syntax Sample.body_html).
  vm_compute. reflexivity.
Defined.

Lemma lazy_to_first alt post :
  without "]" alt -> singleLine alt ->
  Placeholder.lazy_to "](undefined)" (alt +:+ "](undefined)" +:+ post)
  = Some (String.length alt + 12)%nat.
Proof.
  unfold without, singleLine. induction alt as [|c alt IH]; intros Hno Hline.
  - rewrite append_nil_l. destruct post; reflexivity.
  - inversion_clear Hno as [|? ? Hc Hno']. inversion_clear Hline as [|? ? Hl Hline'].
    rewrite append_cons. cbn [Placeholder.lazy_to Js.startsWith].
    rewrite Ascii.eqb_sym, Hc. cbn [andb]. rewrite Hl, IH by done. done.
Qed.

Lemma strip_from_skips a : forall b,
  Placeholder.strip_from (String.length a) (a +:+ b) = Placeholder.strip_from 0 b.
Proof.
  induction a as [|c a IH]; intros b; [done|].
  rewrite append_cons. cbn [String.length Placeholder.strip_from]. apply IH.
Qed.

Lemma strip_from_keeps pre : forall rest,
  without "!" pre ->
  Placeholder.strip_from 0 (pre +:+ rest) = pre +:+ Placeholder.strip_from 0 rest.
Proof.
  unfold without. induction pre as [|c pre IH]; intros rest Hno; [done|].
  inversion_clear Hno as [|? ? Hc Hno'].
  rewrite !append_cons. cbn [Placeholder.strip_from].
  unfold Placeholder.match_at. cbn [Js.startsWith].
  rewrite Ascii.eqb_sym, Hc. cbn [andb]. f_equal. by apply IH.
Qed.

(** X13: the removal takes out an image text with the target [undefined]
    and nothing around it: after a text without exclamation mark, an image
    whose alternative text is on one line and has no closing square bracket
    is removed whole, and the removal goes on with what follows. *)
Theorem removal_takes_out_the_placeholder (pre alt post : string) :
  without "!" pre -> without "]" alt -> singleLine alt ->
  Placeholder.strip (pre +:+ "![" +:+ alt +:+ "](undefined)" +:+ post)
  = pre +:+ Placeholder.strip post.
Proof.
  intros Hpre Halt Hline. unfold Placeholder.strip.
  rewrite strip_from_keeps by done. f_equal.
  change ("![" +:+ alt +:+ "](undefined)" +:+ post)
    with (String "!" (String "[" (alt +:+ "](undefined)" +:+ post))).
  cbn [Placeholder.strip_from]. unfold Placeholder.match_at.
  cbn [Js.startsWith Ascii.eqb Bool.eqb andb Js.substring_from].
  rewrite lazy_to_first by done.
  replace (2 + (String.length alt + 12) - 1)%nat
    with (S (String.length (alt +:+ "](undefined)")))
    by (rewrite length_append; simpl; lia).
  cbn [Placeholder.strip_from].
  rewrite <- (append_assoc alt "](undefined)" post).
  apply strip_from_skips.
Qed.

Lemma removal_takes_out_the_placeholder_witness :
  Placeholder.strip ("See " +:+ "![" +:+ "a cat" +:+ "](undefined)" +:+ " and ![x](y).")
  = "See " +:+ Placeholder.strip " and ![x](y).".
Proof.
  apply (removal_takes_out_the_placeholder "See " "a cat" " and ![x](y).").
  - repeat constructor.
  - repeat constructor.
  - repeat constructor.
Defined.

Lemma trimEnd_last s :
  match lastChar (Js.trimEnd s) with
  | Some c => Js.is_space c = false
  | None => True
  end.
Proof.
  induction s as [|c s IH]; [done|].
  cbn [Js.trimEnd]. destruct (Js.trimEnd s) as [|d t].
  - destruct (Js.is_space c) eqn:Hc; [done | exact Hc].
  - exact IH.
Qed.

Lemma marker_leaves_text (marker t : string) :
  lastChar marker = Some " "%char ->
  t <> EmptyString ->
  match lastChar t with Some c => Js.is_space c = false | None => True end ->
  Js.startsWith marker t = true ->
  t = marker +:+ Js.substring_from (String.length marker) t
  /\ Js.substring_from (String.length marker) t <> EmptyString.
Proof.
  intros Hmarker Hne Hlast Hstart. apply startsWith_inv in Hstart.
  split; [done|]. intros Hrest. rewrite Hrest, append_nil_r in Hstart.
  rewrite Hstart, Hmarker in Hlast. done.
Qed.

Lemma classify_trimmed line :
  Js.trim line <> EmptyString ->
  exists n, nodeOfLine line n /\ lineNode n.
Proof.
  intros Hne. pose proof (trimEnd_last (Js.trimStart line)) as Hlast.
  fold (Js.trim line) in Hlast. unfold nodeOfLine. revert Hne Hlast.
  generalize (Js.trim line). intros t Hne Hlast. unfold classify, lineNode.
  destruct (Js.startsWith "# " t) eqn:H1.
  { destruct (marker_leaves_text "# " t) as [Ht Hrest]; try done.
    eexists. split; [split; [reflexivity|]|].
    - eexists _, _. split; [exact Ht|]. split; [exact Hrest|]. by left.
    - eexists. split; [exact Hrest|]. by left. }
  destruct (Js.startsWith "## " t) eqn:H2.
  { destruct (marker_leaves_text "## " t) as [Ht Hrest]; try done.
    eexists. split; [split; [reflexivity|]|].
    - eexists _, _. split; [exact Ht|]. split; [exact Hrest|]. right. by left.
    - eexists. split; [exact Hrest|]. right. by left. }
  destruct (Js.startsWith "### " t) eqn:H3.
  { destruct (marker_leaves_text "### " t) as [Ht Hrest]; try done.
    eexists. split; [split; [reflexivity|]|].
    - eexists _, _. split; [exact Ht|]. split; [exact Hrest|]. right. right. by left.
    - eexists. split; [exact Hrest|]. right. right. by left. }
  destruct (Js.startsWith "> " t) eqn:H4.
  { destruct (marker_leaves_text "> " t) as [Ht Hrest]; try done.
    eexists. split; [split; [reflexivity|]|].
    - eexists _, _. split; [exact Ht|]. split; [exact Hrest|]. right. right. right. by left.
    - eexists. split; [exact Hrest|]. right. right. right. by left. }
  destruct t as [|c t]; [done|]. cbn [String.length Nat.ltb Nat.leb].
  eexists. split; [split; [reflexivity|]|].
  - exists EmptyString, (String c t). split; [done|]. split; [done|]. by repeat right.
  - eexists. split; [exact Hne|]. by repeat right.
Qed.

Lemma linesToDocument_nodes markdown :
  exists nodes,
    linesToDocument markdown = Block "document" nodes
    /\ Forall2 nodeOfLine (nonBlankLines markdown) nodes
    /\ length nodes = length (nonBlankLines markdown)
    /\ Forall lineNode nodes.
Proof.
  rewrite linesToDocument_lines. fold (nonBlankLines markdown).
  eexists. split; [reflexivity|].
  assert (Hlines : Forall (fun line => Js.trim line <> EmptyString) (nonBlankLines markdown)).
  { unfold nonBlankLines. apply List.Forall_forall. intros line Hin.
    apply filter_In in Hin as [_ Hlen]. intros Hempty. by rewrite Hempty in Hlen. }
  induction Hlines as [|line lines Hline _ (IHlines & IHlen & IHnodes)];
    [by repeat split; constructor|].
  destruct (classify_trimmed line Hline) as (n & Hn & Hnode).
  cbn [flat_map]. rewrite (proj1 Hn). cbn [app length].
  split; [by constructor|]. split; [by rewrite IHlen | by constructor].
Qed.

(** X14: when the conversion to markdown returns, a rich-text document is
    returned whose nodes are those of the lines of the markdown that are not
    blank, one node per line and in the order of the lines: the trimmed line
    is a marker followed by a text that is not empty, and its node is the
    heading of level 1 to 3, the blockquote around a paragraph, or (without
    marker) the paragraph around that text.  A markdown of blank lines gives a
    document without content, and an exception of the conversion to markdown
    is the exception of [convertToRichText]. *)
Theorem document_has_one_node_per_line
    (turndown : list string -> string -> Js.result string) (assetUrls : list string)
    (htmlContent : string) :
  (forall markdown,
      turndown assetUrls (Placeholder.strip htmlContent) = Js.Ok markdown ->
      exists nodes,
        convertToRichText turndown assetUrls htmlContent = Js.Ok (Block "document" nodes)
        /\ Forall2 nodeOfLine (nonBlankLines markdown) nodes
        /\ length nodes = length (nonBlankLines markdown)
        /\ Forall lineNode nodes)
  /\ (forall e,
        turndown assetUrls (Placeholder.strip htmlContent) = Js.Throw e ->
        convertToRichText turndown assetUrls htmlContent = Js.Throw e).
Proof.
  unfold convertToRichText. split.
  - intros markdown ->. cbn [mbind result_bind Js.bind mret result_ret].
    destruct (linesToDocument_nodes markdown) as (nodes & -> & Hnodes).
    by exists nodes.
  - by intros e ->.
Qed.

Example document_of_two_lines :
  exists nodes,
    convertToRichText Sample.plain_turndown []
      ("## Title" +:+ String newline (String newline "First line."))
    = Js.Ok (Block "document" nodes)
    /\ Forall2 nodeOfLine ["## Title"; "First line."] nodes
    /\ nodes = [Block "heading-2" [Text "Title"]; Block "paragraph" [Text "First line."]].
Proof.
  destruct (linesToDocument_nodes
              ("## Title" +:+ String newline (String newline "First line.")))
    as (nodes & Hnodes & Hlines & _).
  exists nodes. split; [by rewrite <- Hnodes|]. split; [exact Hlines|].
  by injection Hnodes as <-.
Qed.

(** ** Fenced code blocks *)





Example code_block_of_javascript :
  CodeBlock.replacement "```"
    {| CodeBlock.childName := "CODE"; CodeBlock.class := Some "hljs language-js wide";
       CodeBlock.textContent := "let x = 1" |}
  = String newline (String newline ("```js" +:+ String newline ("let x = 1"
      +:+ String newline ("```" +:+ String newline (String newline EmptyString))))).
Proof. reflexivity. Qed.

(** * The payloads and the uploads *)

Lemma postFields_negative turndown format assetUrls assets post :
  (Post.featuredImage post < 0)%Z ->
  postFields turndown format assetUrls assets post
  = content ← convertContent turndown format assetUrls (VStr (Post.content post));
    Js.Ok (<["categories" := VStr (Js.join ", " (Post.categories post))]>
          (<["tags" := VStr (Js.join ", " (Post.tags post))]>
          (<["featuredImage" := VNum (Post.featuredImage post)]>
          (<["publishDate" := VStr (Post.publishDate post)]>
          (<["content" := content]>
          (<["slug" := VStr (Post.slug post)]>
          (<["postTitle" := VStr (Post.postTitle post)]> ∅))))))).
Proof.
  intros Hneg.
  assert (Hgt : (0 <? Post.featuredImage post)%Z = false) by (apply Z.ltb_ge; lia).
  assert (Hz : (Post.featuredImage post =? 0)%Z = false) by (apply Z.eqb_neq; lia).
  unfold postFields, postEntries.
  cbv beta iota zeta delta
    [foldM fieldStep mbind result_bind Js.bind mret result_ret String.eqb Ascii.eqb
     Bool.eqb existsb keysToSkip andb orb gt_zero is_zero joinNames].
  destruct (convertContent turndown format assetUrls (VStr (Post.content post))); [|done].
  by rewrite Hgt, Hz.
Qed.

Lemma featuredLink_ok assets post link :
  featuredLink assets post = Js.Ok link ->
  exists first rest asset,
    Post.contentImages post = first :: rest
    /\ firstAssetNamed assets (fileNameOf first) = Some asset
    /\ link = VLink "Asset" (Asset.assetId asset).
Proof.
  intros Hlink.
  destruct (Post.contentImages post) as [|first rest] eqn:Himages.
  - destruct (featuredLink_none_named assets post) as [e He]; [|congruence].
    intros first rest. by rewrite Himages.
  - destruct (firstAssetNamed assets (fileNameOf first)) as [asset|] eqn:Hfind.
    + exists first, rest, asset. split; [done|]. split; [done|].
      rewrite (featuredLink_first_named assets post first rest asset Himages Hfind) in Hlink.
      by injection Hlink as <-.
    + destruct (featuredLink_none_named assets post) as [e He]; [|congruence].
      intros first' rest'. rewrite Himages. by intros [= <- <-].
Qed.

Lemma postFields_linkable turndown format assetUrls assets post :
  (exists fields, postFields turndown format assetUrls assets post = Js.Ok fields)
  <-> convertible turndown format assetUrls post /\ linkable assets post.
Proof.
  unfold linkable, convertible.
  destruct (Z.lt_trichotomy (Post.featuredImage post) 0) as [Hneg | [Hzero | Hpos]].
  - rewrite postFields_negative by done.
    destruct (convertContent turndown format assetUrls (VStr (Post.content post)))
      as [content|e]; simpl.
    + split; [intros _; split; [by eexists | left; lia] | by eexists].
    + split; [by intros [? ?] | by intros [[? ?] _]].
  - rewrite postFields_no_featured by done.
    destruct (convertContent turndown format assetUrls (VStr (Post.content post)))
      as [content|e]; simpl.
    + split; [intros _; split; [by eexists | left; lia] | by eexists].
    + split; [by intros [? ?] | by intros [[? ?] _]].
  - rewrite postFields_featured by done.
    destruct (convertContent turndown format assetUrls (VStr (Post.content post)))
      as [content|e]; simpl.
    + split.
      * intros [fields Hfields]. split; [by eexists|]. right.
        destruct (featuredLink assets post) as [link|e] eqn:Hlink; [|done].
        apply featuredLink_ok in Hlink as (first & rest & asset & Himages & Hfind & _).
        by exists first, rest, asset.
      * intros [_ [Hle | (first & rest & asset & Himages & Hfind)]]; [lia|].
        rewrite (featuredLink_first_named assets post first rest asset Himages Hfind).
        by eexists.
    + split; [by intros [? ?] | by intros [[? ?] _]].
Qed.

(** A loop that pushes one result per element, unless getting one throws. *)
Lemma foldM_push {A B} (f : A -> Js.result B) (l : list A) : forall init out,
  foldM (fun acc x => y ← f x; mret (acc ++ [y])) l init = Js.Ok out
  <-> exists built, out = init ++ built /\ Forall2 (fun x y => f x = Js.Ok y) l built.
Proof.
  induction l as [|a l IH]; intros init out.
  - simpl. split.
    + intros [= <-]. exists []. by rewrite app_nil_r.
    + intros (built & -> & Hbuilt). inversion Hbuilt. by rewrite app_nil_r.
  - simpl. destruct (f a) as [y|e] eqn:Hfa; simpl.
    + rewrite IH. split.
      * intros (built & -> & Hbuilt). exists (y :: built).
        split; [by rewrite <- app_assoc | by constructor].
      * intros (built & -> & Hbuilt).
        inversion Hbuilt as [|? y' ? built' Hy Hrest]; subst.
        assert (y' = y) as -> by congruence.
        exists built'. split; [by rewrite <- app_assoc | done].
    + split; [done|]. intros (built & _ & Hbuilt).
      inversion Hbuilt; subst. congruence.
Qed.

Lemma Forall2_ok_length {A B} (f : A -> Js.result B) (l : list A) :
  Forall (fun x => exists y, f x = Js.Ok y) l ->
  exists built, Forall2 (fun x y => f x = Js.Ok y) l built.
Proof.
  induction 1 as [|x l [y Hy] _ [built IH]].
  - exists []. constructor.
  - exists (y :: built). by constructor.
Qed.

(** X16: the loop of [createContentfulPosts] hands payloads on exactly when,
    for every post, the conversion of the content returns and the post is
    linkable, that is asks for no featured image (id not positive) or has a
    first image with an asset of its file name; the payloads are then those of
    the posts, one per post and in post order. *)
Theorem payloads_are_built_exactly_when_every_link_resolves
    (turndown : list string -> string -> Js.result string) (format : contentFormat)
    (assetUrls : list string) (assets : list Asset.t) (posts : list Post.t) :
  ((exists payloads,
       createContentfulPosts turndown format assetUrls assets posts = Js.Ok payloads)
   <-> Forall (fun post =>
                 convertible turndown format assetUrls post /\ linkable assets post)
              posts)
  /\ (forall payloads,
        createContentfulPosts turndown format assetUrls assets posts = Js.Ok payloads ->
        Forall2 (fun post fields =>
                   postFields turndown format assetUrls assets post = Js.Ok fields)
                posts payloads).
Proof.
  unfold createContentfulPosts. split; [split|].
  - intros [payloads Hpayloads].
    apply foldM_push in Hpayloads as (built & _ & Hbuilt).
    induction Hbuilt as [|post fields posts' built' Hfields _ IH]; constructor; [|done].
    apply (postFields_linkable turndown format assetUrls assets). by exists fields.
  - intros Hall.
    destruct (Forall2_ok_length (postFields turndown format assetUrls assets) posts)
      as [built Hbuilt].
    { revert Hall. apply List.Forall_impl. intros post.
      apply (postFields_linkable turndown format assetUrls). }
    exists ([] ++ built). apply foldM_push. by exists built.
  - intros payloads Hpayloads.
    by apply foldM_push in Hpayloads as (built & -> & Hbuilt).
Qed.

Ltac payload_lookup :=
  repeat first
    [ rewrite lookup_insert_eq
    | rewrite lookup_insert_ne by done
    | rewrite lookup_delete_eq
    | rewrite lookup_delete_ne by done
    | rewrite lookup_empty ].

Ltac payload_conjuncts :=
  repeat match goal with |- _ /\ _ => split end.

Ltac payload_key H :=
  repeat first
    [ rewrite lookup_empty in H
    | apply lookup_insert_is_Some in H as [<- | [_ H]];
        [unfold payloadKeys; simpl; tauto|]
    | apply lookup_delete_is_Some in H as [_ H] ];
  try by destruct H.

(** X17: whatever the post, the payload built for it holds the title, the
    slug, the publication date, the converted content and the joined tag and
    category names, never the keys [id], [type] and [contentImages], no key
    outside the seven field names, and a [featuredImage] field exactly when the
    featured image id is not 0: a link when it is positive, the number itself
    when it is negative. *)
Theorem payload_holds_the_seven_fields
    (turndown : list string -> string -> Js.result string) (format : contentFormat)
    (assetUrls : list string) (assets : list Asset.t) (post : Post.t)
    (fields : gmap string value) :
  postFields turndown format assetUrls assets post = Js.Ok fields ->
  fields !! "postTitle" = Some (VStr (Post.postTitle post))
  /\ fields !! "slug" = Some (VStr (Post.slug post))
  /\ fields !! "publishDate" = Some (VStr (Post.publishDate post))
  /\ Js.Ok <$> fields !! "content"
     = Some (convertContent turndown format assetUrls (VStr (Post.content post)))
  /\ fields !! "tags" = Some (VStr (Js.join ", " (Post.tags post)))
  /\ fields !! "categories" = Some (VStr (Js.join ", " (Post.categories post)))
  /\ Forall (fun key => fields !! key = None) keysToSkip
  /\ (forall key, is_Some (fields !! key) -> In key payloadKeys)
  /\ (fields !! "featuredImage" = None <-> Post.featuredImage post = 0%Z)
  /\ ((0 < Post.featuredImage post)%Z ->
      exists asset, fields !! "featuredImage" = Some (VLink "Asset" (Asset.assetId asset)))
  /\ ((Post.featuredImage post < 0)%Z ->
      fields !! "featuredImage" = Some (VNum (Post.featuredImage post))).
Proof.
  intros Hfields.
  destruct (Z.lt_trichotomy (Post.featuredImage post) 0) as [Hneg | [Hzero | Hpos]].
  - rewrite postFields_negative in Hfields by done.
    destruct (convertContent turndown format assetUrls (VStr (Post.content post)))
      as [content|e]; [|done].
    cbn [mbind result_bind Js.bind] in Hfields. injection Hfields as <-.
    payload_conjuncts.
    1-6: by payload_lookup.
    + unfold keysToSkip. repeat constructor; by payload_lookup.
    + intros key Hkey. payload_key Hkey.
    + payload_lookup. split; [done | lia].
    + lia.
    + intros _. by payload_lookup.
  - rewrite postFields_no_featured in Hfields by done.
    destruct (convertContent turndown format assetUrls (VStr (Post.content post)))
      as [content|e]; [|done].
    cbn [mbind result_bind Js.bind] in Hfields. injection Hfields as <-.
    payload_conjuncts.
    1-6: by payload_lookup.
    + unfold keysToSkip. repeat constructor; by payload_lookup.
    + intros key Hkey. payload_key Hkey.
    + by payload_lookup.
    + lia.
    + lia.
  - rewrite postFields_featured in Hfields by done.
    destruct (convertContent turndown format assetUrls (VStr (Post.content post)))
      as [content|e]; [|done].
    destruct (featuredLink assets post) as [link|e] eqn:Hlink; [|done].
    apply featuredLink_ok in Hlink as (first & rest & asset & _ & _ & ->).
    cbn [mbind result_bind Js.bind] in Hfields. injection Hfields as <-.
    payload_conjuncts.
    1-6: by payload_lookup.
    + unfold keysToSkip. repeat constructor; by payload_lookup.
    + intros key Hkey. payload_key Hkey.
    + payload_lookup. split; [done | lia].
    + intros _. exists asset. by payload_lookup.
    + lia.
Qed.

Lemma payload_holds_the_seven_fields_witness :
  exists fields,
    postFields Sample.plain_turndown Markdown []
               [ {| Asset.assetId := "asset-0"; Asset.fileName := "cover.jpg" |} ] Sample.post
    = Js.Ok fields
    /\ fields !! "slug" = Some (VStr "hello")
    /\ fields !! "tags" = Some (VStr "Go, Rust")
    /\ fields !! "id" = None
    /\ fields !! "featuredImage" <> None.
Proof.
  destruct (postFields Sample.plain_turndown Markdown []
              [ {| Asset.assetId := "asset-0"; Asset.fileName := "cover.jpg" |} ] Sample.post)
    as [fields|e] eqn:Hfields.
  - exists fields. split; [reflexivity|].
    destruct (payload_holds_the_seven_fields Sample.plain_turndown Markdown []
                [ {| Asset.assetId := "asset-0"; Asset.fileName := "cover.jpg" |} ]
                Sample.post fields Hfields)
      as (_ & Hslug & _ & _ & Htags & _ & Hskip & _ & Hfeatured & _).
    split; [exact Hslug|]. split; [exact Htags|].
    split; [by inversion Hskip|].
    intros Hnone. by apply Hfeatured in Hnone.
  - exfalso. rewrite postFields_featured in Hfields by done.
    erewrite (featuredLink_first_named _ Sample.post Sample.coverRef []) in Hfields
      by reflexivity.
    discriminate Hfields.
Defined.

Lemma lookup_map_entries {A B} (f : nat -> A -> B) (l : list A) : forall start index,
  map (fun '(i, a) => f i a) (combine (seq start (length l)) l) !! index
  = f (start + index)%nat <$> l !! index.
Proof.
  induction l as [|a l IH]; intros start index; [done|].
  destruct index as [|index]; simpl.
  - by rewrite Nat.add_0_r.
  - rewrite IH. by rewrite Nat.add_succ_r.
Qed.

Lemma omap_length_le {A B} (f : A -> option B) (l : list A) :
  (length (omap f l) <= length l)%nat.
Proof.
  induction l as [|a l IH]; [done|]. rewrite omap_cons.
  destruct (f a); simpl; lia.
Qed.

(** X18: after [createContentfulAssets] the array [assets] holds exactly the
    assets of the requests that got published (a request that fails at any
    stage leaves nothing), at most one per settled request, and [Promise.all]
    resolves to one element per request: the asset, or [null] for a request
    that failed. *)
Theorem stored_assets_are_the_published_uploads
    (environment : nat -> AssetObj.t -> upload)
    (settled : list nat) (promises : list AssetObj.t) :
  (forall asset,
      In asset (createContentfulAssets environment settled promises).2
      <-> exists index request,
            In index settled
            /\ promises !! index = Some request
            /\ environment index request = Published asset)
  /\ (forall index,
        (createContentfulAssets environment settled promises).1 !! index
        = assetPromise environment index <$> promises !! index)
  /\ (length (createContentfulAssets environment settled promises).2 <= length settled)%nat.
Proof.
  split; [|split].
  - intros asset. rewrite createContentfulAssets_assets, <- list_elem_of_In, list_elem_of_omap.
    split.
    + intros (index & Hin & Hasset). exists index.
      destruct (promises !! index) as [request|] eqn:Hrequest; [|done].
      exists request. split; [by apply list_elem_of_In|]. split; [done|].
      simpl in Hasset. unfold assetPromise in Hasset.
      destruct (environment index request); by try injection Hasset as ->.
    + intros (index & request & Hin & Hrequest & Henv). exists index.
      split; [by apply list_elem_of_In|].
      rewrite Hrequest. simpl. unfold assetPromise. by rewrite Henv.
  - intros index. unfold createContentfulAssets, entries. cbn [fst].
    exact (lookup_map_entries (assetPromise environment) promises 0 index).
  - rewrite createContentfulAssets_assets. apply omap_length_le.
Qed.

Lemma request_of_first_image posts post first rest :
  In post posts ->
  Post.contentImages post = first :: rest ->
  In (assetObj post 0 first) (buildContentfulAssets posts).
Proof.
  intros Hin Himages. rewrite buildContentfulAssets_flat_map. apply in_flat_map.
  exists post. split; [done|]. rewrite Himages. unfold entries. simpl. by left.
Qed.

(** X19: when the destination publishes every request under the file name of
    the request, every request has settled, the destination lists its assets,
    the conversion of every content returns, and every post with a positive
    featured image id has at least one image, one payload per post reaches
    [createContentfulEntries]; when the listing of the assets fails,
    [createContentfulPosts] is never called, whatever was uploaded. *)
Theorem every_upload_published_gives_every_payload
    (turndown : list string -> string -> Js.result string) (format : contentFormat)
    (assetUrls : list string) (environment : nat -> AssetObj.t -> upload)
    (entryAccepted : nat -> gmap string value -> bool)
    (settled : list nat) (posts : list Post.t) :
  (forall index request,
      exists asset,
        environment index request = Published asset
        /\ Asset.fileName asset = AssetObj.fileName request) ->
  (forall index, (index < length (buildContentfulAssets posts))%nat -> In index settled) ->
  Forall (convertible turndown format assetUrls) posts ->
  Forall (fun post => (0 < Post.featuredImage post)%Z -> Post.contentImages post <> []) posts ->
  (exists payloads,
      (publish turndown format (Some assetUrls) environment entryAccepted settled posts).2
      = Some (Js.Ok (createContentfulEntries entryAccepted payloads))
      /\ length payloads = length posts)
  /\ (publish turndown format None environment entryAccepted settled posts).2 = None.
Proof.
  intros Hpublished Hsettled Hconvertible Himages. unfold publish.
  pose proof (createContentfulAssets_assets environment settled (buildContentfulAssets posts))
    as Hassets.
  destruct (createContentfulAssets environment settled (buildContentfulAssets posts))
    as [resolved assets].
  cbn [snd] in *. split; [|done].
  assert (Hlinkable : Forall (linkable assets) posts).
  { apply List.Forall_forall. intros post Hin.
    destruct (Z.le_gt_cases (Post.featuredImage post) 0) as [Hle | Hpos]; [by left|].
    right. rewrite List.Forall_forall in Himages. specialize (Himages post Hin Hpos).
    destruct (Post.contentImages post) as [|first rest] eqn:Hpost; [done|].
    pose proof (request_of_first_image posts post first rest Hin Hpost) as Hrequest.
    apply list_elem_of_In, list_elem_of_lookup in Hrequest as [index Hindex].
    destruct (Hpublished index (assetObj post 0 first)) as (asset & Henv & Hname).
    assert (Hstored : In asset assets).
    { rewrite Hassets. apply list_elem_of_In, list_elem_of_omap. exists index.
      split.
      - apply list_elem_of_In, Hsettled. by apply lookup_lt_Some in Hindex.
      - rewrite Hindex. simpl. unfold assetPromise. by rewrite Henv. }
    unfold firstAssetNamed.
    destruct (List.find (fun a => String.eqb (Asset.fileName a) (fileNameOf first)) assets)
      as [found|] eqn:Hfind.
    - by exists first, rest, found.
    - apply (List.find_none _ _ Hfind) in Hstored.
      cbn [assetObj AssetObj.fileName] in Hname. unfold fileNameOf in Hstored.
      rewrite Hname, String.eqb_refl in Hstored. done. }
  destruct (Forall2_ok_length (postFields turndown format assetUrls assets) posts)
    as [built Hbuilt].
  { apply List.Forall_forall. intros post Hin.
    apply (postFields_linkable turndown format assetUrls). split.
    - rewrite List.Forall_forall in Hconvertible. by apply Hconvertible.
    - rewrite List.Forall_forall in Hlinkable. by apply Hlinkable. }
  exists built. split.
  - assert (Hposts : createContentfulPosts turndown format assetUrls assets posts
                     = Js.Ok ([] ++ built))
      by (apply foldM_push; by exists built).
    unfold getAndStoreAssets. cbn [mbind option_bind]. by rewrite Hposts.
  - symmetry. by apply Forall2_length in Hbuilt.
Qed.

Lemma every_upload_published_gives_every_payload_witness :
  (exists payloads,
      (publish Sample.plain_turndown Markdown (Some []) Sample.accepting accepts_all
               [1; 0]%nat [Sample.post; Sample.post_plain; Sample.post]).2
      = Some (Js.Ok (createContentfulEntries accepts_all payloads))
      /\ length payloads = 3%nat)
  /\ (publish Sample.plain_turndown Markdown None Sample.accepting accepts_all
              [1; 0]%nat [Sample.post; Sample.post_plain; Sample.post]).2
     = None.
Proof.
  apply (every_upload_published_gives_every_payload Sample.plain_turndown Markdown []
           Sample.accepting accepts_all [1; 0]%nat
           [Sample.post; Sample.post_plain; Sample.post]).
  - intros index request. eexists. split; reflexivity.
  - intros index Hindex. change (index < 2)%nat in Hindex. simpl.
    destruct index as [|[|index]]; [by right; left | by left | lia].
  - repeat constructor; by eexists.
  - repeat constructor; done.
Defined.

(** * The run up to the reduced posts *)

Lemma fieldData_reduced apiData postData :
  (mediaCollection apiData <> None \/ (Raw.featured_media postData <= 0)%Z) ->
  (fieldData apiData postData).2 = Js.Ok (reducedPost apiData postData).
Proof.
  intros Hcase. unfold fieldData, reducedPost.
  pose proof (getPostLabels_resolved apiData (Raw.tags postData) "tags") as Htags.
  pose proof (getPostLabels_resolved apiData (Raw.categories postData) "categories") as Hcats.
  destruct (getPostLabels apiData (Raw.tags postData) "tags") as [log1 tags].
  destruct (getPostLabels apiData (Raw.categories postData) "categories") as [log2 cats].
  cbn [snd] in Htags, Hcats. subst tags cats.
  assert (Himages : (getPostBodyImages apiData postData).2
                    = Js.Ok (featuredRefs (default [] (mediaCollection apiData)) postData
                             ++ bodyRefs postData)).
  { destruct (mediaCollection apiData) as [collection|] eqn:Hcollection.
    - by apply getPostBodyImages_ok.
    - destruct Hcase as [Hcase | Hle]; [done|].
      rewrite getPostBodyImages_no_featured by done. cbn [snd]. unfold featuredRefs.
      destruct (Z.ltb_spec 0 (Raw.featured_media postData)); [lia | done]. }
  destruct (getPostBodyImages apiData postData) as [log3 images].
  cbn [snd] in *. by subst images.
Qed.

Lemma fieldData_throws apiData postData :
  mediaCollection apiData = None ->
  (0 < Raw.featured_media postData)%Z ->
  exists e, (fieldData apiData postData).2 = Js.Throw e.
Proof.
  intros Hnone Hpos. unfold fieldData.
  destruct (getPostLabels apiData (Raw.tags postData) "tags") as [log1 tags].
  destruct (getPostLabels apiData (Raw.categories postData) "categories") as [log2 cats].
  assert (Himages : exists e, (getPostBodyImages apiData postData).2 = Js.Throw e).
  { unfold getPostBodyImages, featuredPart. unfold mediaCollection in Hnone.
    destruct (Z.ltb_spec 0 (Raw.featured_media postData)); [|lia].
    destruct (getApiDataType apiData "media") as [log0 [|mediaData others]]; [|done].
    cbn. by eexists. }
  destruct (getPostBodyImages apiData postData) as [log3 images].
  cbn [snd] in *. destruct Himages as [e ->]. by exists e.
Qed.

Lemma reducePosts_reducible apiData data :
  reducible apiData data = true ->
  reducePosts apiData data = Js.Ok (map (reducedPost apiData) data).
Proof.
  intros Hreducible. unfold reducePosts.
  apply (foldM_push (fun postData => (fieldData apiData postData).2) data [] _).
  exists (map (reducedPost apiData) data). split; [done|].
  unfold reducible in Hreducible.
  induction data as [|postData data IH]; [constructor|].
  simpl. constructor.
  - apply fieldData_reduced.
    destruct (mediaCollection apiData); [by left|]. right.
    simpl in Hreducible. apply andb_true_iff in Hreducible as [Hle _]. lia.
  - apply IH. destruct (mediaCollection apiData); [done|].
    simpl in Hreducible. by apply andb_true_iff in Hreducible as [_ ?].
Qed.

Lemma reducePosts_not_reducible apiData data :
  reducible apiData data = false ->
  exists e, reducePosts apiData data = Js.Throw e.
Proof.
  intros Hreducible. unfold reducible in Hreducible.
  destruct (mediaCollection apiData) eqn:Hcollection; [done|].
  assert (Hsome : exists postData,
             In postData data /\ (0 < Raw.featured_media postData)%Z).
  { induction data as [|postData data IH]; [done|].
    simpl in Hreducible. apply andb_false_iff in Hreducible as [Hpos | Hrest].
    - exists postData. split; [by left | lia].
    - destruct (IH Hrest) as (p & Hin & Hp). exists p. split; [by right | done]. }
  destruct Hsome as (postData & Hin & Hpos).
  unfold reducePosts. apply foldM_throws with (x := postData); [|done].
  intros posts. destruct (fieldData_throws apiData postData Hcollection Hpos) as [e ->].
  by exists e.
Qed.

Lemma fetchRecords_returns getRecords endpoint :
  exists result,
    Fetch.fetchDataWithPagination (getRecords endpoint) (maxItems endpoint) = Some result
    /\ fetchRecords getRecords endpoint
       = Some {| Api.success := Fetch.success result;
                 Api.endpoint := endpoint;
                 Api.data := Fetch.data result |}.
Proof.
  destruct (fetchDataWithPagination_returns (getRecords endpoint) (maxItems endpoint))
    as [result Hresult].
  exists result. split; [done|]. unfold fetchRecords. by rewrite Hresult.
Qed.

Lemma fetchedRecords_returns getRecords :
  exists apiData, fetchedRecords getRecords = Some apiData.
Proof.
  unfold fetchedRecords.
  destruct (fetchRecords_returns getRecords "tags") as (? & _ & ->).
  destruct (fetchRecords_returns getRecords "categories") as (? & _ & ->).
  destruct (fetchRecords_returns getRecords "media") as (? & _ & ->).
  by eexists.
Qed.

(** How the first half of the run ends. *)
Lemma run_outcome_lemma
    (connected : bool) (getPosts : nat -> nat -> Fetch.response Raw.post)
    (getRecords : string -> nat -> nat -> Fetch.response Api.obj)
    (import_post_count : nat) :
  exists apiPosts apiData,
    Fetch.fetchDataWithPagination getPosts import_post_count = Some apiPosts
    /\ fetchedRecords getRecords = Some apiData
    /\ migrateContent connected getPosts getRecords import_post_count
       = Some (if connected && Fetch.success apiPosts
                  && reducible apiData (Fetch.data apiPosts)
               then Reduced (map (reducedPost apiData) (Fetch.data apiPosts))
               else Exit 1).
Proof.
  destruct (fetchDataWithPagination_returns getPosts import_post_count) as [apiPosts Hposts].
  destruct (fetchedRecords_returns getRecords) as [apiData HapiData].
  exists apiPosts, apiData. split; [done|]. split; [done|].
  unfold migrateContent. destruct connected; [|done].
  rewrite Hposts, HapiData. cbn [negb mbind option_bind andb]. f_equal.
  unfold mapData.
  assert (Hsuccess : Fetch.success apiPosts = (0 <? length (Fetch.data apiPosts))%nat).
  { unfold Fetch.fetchDataWithPagination in Hposts.
    destruct (Fetch.loop getPosts import_post_count import_post_count Fetch.init); [|done].
    by injection Hposts as <-. }
  destruct (Fetch.success apiPosts); cbn [negb andb]; [|done].
  symmetry in Hsuccess. apply Nat.ltb_lt in Hsuccess.
  destruct (Nat.eqb_spec (length (Fetch.data apiPosts)) 0) as [Hzero | _]; [lia|].
  destruct (reducible apiData (Fetch.data apiPosts)) eqn:Hreducible.
  - by rewrite reducePosts_reducible.
  - by destruct (reducePosts_not_reducible _ _ Hreducible) as [e ->].
Qed.

(** X20: the first half of the run always ends, and how it ends is decided
    by three things.  It hands on the reduced posts, one per fetched post and
    in fetch order, when the connection test got through, the posts fetch
    brought at least one post, and either the media fetch brought at least one
    item or no fetched post has a positive featured media id; in every other
    case the process exits with code 1. *)
Theorem run_hands_on_the_reduced_posts_or_exits_with_1
    (connected : bool) (getPosts : nat -> nat -> Fetch.response Raw.post)
    (getRecords : string -> nat -> nat -> Fetch.response Api.obj)
    (import_post_count : nat) :
  exists apiPosts apiData,
    Fetch.fetchDataWithPagination getPosts import_post_count = Some apiPosts
    /\ fetchedRecords getRecords = Some apiData
    /\ migrateContent connected getPosts getRecords import_post_count
       = Some (if connected && Fetch.success apiPosts
                  && reducible apiData (Fetch.data apiPosts)
               then Reduced (map (reducedPost apiData) (Fetch.data apiPosts))
               else Exit 1).
Proof. exact (run_outcome_lemma connected getPosts getRecords import_post_count). Qed.

(** X21: [mapData] has a branch that exits with code 0 for a successful posts
    result without posts, but no run reaches it: the fetch reports success
    only when it brought something, so a site without posts ends with code 1
    and the run never exits with code 0. *)
Theorem run_never_exits_with_0
    (connected : bool) (getPosts : nat -> nat -> Fetch.response Raw.post)
    (getRecords : string -> nat -> nat -> Fetch.response Api.obj)
    (import_post_count : nat) :
  (forall apiPosts apiData,
      mapData apiPosts apiData = Js.Ok (Exit 0)
      <-> Fetch.success apiPosts = true /\ Fetch.data apiPosts = [])
  /\ (forall apiPosts,
        Fetch.fetchDataWithPagination getPosts import_post_count = Some apiPosts ->
        (Fetch.success apiPosts = true <-> Fetch.data apiPosts <> []))
  /\ migrateContent connected getPosts getRecords import_post_count <> Some (Exit 0)
  /\ migrateContent connected (Fetch.wordpress []) getRecords import_post_count
     = Some (Exit 1).
Proof.
  assert (Hfetch : forall (get : nat -> nat -> Fetch.response Raw.post) apiPosts,
             Fetch.fetchDataWithPagination get import_post_count = Some apiPosts ->
             Fetch.success apiPosts = (0 <? length (Fetch.data apiPosts))%nat).
  { intros get apiPosts Hposts. unfold Fetch.fetchDataWithPagination in Hposts.
    destruct (Fetch.loop get import_post_count import_post_count Fetch.init); [|done].
    by injection Hposts as <-. }
  split; [|split; [|split]].
  - intros apiPosts apiData. unfold mapData.
    destruct (Fetch.success apiPosts); cbn [negb].
    + destruct (Fetch.data apiPosts) as [|postData data]; [done|].
      cbn [length Nat.eqb].
      destruct (reducePosts apiData (postData :: data)); simpl; split;
        try done; intros [_ ?]; done.
    + split; [done | intros [? _]; done].
  - intros apiPosts Hposts. rewrite (Hfetch _ _ Hposts).
    destruct (Fetch.data apiPosts); simpl; split; done.
  - destruct (run_outcome_lemma connected getPosts getRecords import_post_count)
      as (apiPosts & apiData & _ & _ & ->).
    by destruct (connected && Fetch.success apiPosts
                 && reducible apiData (Fetch.data apiPosts)).
  - destruct (run_outcome_lemma connected (Fetch.wordpress []) getRecords import_post_count)
      as (apiPosts & apiData & Hposts & _ & ->).
    assert (Hnone : Fetch.success apiPosts = false).
    { destruct import_post_count as [|n].
      - by injection Hposts as <-.
      - rewrite (fetch_nothing (@nil Raw.post) (S n)) in Hposts by (simpl; lia).
        by injection Hposts as <-. }
    by rewrite Hnone, andb_false_r.
Qed.

Lemma fetch_success {item : Type} (get : nat -> nat -> Fetch.response item)
    (totalItemsNeeded : nat) (result : Fetch.fetched item) :
  Fetch.fetchDataWithPagination get totalItemsNeeded = Some result ->
  Fetch.success result = (0 <? length (Fetch.data result))%nat.
Proof.
  unfold Fetch.fetchDataWithPagination.
  destruct (Fetch.loop get totalItemsNeeded totalItemsNeeded Fetch.init); [|done].
  by intros [= <-].
Qed.

Lemma maxItems_page endpoint : (maxItems endpoint <= Fetch.maxPerPage)%nat.
Proof. unfold maxItems, Fetch.maxPerPage. destruct (String.eqb endpoint "media"); lia. Qed.

Lemma fetchRecords_wordpress getRecords endpoint records :
  getRecords endpoint = Fetch.wordpress records ->
  fetchRecords getRecords endpoint
  = Some {| Api.success := (0 <? length (take (maxItems endpoint) records))%nat;
            Api.endpoint := endpoint;
            Api.data := take (maxItems endpoint) records |}.
Proof.
  intros Hsource. unfold fetchRecords. rewrite Hsource.
  destruct (fetch_first_items records (maxItems endpoint)) as (result & Hresult & Hdata);
    [left; apply maxItems_page|].
  rewrite Hresult. cbn [mbind option_bind].
  by rewrite (fetch_success _ _ _ Hresult), Hdata.
Qed.

Lemma filter_other_endpoints labelType results :
  Forall (fun o => String.eqb (Api.endpoint o) labelType = false) results ->
  List.filter (fun o => String.eqb (Api.endpoint o) labelType && Api.success o) results = [].
Proof. induction 1 as [|o results Ho _ IH]; [done|]. simpl. by rewrite Ho. Qed.

Lemma resolveLabel_single before after labelType records labelId :
  Forall (fun o => String.eqb (Api.endpoint o) labelType = false) before ->
  Forall (fun o => String.eqb (Api.endpoint o) labelType = false) after ->
  resolveLabel
    (before ++ {| Api.success := (0 <? length records)%nat;
                  Api.endpoint := labelType;
                  Api.data := records |} :: after)
    labelType labelId
  = nameAmong records labelId.
Proof.
  intros Hbefore Hafter. unfold resolveLabel, nameAmong, getApiDataType.
  rewrite List.filter_app, (filter_other_endpoints _ _ Hbefore).
  cbn [app List.filter Api.endpoint Api.success].
  rewrite String.eqb_refl, (filter_other_endpoints _ _ Hafter).
  by destruct records.
Qed.

(** X22: the fetches of tags and categories stop at 50 records and the fetch
    of media at 100, so on a WordPress site the label lookup of the run sees
    the first 50 tag and the first 50 category records only, and the
    featured-image lookup the first 100 media records; an id whose record
    comes later resolves to nothing. *)
Theorem lookups_see_only_the_first_records
    (getRecords : string -> nat -> nat -> Fetch.response Api.obj)
    (tagRecords categoryRecords mediaRecords : list Api.obj) :
  getRecords "tags" = Fetch.wordpress tagRecords ->
  getRecords "categories" = Fetch.wordpress categoryRecords ->
  getRecords "media" = Fetch.wordpress mediaRecords ->
  exists apiData,
    fetchedRecords getRecords = Some apiData
    /\ (forall labelId,
          resolveLabel apiData "tags" labelId = nameAmong (take 50 tagRecords) labelId)
    /\ (forall labelId,
          resolveLabel apiData "categories" labelId
          = nameAmong (take 50 categoryRecords) labelId)
    /\ mediaCollection apiData
       = match mediaRecords with
         | [] => None
         | _ => Some (take 100 mediaRecords)
         end
    /\ (forall labelId,
          Forall (fun o => Api.id o <> labelId) (take 50 tagRecords) ->
          resolveLabel apiData "tags" labelId = None).
Proof.
  intros Htags Hcategories Hmedia. unfold fetchedRecords.
  rewrite (fetchRecords_wordpress getRecords "tags" tagRecords Htags).
  rewrite (fetchRecords_wordpress getRecords "categories" categoryRecords Hcategories).
  rewrite (fetchRecords_wordpress getRecords "media" mediaRecords Hmedia).
  cbn [mbind option_bind]. eexists. split; [reflexivity|].
  change (maxItems "tags") with 50%nat. change (maxItems "categories") with 50%nat.
  change (maxItems "media") with 100%nat.
  assert (Htag : forall labelId,
             resolveLabel
               [ {| Api.success := (0 <? length (take 50 tagRecords))%nat;
                    Api.endpoint := "tags"; Api.data := take 50 tagRecords |};
                 {| Api.success := (0 <? length (take 50 categoryRecords))%nat;
                    Api.endpoint := "categories"; Api.data := take 50 categoryRecords |};
                 {| Api.success := (0 <? length (take 100 mediaRecords))%nat;
                    Api.endpoint := "media"; Api.data := take 100 mediaRecords |} ]
               "tags" labelId
             = nameAmong (take 50 tagRecords) labelId).
  { intros labelId. apply (resolveLabel_single []); by repeat constructor. }
  split; [exact Htag|]. split; [|split].
  - intros labelId.
    apply (resolveLabel_single [ {| Api.success := _; Api.endpoint := "tags"; Api.data := _ |} ]);
      by repeat constructor.
  - unfold mediaCollection, getApiDataType. cbn [List.filter Api.endpoint Api.success].
    change (String.eqb "tags" "media") with false.
    change (String.eqb "categories" "media") with false.
    change (String.eqb "media" "media") with true. cbn [andb].
    by destruct mediaRecords.
  - intros labelId Habsent. rewrite Htag. unfold nameAmong.
    destruct (List.find _ (take 50 tagRecords)) as [o|] eqn:Hfind; [|done].
    apply List.find_some in Hfind as [Hin Hmatch].
    rewrite List.Forall_forall in Habsent. specialize (Habsent o Hin).
    apply andb_true_iff in Hmatch as [Hid _]. apply Z.eqb_eq in Hid. done.
Qed.

Lemma lookups_see_only_the_first_records_witness :
  exists apiData,
    fetchedRecords (sameRecords [Sample.label 9 "Rust"; Sample.label 5 "Go"]) = Some apiData
    /\ (forall labelId,
          resolveLabel apiData "tags" labelId
          = nameAmong (take 50 [Sample.label 9 "Rust"; Sample.label 5 "Go"]) labelId)
    /\ (forall labelId,
          resolveLabel apiData "categories" labelId
          = nameAmong (take 50 [Sample.label 9 "Rust"; Sample.label 5 "Go"]) labelId)
    /\ mediaCollection apiData
       = Some (take 100 [Sample.label 9 "Rust"; Sample.label 5 "Go"])
    /\ (forall labelId,
          Forall (fun o => Api.id o <> labelId)
                 (take 50 [Sample.label 9 "Rust"; Sample.label 5 "Go"]) ->
          resolveLabel apiData "tags" labelId = None).
Proof.
  apply (lookups_see_only_the_first_records
           (sameRecords [Sample.label 9 "Rust"; Sample.label 5 "Go"])
           [Sample.label 9 "Rust"; Sample.label 5 "Go"]
           [Sample.label 9 "Rust"; Sample.label 5 "Go"]
           [Sample.label 9 "Rust"; Sample.label 5 "Go"]); reflexivity.
Defined.
